(** * Machine Stamping dashboard: the filtering and aggregation pipeline

    A shallow embedding of [Pandas/WebApp/main.py]: the three engine
    functions [filter_d1], [filter_d2_by_d1], [build_avg_time_series] and the
    request handler [get_data], together with the part of the pandas API they
    call; then the filter-values handler [get_filters] and the start-up
    function [load_data], whose reads of the file system are parameters.

    Conventions of the model.
    - A [DataFrame] is a list of labelled, typed columns and a list of rows;
      the row index is not modelled (the program never reads it).  Column
      labels are taken to be distinct, as they are in frames read from parquet.
    - Python variables hold references.  Frames live in a heap and every
      pandas call that builds a frame allocates a new one; the two in-place
      updates of the program ([sort_values(inplace=True)] and the column
      assignment [rows["timestamp"] = ...]) overwrite a heap cell.
    - A float is an IEEE 754 binary64 value and the arithmetic on floats is
      that of the Standard Library's [SpecFloat] at precision 53.  A number
      cell holds an integer or a float that is not NaN; NaN is the null
      cell.  A group mean is computed as pandas computes it, by compensated
      summation in row order and one division.
    - A timestamp is an instant, in nanoseconds since the epoch, within the
      years 1 to 9999; a datetime column is naive or carries a time zone,
      which gives the offset from UTC at each instant.
    - Where pandas versions differ, the model follows pandas 3: [isin] with
      strings never matches a cell that is not a string (pandas 2 parses
      the strings when the column is a datetime column).
    - Logging and the JSON serialisation of the payload are left out: a
      handler of the model ends with the payload it hands to
      [JSONResponse]. *)

From Stdlib Require Import String Ascii ZArith QArith Bool Arith Lia List.
From Stdlib Require Import Floats.SpecFloat.
From Stdlib Require Import Sorting.Sorted.
Import ListNotations.

Local Open Scope string_scope.
Local Open Scope list_scope.
Local Open Scope nat_scope.

(* ===================================================================== *)
(** ** Cells, columns, frames *)
(* ===================================================================== *)

(** A time zone: the offset from UTC, in seconds, at an instant given in
    nanoseconds since the epoch ([tz.utcoffset]). *)
Definition tzinfo : Type := Z -> Z.

(** The dtype of a column, as far as the program can tell them apart:
    [select_dtypes(include="number")] keeps [Number] columns, the [.dt]
    accessor exists on datetime columns only, which are naive ([Datetime],
    [datetime64[ns]]) or carry a time zone ([DatetimeTZ],
    [datetime64[ns, tz]]). *)
Inductive dtype : Type :=
| Number
| Datetime
| Object
| DatetimeTZ (tz : tzinfo).

(** A float of the program: a binary64 value. *)
Definition float : Type := spec_float.

(** A number of a frame: an integer, or a float that is not NaN ([FFinite s
    m e] is [m * 2^e], negated when [s] is set). *)
Inductive number : Type :=
| Int (z : Z)
| FZero (s : bool)
| FInf (s : bool)
| FFinite (s : bool) (m : positive) (e : Z).

(** One value of a frame.  [VTime] carries nanoseconds since the epoch;
    [VNull] stands for [None], [NaN] and [NaT]. *)
Inductive cell : Type :=
| VStr (s : string)
| VNum (x : number)
| VTime (ns : Z)
| VNull.

Record DataFrame : Type := mkFrame {
  columns : list (string * dtype);
  values : list (list cell)
}.

Definition is_number (d : dtype) : bool :=
  match d with Number => true | _ => false end.

(** The value of a number, on the extended rational line. *)
Inductive extended : Type :=
| MinusInf
| Rational (q : Q)
| PlusInf.

Definition value (x : number) : extended :=
  match x with
  | Int z => Rational (inject_Z z)
  | FZero _ => Rational 0%Q
  | FInf s => if s then MinusInf else PlusInf
  | FFinite s m e =>
      Rational (inject_Z (if s then Zneg m else Zpos m) * Qpower (2 # 1) e)%Q
  end.

(** Numbers are compared by value: [1 == 1.0] and [0.0 == -0.0]. *)
Definition number_eqb (x y : number) : bool :=
  match value x, value y with
  | Rational p, Rational q => Qeq_bool p q
  | MinusInf, MinusInf => true
  | PlusInf, PlusInf => true
  | _, _ => false
  end.

Definition number_leb (x y : number) : bool :=
  match value x, value y with
  | Rational p, Rational q => Qle_bool p q
  | MinusInf, _ => true
  | _, PlusInf => true
  | _, _ => false
  end.

(** Equality of cells as the pandas hash tables see it: same kind and same
    value; a null matches a null. *)
Definition cell_eqb (a b : cell) : bool :=
  match a, b with
  | VStr s, VStr t => String.eqb s t
  | VNum p, VNum q => number_eqb p q
  | VTime m, VTime n => Z.eqb m n
  | VNull, VNull => true
  | _, _ => false
  end.

Definition is_null (c : cell) : bool :=
  match c with VNull => true | _ => false end.

(** Position of the first column labelled [c]. *)
Fixpoint column_index (c : string) (cols : list (string * dtype)) : option nat :=
  match cols with
  | [] => None
  | (name, _) :: rest =>
      if String.eqb c name then Some 0
      else option_map S (column_index c rest)
  end.

(** [c in df.columns] *)
Definition has_column (c : string) (df : DataFrame) : bool :=
  match column_index c (columns df) with Some _ => true | None => false end.

Definition column_dtype (c : string) (df : DataFrame) : option dtype :=
  match column_index c (columns df) with
  | Some i => option_map snd (nth_error (columns df) i)
  | None => None
  end.

(** The cell of a row under the column at position [i]. *)
Definition cell_at (i : nat) (row : list cell) : cell := nth i row VNull.

(** [df.empty]: no rows or no columns. *)
Definition df_empty (df : DataFrame) : bool :=
  (length (values df) =? 0) || (length (columns df) =? 0).

(** [Series.isin(vals)] on one cell. *)
Definition isin (vals : list cell) (c : cell) : bool :=
  existsb (cell_eqb c) vals.

(** [Series.unique()]: the distinct values in order of first appearance. *)
Fixpoint unique (l : list cell) : list cell :=
  match l with
  | [] => []
  | x :: xs => x :: filter (fun y => negb (cell_eqb x y)) (unique xs)
  end.

(** [Series.dropna()] *)
Definition dropna (s : list cell) : list cell :=
  filter (fun c => negb (is_null c)) s.

(** Two cells are of the same kind. *)
Definition same_kind (a b : cell) : bool :=
  match a, b with
  | VStr _, VStr _ => true
  | VNum _, VNum _ => true
  | VTime _, VTime _ => true
  | VNull, VNull => true
  | _, _ => false
  end.

(** The non-null cells of a column are of one kind. *)
Definition one_kind (s : list cell) : bool :=
  match dropna s with
  | [] => true
  | x :: rest => forallb (same_kind x) rest
  end.

(** [not (b < a)] on values of one kind. *)
Definition cell_le (a b : cell) : bool :=
  match a, b with
  | VStr s, VStr t => String.leb s t
  | VNum p, VNum q => number_leb p q
  | VTime m, VTime n => (m <=? n)%Z
  | _, _ => true
  end.

Fixpoint insert_cell (x : cell) (l : list cell) : list cell :=
  match l with
  | [] => [x]
  | y :: rest => if cell_le x y then x :: l else y :: insert_cell x rest
  end.

(** Boolean indexing [df[mask]]: the rows under a [true]. *)
Fixpoint select_mask {A : Type} (mask : list bool) (l : list A) : list A :=
  match mask, l with
  | b :: m, x :: xs => if b then x :: select_mask m xs else select_mask m xs
  | _, _ => []
  end.

(** [df.select_dtypes(include="number").columns.tolist()] *)
Definition numeric_cols (df : DataFrame) : list string :=
  map fst (filter (fun c => is_number (snd c)) (columns df)).

(** [pd.DataFrame(columns=df.columns)]: same labels, no rows, and every
    column of dtype object. *)
Definition empty_like (df : DataFrame) : DataFrame :=
  mkFrame (map (fun c => (fst c, Object)) (columns df)) [].

(** Replace the cell at position [i] of a row. *)
Fixpoint set_nth {A : Type} (i : nat) (x : A) (l : list A) : list A :=
  match l, i with
  | [], _ => []
  | _ :: t, O => x :: t
  | h :: t, S i' => h :: set_nth i' x t
  end.

(** [df[c] = series] for an existing column at position [i]: the column takes
    the dtype of the series and each row its new cell. *)
Definition set_column (i : nat) (d : dtype) (series : list cell) (df : DataFrame)
  : DataFrame :=
  mkFrame
    (match nth_error (columns df) i with
     | Some (name, _) => set_nth i (name, d) (columns df)
     | None => columns df
     end)
    (map (fun rc => set_nth i (snd rc) (fst rc)) (combine (values df) series)).

(* ===================================================================== *)
(** ** Group-wise mean *)
(* ===================================================================== *)

(** Binary64 arithmetic, to nearest with ties to even. *)
Definition prec64 : Z := 53.
Definition emax64 : Z := 1024.

Definition float_add : float -> float -> float := SFadd prec64 emax64.
Definition float_sub : float -> float -> float := SFsub prec64 emax64.
Definition float_div : float -> float -> float := SFdiv prec64 emax64.

(** The float nearest to [m * 2^e]. *)
Definition dyadic (m e : Z) : float := binary_normalize prec64 emax64 m e false.

(** The float nearest to an integer: the cast of an int64 to float64. *)
Definition float_of_Z (z : Z) : float := dyadic z 0.

Definition is_nan (f : float) : bool :=
  match f with S754_nan => true | _ => false end.

Definition float_of_number (x : number) : float :=
  match x with
  | Int z => float_of_Z z
  | FZero s => S754_zero s
  | FInf s => S754_infinity s
  | FFinite s m e => S754_finite s m e
  end.

(** A float as the cell of a frame: NaN is the null. *)
Definition cell_of_float (f : float) : cell :=
  match f with
  | S754_nan => VNull
  | S754_zero s => VNum (FZero s)
  | S754_infinity s => VNum (FInf s)
  | S754_finite s m e => VNum (FFinite s m e)
  end.

(** Add the value [v] to the group of key [k]; groups are kept in ascending
    key order ([groupby] sorts its keys), values in row order. *)
Fixpoint group_insert (k : Z) (v : cell) (gs : list (Z * list cell))
  : list (Z * list cell) :=
  match gs with
  | [] => [(k, [v])]
  | (k', vs) :: rest =>
      match (k ?= k')%Z with
      | Lt => (k, [v]) :: gs
      | Eq => (k', vs ++ [v]) :: rest
      | Gt => (k', vs) :: group_insert k v rest
      end
  end.

(** [groupby(key)[target]]: rows whose key is null fall in no group
    ([dropna=True]). *)
Definition groupby (keyed : list (cell * cell)) : list (Z * list cell) :=
  fold_left
    (fun gs kv =>
       match fst kv with
       | VTime t => group_insert t (snd kv) gs
       | _ => gs
       end)
    keyed [].

(** [groupby(key)[target]] on keys that are not timestamps but of one kind,
    strings or numbers: the distinct keys in ascending order, each with the
    values of its rows in row order; null keys fall in no group. *)
Definition groupby_keys (keyed : list (cell * cell)) : list (cell * list cell) :=
  map (fun k => (k, map snd (filter (fun kv => cell_eqb (fst kv) k) keyed)))
    (fold_right insert_cell [] (unique (dropna (map fst keyed)))).

(** What pandas keeps for one group while it runs over the rows
    ([group_mean]): the number of values seen, their sum so far, and the
    compensation of the summation. *)
Record accumulator : Type := mkAcc {
  nobs : nat;
  sumx : float;
  compensation : float
}.

(** One more value in the sum of a group (Kahan summation): a compensation
    that comes out as NaN, as after an infinite value, is reset. *)
Definition kahan_step (acc : accumulator) (val : float) : accumulator :=
  let y := float_sub val (compensation acc) in
  let t := float_add (sumx acc) y in
  let c := float_sub (float_sub t (sumx acc)) y in
  mkAcc (S (nobs acc)) t (if is_nan c then S754_zero false else c).

(** One more cell of the group: its value as a float64; a null is
    skipped. *)
Definition add_cell (acc : accumulator) (v : cell) : accumulator :=
  match v with
  | VNum x => kahan_step acc (float_of_number x)
  | _ => acc
  end.

(** Sum and count of the non-null numbers of a group. *)
Definition sum_count (vs : list cell) : accumulator :=
  fold_left add_cell vs (mkAcc 0 (S754_zero false) (S754_zero false)).

(** [.mean()] of one group ([skipna]): the sum over the count, NaN when
    nothing is left. *)
Definition series_mean (vs : list cell) : cell :=
  let acc := sum_count vs in
  match nobs acc with
  | O => VNull
  | S _ =>
      cell_of_float (float_div (sumx acc) (float_of_Z (Z.of_nat (nobs acc))))
  end.

(** Order of [sort_values] on a column of one kind: ascending, nulls
    last. *)
Definition cell_leb (a b : cell) : bool :=
  match a, b with
  | VNull, VNull => true
  | VNull, _ => false
  | _, _ => cell_le a b
  end.

Fixpoint insert_row (i : nat) (r : list cell) (sorted : list (list cell))
  : list (list cell) :=
  match sorted with
  | [] => [r]
  | r' :: rest =>
      if cell_leb (cell_at i r) (cell_at i r') then r :: sorted
      else r' :: insert_row i r rest
  end.

(** [sort_values(col)] on the rows, by the column at position [i]. *)
Definition sort_rows (i : nat) (rs : list (list cell)) : list (list cell) :=
  fold_right (insert_row i) [] rs.

(** [float(val)]: NaN for a null. *)
Definition to_float (c : cell) : float :=
  match c with VNum x => float_of_number x | _ => S754_nan end.

(* ===================================================================== *)
(** ** Rendering of timestamps *)
(* ===================================================================== *)

(** Proleptic Gregorian date of a day count since 1970-01-01. *)
Definition civil_from_days (days : Z) : Z * Z * Z :=
  let z := (days + 719468)%Z in
  let era := (z / 146097)%Z in
  let doe := (z - era * 146097)%Z in
  let yoe := ((doe - doe / 1460 + doe / 36524 - doe / 146096) / 365)%Z in
  let doy := (doe - (365 * yoe + yoe / 4 - yoe / 100))%Z in
  let mp := ((5 * doy + 2) / 153)%Z in
  let d := (doy - (153 * mp + 2) / 5 + 1)%Z in
  let m := (if mp <? 10 then mp + 3 else mp - 9)%Z in
  let y := (yoe + era * 400)%Z in
  ((if m <=? 2 then y + 1 else y)%Z, m, d).

Definition digit (n : Z) : ascii :=
  ascii_of_nat (48 + Z.to_nat (n mod 10)).

(** [n] in decimal on exactly [width] digits, zero padded. *)
Fixpoint zero_pad (width : nat) (n : Z) : string :=
  match width with
  | O => ""
  | S w => zero_pad w (n / 10) ++ String (digit n) ""
  end.

(** Date and time of day, with [sep] between them. *)
Definition render_seconds (sep : string) (ns : Z) : string :=
  let secs := (ns / 1000000000)%Z in
  let sod := (secs mod 86400)%Z in
  let '(y, m, d) := civil_from_days (secs / 86400) in
  zero_pad 4 y ++ "-" ++ zero_pad 2 m ++ "-" ++ zero_pad 2 d ++ sep ++
  zero_pad 2 (sod / 3600) ++ ":" ++ zero_pad 2 (sod mod 3600 / 60) ++ ":" ++
  zero_pad 2 (sod mod 60).

(** The offset from UTC at an instant, in seconds: none for a naive
    timestamp. *)
Definition utcoffset (tz : option tzinfo) (ns : Z) : Z :=
  match tz with
  | Some zone => zone ns
  | None => 0%Z
  end.

(** What the clock of the zone shows at an instant, as nanoseconds since
    the epoch. *)
Definition wall_clock (tz : option tzinfo) (ns : Z) : Z :=
  (ns + utcoffset tz ns * 1000000000)%Z.

(** The offset as [datetime.isoformat] writes it: sign, hours and minutes,
    and the seconds when there are some. *)
Definition format_offset (off : Z) : string :=
  let a := Z.abs off in
  ((if (off <? 0)%Z then "-" else "+") ++
   zero_pad 2 (a / 3600) ++ ":" ++ zero_pad 2 (a mod 3600 / 60) ++
   (if (a mod 60 =? 0)%Z then "" else ":" ++ zero_pad 2 (a mod 60)))%string.

(** [Timestamp.isoformat()].  The text of [datetime.isoformat] comes first:
    the wall clock to the second, the microseconds on six digits when there
    are some, and the offset when the timestamp has a zone.  When there are
    nanoseconds pandas writes them before the last six characters of that
    text if there is a zone and at its end otherwise: on three digits after
    the microseconds, or as a fraction on nine digits. *)
Definition isoformat (tz : option tzinfo) (ns : Z) : string :=
  let local := wall_clock tz ns in
  let frac := (local mod 1000000000)%Z in
  let micro := (frac / 1000)%Z in
  let nano := (frac mod 1000)%Z in
  let zone :=
    match tz with
    | Some _ => format_offset (utcoffset tz ns)
    | None => ""
    end in
  let base :=
    (render_seconds "T" local ++
     (if (micro =? 0)%Z then "" else "." ++ zero_pad 6 micro) ++ zone)%string in
  if (nano =? 0)%Z then base
  else
    let cut :=
      match tz with
      | Some _ => String.length base - 6
      | None => String.length base
      end in
    (substring 0 cut base ++
     (if (micro =? 0)%Z then "." ++ zero_pad 9 nano else zero_pad 3 nano) ++
     substring cut (String.length base - cut) base)%string.

(** [strftime("%Y-%m-%d %H:%M:%S")]: the wall clock to the second. *)
Definition strftime (tz : option tzinfo) (ns : Z) : string :=
  render_seconds " " (wall_clock tz ns).

(** [Series.dt.strftime] on one cell: NaT stays null. *)
Definition strftime_cell (tz : option tzinfo) (c : cell) : cell :=
  match c with
  | VTime ns => VStr (strftime tz ns)
  | _ => VNull
  end.

(* ===================================================================== *)
(** ** References, exceptions and the program monad *)
(* ===================================================================== *)

Inductive exn : Type :=
| KeyError (key : string)
| AttributeError
| ValueError
| TypeError
| NameError.

Inductive result (A : Type) : Type :=
| Ok (a : A)
| Raise (e : exn).

Arguments Ok {A} a.
Arguments Raise {A} e.

(** A reference to a frame. *)
Definition loc : Type := nat.

(** The frames alive in the process, and the engine functions entered so far
    (a ghost record, used to tell what a request has run). *)
Record state : Type := mkState {
  heap : list DataFrame;
  calls : list string
}.

(** A computation reads and updates the state and returns or raises; the
    updates made before a raise stay. *)
Definition M (A : Type) : Type := state -> result A * state.

Definition ret {A : Type} (a : A) : M A := fun st => (Ok a, st).

Definition raise {A : Type} (e : exn) : M A := fun st => (Raise e, st).

Definition bind {A B : Type} (m : M A) (k : A -> M B) : M B :=
  fun st =>
    match m st with
    | (Ok a, st') => k a st'
    | (Raise e, st') => (Raise e, st')
    end.

Declare Scope prog_scope.
Delimit Scope prog_scope with prog.
Notation "x <- m ;; k" := (bind m (fun x => k))
  (at level 100, m at next level, right associativity) : prog_scope.
Notation "m ;; k" := (bind m (fun _ => k))
  (at level 100, right associativity) : prog_scope.
Local Open Scope prog_scope.

Definition result_bind {A B : Type} (r : result A) (k : A -> result B)
  : result B :=
  match r with
  | Ok a => k a
  | Raise e => Raise e
  end.

(** A result that leaves the state alone. *)
Definition lift {A : Type} (r : result A) : M A := fun st => (r, st).

(** A list comprehension whose element may raise: the elements in order,
    up to the first that raises. *)
Fixpoint traverse {A B : Type} (f : A -> result B) (l : list A)
  : result (list B) :=
  match l with
  | [] => Ok []
  | x :: rest =>
      result_bind (f x) (fun y =>
      result_bind (traverse f rest) (fun ys => Ok (y :: ys)))
  end.

Definition deref (l : loc) : M DataFrame :=
  fun st =>
    match nth_error (heap st) l with
    | Some df => (Ok df, st)
    | None => (Raise NameError, st)
    end.

Definition alloc (df : DataFrame) : M loc :=
  fun st => (Ok (length (heap st)), mkState (heap st ++ [df]) (calls st)).

Definition assign (l : loc) (df : DataFrame) : M unit :=
  fun st => (Ok tt, mkState (set_nth l df (heap st)) (calls st)).

Definition enter (fn : string) : M unit :=
  fun st => (Ok tt, mkState (heap st) (calls st ++ [fn])).

(* ===================================================================== *)
(** ** The pandas calls of the program, on references *)
(* ===================================================================== *)

(** [df.copy()] *)
Definition copy (l : loc) : M loc :=
  df <- deref l;;
  alloc df.

(** [df[c]]: the cells of a column, [KeyError] when there is none. *)
Definition getitem (l : loc) (c : string) : M (list cell) :=
  df <- deref l;;
  match column_index c (columns df) with
  | Some i => ret (map (cell_at i) (values df))
  | None => raise (KeyError c)
  end.

(** [df[mask]] *)
Definition getitem_mask (l : loc) (mask : list bool) : M loc :=
  df <- deref l;;
  alloc (mkFrame (columns df) (select_mask mask (values df))).

(** [df.head(n)] *)
Definition head (l : loc) (n : nat) : M loc :=
  df <- deref l;;
  alloc (mkFrame (columns df) (firstn n (values df))).

(** [pd.DataFrame(columns=df.columns)] *)
Definition frame_with_columns_of (l : loc) : M loc :=
  df <- deref l;;
  alloc (empty_like df).

(** The time zone of a datetime dtype: [Some None] for a naive one, no
    answer for a dtype that is not datetime-like. *)
Definition timezone (d : dtype) : option (option tzinfo) :=
  match d with
  | Datetime => Some None
  | DatetimeTZ tz => Some (Some tz)
  | _ => None
  end.

(** The time zone of the timestamps read from a column: that of its dtype;
    timestamps held by a column of another dtype are taken to be naive. *)
Definition column_tz (c : string) (df : DataFrame) : option tzinfo :=
  match column_dtype c df with
  | Some (DatetimeTZ tz) => Some tz
  | _ => None
  end.

(** The [.dt] accessor of a column of dtype [d]: it raises
    [AttributeError] on a column that is not datetime-like, whatever it
    holds, and works in the time zone of the column. *)
Definition dt (d : option dtype) : result (option tzinfo) :=
  match d with
  | Some Datetime => Ok None
  | Some (DatetimeTZ tz) => Ok (Some tz)
  | _ => Raise AttributeError
  end.

(** [df[c].dt.strftime("%Y-%m-%d %H:%M:%S")] *)
Definition dt_strftime (l : loc) (c : string) : M (list cell) :=
  df <- deref l;;
  s <- getitem l c;;
  tz <- lift (dt (column_dtype c df));;
  ret (map (strftime_cell tz) s).

(** [df[c] = series], in place. *)
Definition setitem (l : loc) (c : string) (series : list cell) : M unit :=
  df <- deref l;;
  match column_index c (columns df) with
  | Some i => assign l (set_column i Object series df)
  | None =>
      assign l (mkFrame (columns df ++ [(c, Object)])
                  (map (fun rc => fst rc ++ [snd rc])
                     (combine (values df) series)))
  end.

(** [df.to_dict(orient="records")] *)
Definition to_dict_records (l : loc) : M (list (list (string * cell))) :=
  df <- deref l;;
  ret (map (combine (map fst (columns df))) (values df)).

Definition time_or_null (c : cell) : bool :=
  match c with VTime _ | VNull => true | _ => false end.

(** The rows of the frame of the group means: one per group, in ascending
    order of the keys.  Keys of several kinds cannot be ordered, and the
    program stops with [TypeError], in [groupby] or at the latest in
    [sort_values]. *)
Definition group_rows (keys vals : list cell) : result (list (list cell)) :=
  if forallb time_or_null keys
  then Ok (map (fun g => [VTime (fst g); series_mean (snd g)])
             (groupby (combine keys vals)))
  else if one_kind keys
  then Ok (map (fun g => [fst g; series_mean (snd g)])
             (groupby_keys (combine keys vals)))
  else Raise TypeError.

(** [df.groupby(key)[target].mean().reset_index()]: a new frame of two
    columns, one row per group.  [reset_index] raises [ValueError] when the
    key is also the target. *)
Definition groupby_mean (l : loc) (key target : string) : M loc :=
  df <- deref l;;
  keys <- getitem l key;;
  vals <- getitem l target;;
  if String.eqb key target then raise ValueError
  else
    rs <- lift (group_rows keys vals);;
    alloc (mkFrame
             [(key, match column_dtype key df with Some d => d | None => Object end);
              (target, Number)]
             rs).

(** [df.sort_values(c, inplace=True)] *)
Definition sort_values_inplace (l : loc) (c : string) : M unit :=
  df <- deref l;;
  match column_index c (columns df) with
  | Some i => assign l (mkFrame (columns df) (sort_rows i (values df)))
  | None => raise (KeyError c)
  end.

(* ===================================================================== *)
(** ** The program *)
(* ===================================================================== *)

(** The store: [D1, D2, D3 = load_data()]. *)
Definition D1 : loc := 0.
Definition D2 : loc := 1.
Definition D3 : loc := 2.

Definition TABLE_ROW_LIMIT : nat := 400.

(** Truth value of an [Optional[List[str]]]. *)
Definition truthy (sel : option (list string)) : bool :=
  match sel with
  | Some (_ :: _) => true
  | _ => false
  end.

Definition selected (sel : option (list string)) : list cell :=
  match sel with
  | Some l => map VStr l
  | None => []
  end.

(** [df[df[c].isin(vals)]] *)
Definition isin_filter (df : loc) (c : string) (vals : list cell) : M loc :=
  s <- getitem df c;;
  getitem_mask df (map (isin vals) s).

Definition filter_d1 (d1 : loc)
    (machine_ids part_numbers tool_numbers : option (list string)) : M loc :=
  enter "filter_d1";;
  df <- copy d1;;
  df <- (if truthy machine_ids
         then isin_filter df "machine_id" (selected machine_ids)
         else ret df);;
  df <- (if truthy part_numbers
         then isin_filter df "part_number" (selected part_numbers)
         else ret df);;
  df <- (if truthy tool_numbers
         then isin_filter df "tool_number" (selected tool_numbers)
         else ret df);;
  ret df.

Definition filter_d2_by_d1 (d2 d1_filtered : loc) : M loc :=
  enter "filter_d2_by_d1";;
  f <- deref d1_filtered;;
  if df_empty f then frame_with_columns_of d2
  else
    ids <- getitem d1_filtered "machine_id";;
    let machines := unique ids in
    s <- getitem d2 "machine_id";;
    kept <- getitem_mask d2 (map (isin machines) s);;
    copy kept.

(** One element of the average series. *)
Record point : Type := mkPoint {
  timestamp : string;
  avg : float
}.

(** The target column: ["value"] when it is numeric, else the first numeric
    column, else none. *)
Definition select_target (numeric : list string) : option string :=
  if existsb (String.eqb "value") numeric then Some "value"
  else match numeric with
       | first :: _ => Some first
       | [] => None
       end.

(** [ts.isoformat()] on a value of the [timestamp] column: a timestamp has
    the method, and [NaT], which renders as ["NaT"]; a string or a number
    has not. *)
Definition isoformat_cell (tz : option tzinfo) (c : cell) : result string :=
  match c with
  | VTime ns => Ok (isoformat tz ns)
  | VNull => Ok "NaT"
  | _ => Raise AttributeError
  end.

(** One element of the comprehension: [ts.isoformat()], then
    [float(val)]. *)
Definition make_point (tz : option tzinfo) (ts val : cell) : result point :=
  result_bind (isoformat_cell tz ts) (fun text =>
  Ok (mkPoint text (to_float val))).

Definition build_avg_time_series (df : loc) : M (list point) :=
  enter "build_avg_time_series";;
  d <- deref df;;
  if df_empty d || negb (has_column "timestamp" d) then ret []
  else
    match select_target (numeric_cols d) with
    | None => ret []
    | Some target_col =>
        grouped <- groupby_mean df "timestamp" target_col;;
        sort_values_inplace grouped "timestamp";;
        g <- deref grouped;;
        ts <- getitem grouped "timestamp";;
        vals <- getitem grouped target_col;;
        lift (traverse
                (fun tv => make_point (column_tz "timestamp" g) (fst tv) (snd tv))
                (combine ts vals))
    end.

(** The payload handed to [JSONResponse]. *)
Record response : Type := mkResponse {
  rows : list (list (string * cell));
  average : list point
}.

(** The body of [get_data], with the row limit as an argument. *)
Definition get_data_with_limit (limit : nat)
    (machine_id part_number tool_number : option (list string)) : M response :=
  if negb (truthy machine_id || truthy part_number || truthy tool_number)
  then ret (mkResponse [] [])
  else
    d1_filtered <- filter_d1 D1 machine_id part_number tool_number;;
    d2_filtered <- filter_d2_by_d1 D2 d1_filtered;;
    top <- head d2_filtered limit;;
    rows <- copy top;;
    r <- deref rows;;
    (if has_column "timestamp" r
     then s <- dt_strftime rows "timestamp";; setitem rows "timestamp" s
     else ret tt);;
    rows_out <- to_dict_records rows;;
    avg_series <- build_avg_time_series d2_filtered;;
    ret (mkResponse rows_out avg_series).

Definition get_data (machine_id part_number tool_number : option (list string))
  : M response :=
  get_data_with_limit TABLE_ROW_LIMIT machine_id part_number tool_number.

(* ===================================================================== *)
(** ** The engines as functions of frames

    What each engine computes from the frames its arguments point to.  The
    refinement lemmas below tie the programs to these functions. *)
(* ===================================================================== *)

Definition column_cells (c : string) (df : DataFrame) : result (list cell) :=
  match column_index c (columns df) with
  | Some i => Ok (map (cell_at i) (values df))
  | None => Raise (KeyError c)
  end.

Definition isin_rows (c : string) (vals : list cell) (df : DataFrame)
  : result DataFrame :=
  result_bind (column_cells c df) (fun s =>
  Ok (mkFrame (columns df) (select_mask (map (isin vals) s) (values df)))).

Definition narrow (sel : option (list string)) (c : string) (df : DataFrame)
  : result DataFrame :=
  if truthy sel then isin_rows c (selected sel) df else Ok df.

Definition filter_d1_frame (df : DataFrame)
    (machine_ids part_numbers tool_numbers : option (list string))
  : result DataFrame :=
  result_bind (narrow machine_ids "machine_id" df) (fun df1 =>
  result_bind (narrow part_numbers "part_number" df1) (fun df2 =>
  narrow tool_numbers "tool_number" df2)).

Definition filter_d2_by_d1_frame (d2 d1_filtered : DataFrame)
  : result DataFrame :=
  if df_empty d1_filtered then Ok (empty_like d2)
  else
    result_bind (column_cells "machine_id" d1_filtered) (fun ids =>
    isin_rows "machine_id" (unique ids) d2).

Definition grouped_frame (df : DataFrame) (key target : string)
  : result DataFrame :=
  result_bind (column_cells key df) (fun keys =>
  result_bind (column_cells target df) (fun vals =>
  if String.eqb key target then Raise ValueError
  else
    result_bind (group_rows keys vals) (fun rs =>
    Ok (mkFrame
          [(key, match column_dtype key df with Some d => d | None => Object end);
           (target, Number)]
          rs)))).

Definition point_of_row (tz : option tzinfo) (r : list cell) : result point :=
  make_point tz (cell_at 0 r) (cell_at 1 r).

(** The series of [df] when the means are taken over [target_col]. *)
Definition aggregate_over (df : DataFrame) (target_col : string)
  : result (list point) :=
  result_bind (grouped_frame df "timestamp" target_col) (fun g =>
  traverse (point_of_row (column_tz "timestamp" g)) (sort_rows 0 (values g))).

Definition avg_series (df : DataFrame) : result (list point) :=
  if df_empty df || negb (has_column "timestamp" df) then Ok []
  else
    match select_target (numeric_cols df) with
    | None => Ok []
    | Some target_col => aggregate_over df target_col
    end.

Definition records (df : DataFrame) : list (list (string * cell)) :=
  map (combine (map fst (columns df))) (values df).

(** The first [limit] rows of a frame. *)
Definition top_rows (limit : nat) (df : DataFrame) : DataFrame :=
  mkFrame (columns df) (firstn limit (values df)).

(** The frame behind the table of the page: the first [limit] rows, their
    timestamps as text. *)
Definition rows_frame (limit : nat) (d2_filtered : DataFrame)
  : result DataFrame :=
  let top := top_rows limit d2_filtered in
  match column_index "timestamp" (columns top) with
  | None => Ok top
  | Some i =>
      result_bind (dt (column_dtype "timestamp" top)) (fun tz =>
      Ok (set_column i Object
            (map (strftime_cell tz) (map (cell_at i) (values top))) top))
  end.

Definition response_of (limit : nat) (d1 d2 : DataFrame)
    (machine_id part_number tool_number : option (list string))
  : result response :=
  if negb (truthy machine_id || truthy part_number || truthy tool_number)
  then Ok (mkResponse [] [])
  else
    result_bind (filter_d1_frame d1 machine_id part_number tool_number)
      (fun d1_filtered =>
    result_bind (filter_d2_by_d1_frame d2 d1_filtered) (fun d2_filtered =>
    result_bind (rows_frame limit d2_filtered) (fun shown =>
    result_bind (avg_series d2_filtered) (fun avg_series =>
    Ok (mkResponse (records shown) avg_series))))).

(* ===================================================================== *)
(** ** Vocabulary of the statements *)
(* ===================================================================== *)

(** The cell of a row under the column labelled [c]. *)
Definition field (df : DataFrame) (c : string) (row : list cell) : cell :=
  match column_index c (columns df) with
  | Some i => cell_at i row
  | None => VNull
  end.

(** A selection admits a cell: no constraint when it is absent or empty,
    membership of the string otherwise. *)
Definition admits (sel : option (list string)) (c : cell) : bool :=
  match sel with
  | None | Some [] => true
  | Some vals =>
      match c with
      | VStr s => existsb (String.eqb s) vals
      | _ => false
      end
  end.

(** The values gathered under key [t]. *)
Fixpoint group_of (t : Z) (gs : list (Z * list cell)) : option (list cell) :=
  match gs with
  | [] => None
  | (k, vs) :: rest => if (t =? k)%Z then Some vs else group_of t rest
  end.

(** The rows of a frame stamped [t], in the order of the frame. *)
Definition rows_at (df : DataFrame) (t : Z) : list (list cell) :=
  filter (fun r => cell_eqb (field df "timestamp" r) (VTime t)) (values df).

(** The numbers among some cells, as floats, in order. *)
Definition floats (cs : list cell) : list float :=
  flat_map
    (fun c => match c with VNum x => [float_of_number x] | _ => [] end) cs.

(** The sum of some floats in binary64: [s] is the sum so far and [c] what
    the additions made so far have lost; each float is added in turn, less
    the loss, and the new loss is measured. *)
Fixpoint compensated_sum (s c : float) (xs : list float) : float :=
  match xs with
  | [] => s
  | x :: rest =>
      let y := float_sub x c in
      let t := float_add s y in
      let lost := float_sub (float_sub t s) y in
      compensated_sum t (if is_nan lost then S754_zero false else lost) rest
  end.

(** The mean of some floats, as a float: their sum over their count; NaN
    for no float at all. *)
Definition float_mean (xs : list float) : float :=
  match xs with
  | [] => S754_nan
  | _ :: _ =>
      float_div (compensated_sum (S754_zero false) (S754_zero false) xs)
        (float_of_Z (Z.of_nat (length xs)))
  end.

(** What a sum started at [0.0] makes of a float: the float itself, but
    for [-0.0], which comes out as [0.0]. *)
Definition unsigned_zero (f : float) : float :=
  match f with
  | S754_zero _ => S754_zero false
  | _ => f
  end.

(** A cell fits a dtype: a null fits any, an object column holds anything. *)
Definition cell_has (d : dtype) (c : cell) : bool :=
  match d, c with
  | _, VNull => true
  | Object, _ => true
  | Number, VNum _ => true
  | Datetime, VTime _ => true
  | DatetimeTZ _, VTime _ => true
  | _, _ => false
  end.

Fixpoint row_typed (cols : list (string * dtype)) (r : list cell) : bool :=
  match cols, r with
  | [], [] => true
  | (_, d) :: cols', c :: r' => cell_has d c && row_typed cols' r'
  | _, _ => false
  end.

Fixpoint distinct (names : list string) : bool :=
  match names with
  | [] => true
  | n :: rest => negb (existsb (String.eqb n) rest) && distinct rest
  end.

(** A frame as pandas builds them from parquet: distinct labels, one cell
    per column in every row, each cell of the dtype of its column. *)
Definition well_formed (df : DataFrame) : bool :=
  distinct (map fst (columns df)) &&
  forallb (row_typed (columns df)) (values df).

(** A row of the table of the page: its timestamp as text. *)
Definition shown_row (df : DataFrame) (r : list cell) : list cell :=
  match column_index "timestamp" (columns df) with
  | Some i =>
      set_nth i (strftime_cell (column_tz "timestamp" df) (cell_at i r)) r
  | None => r
  end.

(** The three tables of the store, as a request finds them. *)
Definition store (st : state)
  : option DataFrame * option DataFrame * option DataFrame :=
  (nth_error (heap st) D1, nth_error (heap st) D2, nth_error (heap st) D3).

(** [st'] has the frames of [st], then maybe more, and the calls of [st],
    then maybe more. *)
Definition grows (st st' : state) : Prop :=
  exists ext cs, st' = mkState (heap st ++ ext) (calls st ++ cs).

(** [out] is the outcome of an engine named [fn] started in [st]: it only
    added frames to the heap, recorded its call, and returned a reference to
    the frame [p] (or raised as [p] does). *)
Definition computes (st : state) (fn : string) (out : result loc * state)
    (p : result DataFrame) : Prop :=
  exists ext,
    snd out = mkState (heap st ++ ext) (calls st ++ [fn]) /\
    match p with
    | Ok f => exists l, fst out = Ok l /\ nth_error (heap st ++ ext) l = Some f
    | Raise e => fst out = Raise e
    end.

(** What a caller sees of an outcome: the frame behind the reference. *)
Definition observe (out : result loc * state) : result (option DataFrame) :=
  match fst out with
  | Ok l => Ok (nth_error (heap (snd out)) l)
  | Raise e => Raise e
  end.

(* ===================================================================== *)
(** ** Reading ISO 8601 *)
(* ===================================================================== *)

(** A leap year of the Gregorian calendar. *)
Definition is_leap (y : Z) : bool :=
  ((y mod 4 =? 0) && (negb (y mod 100 =? 0) || (y mod 400 =? 0)))%Z.

Definition days_in_month (y m : Z) : Z :=
  match m with
  | 1 | 3 | 5 | 7 | 8 | 10 | 12 => 31
  | 4 | 6 | 9 | 11 => 30
  | 2 => if is_leap y then 29 else 28
  | _ => 0
  end%Z.

(** The days of year [y] before its month [m]. *)
Definition days_before_month (y m : Z) : Z :=
  (match m with
   | 1 => 0 | 2 => 31 | 3 => 59 | 4 => 90 | 5 => 120 | 6 => 151
   | 7 => 181 | 8 => 212 | 9 => 243 | 10 => 273 | 11 => 304 | _ => 334
   end + (if (2 <? m) && is_leap y then 1 else 0))%Z.

(** The days from 0001-01-01 to the first day of year [y]. *)
Definition days_before_year (y : Z) : Z :=
  (365 * (y - 1) + (y - 1) / 4 - (y - 1) / 100 + (y - 1) / 400)%Z.

(** The days from 1970-01-01 to the day [d] of month [m] of year [y]. *)
Definition days_from_civil (y m d : Z) : Z :=
  (days_before_year y + days_before_month y m + (d - 1) - 719162)%Z.

(** The value of a decimal digit. *)
Definition digit_value (c : ascii) : option Z :=
  let n := Z.of_nat (nat_of_ascii c) in
  if ((48 <=? n) && (n <=? 57))%Z then Some (n - 48)%Z else None.

(** The number written by the first [n] characters of [s], which must be
    digits, after the digits already read as [acc]; and the rest of [s]. *)
Fixpoint read_digits (n : nat) (acc : Z) (s : string) : option (Z * string) :=
  match n with
  | O => Some (acc, s)
  | S n' =>
      match s with
      | String c rest =>
          match digit_value c with
          | Some d => read_digits n' (10 * acc + d)%Z rest
          | None => None
          end
      | EmptyString => None
      end
  end.

(** The text must go on with the character [c]. *)
Definition expect (c : ascii) (s : string) : option string :=
  match s with
  | String c' rest => if Ascii.eqb c c' then Some rest else None
  | EmptyString => None
  end.

(** The digits of a fraction of a second, at most [fuel] of them, as
    nanoseconds: the first digit read counts [10 ^ (fuel - 1)]. *)
Fixpoint read_fraction_digits (fuel : nat) (acc : Z) (s : string)
  : Z * string :=
  match fuel with
  | O => (acc, s)
  | S fuel' =>
      match s with
      | String c rest =>
          match digit_value c with
          | Some d =>
              read_fraction_digits fuel' (acc + d * 10 ^ Z.of_nat fuel')%Z rest
          | None => (acc, s)
          end
      | EmptyString => (acc, s)
      end
  end.

(** The fraction of a second, in nanoseconds: a point and one to nine
    digits, or nothing. *)
Definition read_fraction (s : string) : option (Z * string) :=
  match s with
  | String "." rest =>
      match read_digits 1 0%Z rest with
      | Some (d, rest') =>
          Some (read_fraction_digits 8 (d * 100000000)%Z rest')
      | None => None
      end
  | _ => Some (0%Z, s)
  end.

(** A text that does not go on with a digit ends the fraction. *)
Definition ends_fraction (s : string) : Prop :=
  match s with
  | EmptyString => True
  | String c _ => digit_value c = None /\ c <> "."%char
  end.

(** The offset from UTC that ends the text, in seconds: a sign, hours and
    minutes; or nothing, for a local time. *)
Definition read_offset (s : string) : option (option Z) :=
  match s with
  | EmptyString => Some None
  | String sign rest =>
      if Ascii.eqb sign "+" || Ascii.eqb sign "-" then
        match read_digits 2 0%Z rest with
        | Some (hh, s1) =>
            match expect ":" s1 with
            | Some s2 =>
                match read_digits 2 0%Z s2 with
                | Some (mm, EmptyString) =>
                    if ((hh <? 24) && (mm <? 60))%Z then
                      let seconds := (hh * 3600 + mm * 60)%Z in
                      Some (Some (if Ascii.eqb sign "-" then (- seconds)%Z
                                  else seconds))
                    else None
                | _ => None
                end
            | None => None
            end
        | None => None
        end
      else None
  end.

(** What an ISO 8601 text [YYYY-MM-DDTHH:MM:SS], with maybe a fraction of a
    second and maybe an offset from UTC, says: the date and time of the
    wall clock, as nanoseconds since 1970-01-01T00:00:00 on that clock, and
    the offset in seconds when there is one.  A text that is not of this
    form, or that names no day of the calendar or no time of day, says
    nothing. *)
Definition read_iso8601 (s : string) : option (Z * option Z) :=
  match read_digits 4 0%Z s with
  | Some (y, s) =>
  match expect "-" s with
  | Some s =>
  match read_digits 2 0%Z s with
  | Some (m, s) =>
  match expect "-" s with
  | Some s =>
  match read_digits 2 0%Z s with
  | Some (d, s) =>
  match expect "T" s with
  | Some s =>
  match read_digits 2 0%Z s with
  | Some (hh, s) =>
  match expect ":" s with
  | Some s =>
  match read_digits 2 0%Z s with
  | Some (mm, s) =>
  match expect ":" s with
  | Some s =>
  match read_digits 2 0%Z s with
  | Some (ss, s) =>
  match read_fraction s with
  | Some (ns, s) =>
  match read_offset s with
  | Some offset =>
      if ((1 <=? y) && (1 <=? m) && (m <=? 12) &&
          (1 <=? d) && (d <=? days_in_month y m) &&
          (hh <? 24) && (mm <? 60) && (ss <? 60))%Z
      then
        Some ((((days_from_civil y m d * 86400 +
                 hh * 3600 + mm * 60 + ss) * 1000000000 + ns)%Z,
              offset))
      else None
  | None => None end
  | None => None end
  | None => None end
  | None => None end
  | None => None end
  | None => None end
  | None => None end
  | None => None end
  | None => None end
  | None => None end
  | None => None end
  | None => None end
  | None => None end.

(** The first and the last instant a wall clock can show: the years 1 to
    9999 of [datetime]. *)
Definition MIN_WALL : Z := (-62135596800000000000)%Z.
Definition MAX_WALL : Z := 253402300799999999999%Z.

(** A timestamp that [Timestamp] can hold and whose text ends, if it has a
    zone, with an offset of hours and minutes: the wall clock is within the
    years 1 to 9999, the offset is a whole number of minutes and less than
    a day. *)
Definition representable (tz : option tzinfo) (ns : Z) : Prop :=
  (MIN_WALL <= wall_clock tz ns <= MAX_WALL)%Z /\
  (utcoffset tz ns mod 60 = 0)%Z /\
  (-86400 < utcoffset tz ns < 86400)%Z.

(* ===================================================================== *)
(** ** A small store, for the worked cases *)
(* ===================================================================== *)

(** The cell of a float column that holds the whole number [z]. *)
Definition VFloat (z : Z) : cell := cell_of_float (float_of_Z z).

(** Two time zones: UTC, and a zone at a fixed offset. *)
Definition UTC : tzinfo := fun _ => 0%Z.
Definition fixed_offset (seconds : Z) : tzinfo := fun _ => seconds.

(** 2024-01-01 00:00:00 and 01:00:00, in nanoseconds since the epoch. *)
Definition T1 : Z := 1704067200000000000.
Definition T2 : Z := 1704070800000000000.

Definition demo_attributes : DataFrame :=
  mkFrame
    [("machine_id", Object); ("part_number", Object); ("tool_number", Object)]
    [[VStr "M1"; VStr "P1"; VStr "T1"];
     [VStr "M2"; VStr "P1"; VStr "T9"]].

Definition demo_measurements : DataFrame :=
  mkFrame
    [("machine_id", Object); ("timestamp", Datetime); ("value", Number)]
    [[VStr "M1"; VTime T2; VFloat 30];
     [VStr "M1"; VTime T1; VFloat 10];
     [VStr "M2"; VTime T1; VFloat 99];
     [VStr "M1"; VTime T1; VFloat 20];
     [VStr "M1"; VTime T2; VNull];
     [VStr "M1"; VNull; VFloat 7]].

Definition demo_reference : DataFrame := mkFrame [] [].

Definition demo_state : state :=
  mkState [demo_attributes; demo_measurements; demo_reference] [].

(** The same measurements, taken in a zone five hours and a half east of
    UTC. *)
Definition IST : tzinfo := fixed_offset 19800.

Definition zoned_measurements : DataFrame :=
  mkFrame
    [("machine_id", Object); ("timestamp", DatetimeTZ IST); ("value", Number)]
    (values demo_measurements).

Definition zoned_state : state :=
  mkState [demo_attributes; zoned_measurements; demo_reference] [].

(** Measurements without a [value] column. *)
Definition demo_pressure : DataFrame :=
  mkFrame
    [("machine_id", Object); ("timestamp", Datetime); ("pressure", Number)]
    [[VStr "M1"; VTime T1; VFloat 4];
     [VStr "M1"; VTime T1; VNull];
     [VStr "M1"; VTime T1; VFloat 5];
     [VStr "M1"; VTime T2; VNull]].

Definition pressure_state : state :=
  mkState [demo_attributes; demo_pressure; demo_reference] [].

(* ===================================================================== *)
(** ** The filter-values endpoint *)
(* ===================================================================== *)

Definition FILTER_COLUMNS : list string :=
  ["machine_id"; "part_number"; "tool_number"].

(** [sorted] can compare the values of [l]: Python orders strings with
    strings, numbers with numbers and timestamps with timestamps, and raises
    [TypeError] on any other pair; a list of at most one value needs no
    comparison.  (A sort that succeeds has compared, directly or not, every
    value with every other, so it succeeds exactly on such lists.  Nulls do
    not reach [sorted] in the program, which drops them first.) *)
Definition comparable (l : list cell) : bool :=
  match l with
  | [] => true
  | [_] => true
  | x :: rest => negb (is_null x) && forallb (same_kind x) rest
  end.

(** [sorted(l)]: ascending and stable. *)
Definition sorted (l : list cell) : result (list cell) :=
  if comparable l then Ok (fold_right insert_cell [] l) else Raise TypeError.

(** [payload[k] = v] on a dict, which keeps its keys in insertion order. *)
Fixpoint dict_set {V : Type} (k : string) (v : V) (d : list (string * V))
  : list (string * V) :=
  match d with
  | [] => [(k, v)]
  | (k', v') :: rest =>
      if String.eqb k k' then (k, v) :: rest else (k', v') :: dict_set k v rest
  end.

(** The loop of [get_filters] over the columns still to do. *)
Fixpoint get_filters_loop (cols : list string)
    (payload : list (string * list cell)) : M (list (string * list cell)) :=
  match cols with
  | [] => ret payload
  | col :: rest =>
      d <- deref D1;;
      vals <- (if has_column col d
               then s <- getitem D1 col;; lift (sorted (unique (dropna s)))
               else ret []);;
      get_filters_loop rest (dict_set col vals payload)
  end.

Definition get_filters : M (list (string * list cell)) :=
  get_filters_loop FILTER_COLUMNS [].

(** The values offered for one column, as a function of the table. *)
Definition options_of (d1 : DataFrame) (col : string) : result (list cell) :=
  if has_column col d1
  then result_bind (column_cells col d1) (fun s => sorted (unique (dropna s)))
  else Ok [].

Fixpoint filters_of (d1 : DataFrame) (cols : list string)
    (payload : list (string * list cell))
  : result (list (string * list cell)) :=
  match cols with
  | [] => Ok payload
  | col :: rest =>
      result_bind (options_of d1 col) (fun vals =>
      filters_of d1 rest (dict_set col vals payload))
  end.

(** No two cells of the list are equal. *)
Fixpoint distinct_cells (l : list cell) : bool :=
  match l with
  | [] => true
  | x :: rest => negb (existsb (cell_eqb x) rest) && distinct_cells rest
  end.

(** The cells of the column labelled [c], one per row. *)
Definition column_of (df : DataFrame) (c : string) : list cell :=
  map (field df c) (values df).


(* ===================================================================== *)
(** ** Start-up *)
(* ===================================================================== *)

(** [latest_data[k]] on the dict read from the configuration. *)
Fixpoint dict_get (k : string) (d : list (string * string)) : result string :=
  match d with
  | [] => Raise (KeyError k)
  | (k', v) :: rest => if String.eqb k k' then Ok v else dict_get k rest
  end.

(** [df[c] = series] for a series of dtype [d], in place: the column takes
    the dtype of the series. *)
Definition setitem_typed (l : loc) (c : string) (d : dtype)
    (series : list cell) : M unit :=
  df <- deref l;;
  match column_index c (columns df) with
  | Some i => assign l (set_column i d series df)
  | None =>
      assign l (mkFrame (columns df ++ [(c, d)])
                  (map (fun rc => fst rc ++ [snd rc])
                     (combine (values df) series)))
  end.

(** [load_data], given what the outside world answers: [config] is the
    outcome of opening and parsing the configuration document (a dict, or
    the exception raised), [read_parquet] the outcome of reading a file, and
    [to_datetime] that of [pd.to_datetime] on a column: the dtype of the
    series it answers (naive, or with the time zone it found) and the cells
    of that series.  An exception is logged and raised again, which the
    model shows as a raise. *)
Definition load_data (config : result (list (string * string)))
    (read_parquet : string -> result DataFrame)
    (to_datetime : list cell -> result (dtype * list cell))
  : M (loc * loc * loc) :=
  latest_data <- lift config;;
  p1 <- lift (dict_get "d1" latest_data);;
  f1 <- lift (read_parquet p1);;
  d1 <- alloc f1;;
  p2 <- lift (dict_get "d2" latest_data);;
  f2 <- lift (read_parquet p2);;
  d2 <- alloc f2;;
  p3 <- lift (dict_get "d3" latest_data);;
  f3 <- lift (read_parquet p3);;
  d3 <- alloc f3;;
  d <- deref d2;;
  (if has_column "timestamp" d
   then s <- getitem d2 "timestamp";;
        converted <- lift (to_datetime s);;
        setitem_typed d2 "timestamp" (fst converted) (snd converted)
   else ret tt);;
  ret (d1, d2, d3).

(* ===================================================================== *)
(** ** More stores, for the worked cases *)
(* ===================================================================== *)

(** Attributes with a [part_number] column and no other. *)
Definition demo_parts : DataFrame :=
  mkFrame [("part_number", Object)] [[VStr "P1"]; [VStr "P2"]].

Definition parts_state : state :=
  mkState [demo_parts; demo_measurements; demo_reference] [].

(** Attributes whose machines are numbered. *)
Definition numbered_attributes : DataFrame :=
  mkFrame
    [("machine_id", Number); ("part_number", Object); ("tool_number", Object)]
    [[VNum (Int 1); VStr "P1"; VStr "T1"];
     [VNum (Int 2); VStr "P1"; VStr "T9"]].

Definition numbered_state : state :=
  mkState [numbered_attributes; demo_measurements; demo_reference] [].

(** Attributes whose [machine_id] column holds a string and a number. *)
Definition mixed_attributes : DataFrame :=
  mkFrame
    [("machine_id", Object); ("part_number", Object); ("tool_number", Object)]
    [[VStr "M1"; VStr "P1"; VStr "T1"];
     [VNum (Int 2); VStr "P1"; VStr "T9"]].

Definition mixed_state : state :=
  mkState [mixed_attributes; demo_measurements; demo_reference] [].

(** Measurements without a [timestamp] column. *)
Definition untimed_measurements : DataFrame :=
  mkFrame
    [("machine_id", Object); ("value", Number)]
    [[VStr "M1"; VNum (Int 1)];
     [VStr "M2"; VNum (Int 2)];
     [VStr "M1"; VNum (Int 3)]].

Definition untimed_state : state :=
  mkState [demo_attributes; untimed_measurements; demo_reference] [].

(** The measurements of [demo_measurements] that carry a timestamp. *)
Definition stamped_measurements : DataFrame :=
  mkFrame
    [("machine_id", Object); ("timestamp", Datetime); ("value", Number)]
    [[VStr "M1"; VTime T2; VFloat 30];
     [VStr "M1"; VTime T1; VFloat 10];
     [VStr "M2"; VTime T1; VFloat 99];
     [VStr "M1"; VTime T1; VFloat 20];
     [VStr "M1"; VTime T2; VNull]].

(** The measurements of machine M2. *)
Definition m2_measurements : DataFrame :=
  mkFrame
    [("machine_id", Object); ("timestamp", Datetime); ("value", Number)]
    [[VStr "M2"; VTime T1; VFloat 99]].

(** The small store with two more frames behind it. *)
Definition later_state : state :=
  mkState
    [demo_attributes; demo_measurements; demo_reference;
     stamped_measurements; m2_measurements] [].

(** The measurements as a file may hold them, the timestamps as text. *)
Definition raw_measurements : DataFrame :=
  mkFrame
    [("machine_id", Object); ("timestamp", Object); ("value", Number)]
    [[VStr "M1"; VStr "2024-01-01 01:00:00"; VFloat 30];
     [VStr "M1"; VStr "2024-01-01 00:00:00"; VFloat 10];
     [VStr "M2"; VStr "2024-01-01 00:00:00"; VFloat 99];
     [VStr "M1"; VNull; VFloat 7]].

Definition demo_config : result (list (string * string)) :=
  Ok [("d1", "d1.parquet"); ("d2", "d2.parquet"); ("d3", "d3.parquet")].

Definition demo_read_parquet (path : string) : result DataFrame :=
  if String.eqb path "d1.parquet" then Ok demo_attributes
  else if String.eqb path "d2.parquet" then Ok raw_measurements
  else if String.eqb path "d3.parquet" then Ok demo_reference
  else Raise ValueError.

(** What [pd.to_datetime] answers on the cells of [raw_measurements]. *)
Definition demo_parse (c : cell) : result cell :=
  match c with
  | VStr s =>
      if String.eqb s "2024-01-01 00:00:00" then Ok (VTime T1)
      else if String.eqb s "2024-01-01 01:00:00" then Ok (VTime T2)
      else Raise ValueError
  | VTime t => Ok (VTime t)
  | VNull => Ok VNull
  | VNum _ => Raise ValueError
  end.

Definition demo_to_datetime (s : list cell) : result (dtype * list cell) :=
  result_bind (traverse demo_parse s) (fun cells => Ok (Datetime, cells)).

(** Measurements that hold no null, and the same as a file may hold them. *)
Definition clean_measurements : DataFrame :=
  mkFrame
    [("machine_id", Object); ("timestamp", Datetime); ("value", Number)]
    [[VStr "M1"; VTime T2; VFloat 30];
     [VStr "M1"; VTime T1; VFloat 10];
     [VStr "M2"; VTime T1; VFloat 99];
     [VStr "M1"; VTime T1; VFloat 20]].

Definition clean_state : state :=
  mkState [demo_attributes; clean_measurements; demo_reference] [].

Definition clean_raw_measurements : DataFrame :=
  mkFrame
    [("machine_id", Object); ("timestamp", Object); ("value", Number)]
    [[VStr "M1"; VStr "2024-01-01 01:00:00"; VFloat 30];
     [VStr "M1"; VStr "2024-01-01 00:00:00"; VFloat 10];
     [VStr "M2"; VStr "2024-01-01 00:00:00"; VFloat 99];
     [VStr "M1"; VStr "2024-01-01 00:00:00"; VFloat 20]].

Definition clean_read_parquet (path : string) : result DataFrame :=
  if String.eqb path "d2.parquet" then Ok clean_raw_measurements
  else demo_read_parquet path.

(* ===================================================================== *)
(** ** Lists, lookups and the monad laws used below *)
(* ===================================================================== *)

Lemma select_mask_map {A : Type} (p : A -> bool) (l : list A) :
  select_mask (map p l) l = filter p l.
Proof.
  induction l as [|x xs IH]; simpl; [reflexivity|].
  rewrite IH. reflexivity.
Qed.

Lemma nth_error_snoc {A : Type} (h : list A) (x : A) :
  nth_error (h ++ [x]) (length h) = Some x.
Proof.
  rewrite nth_error_app2 by lia. rewrite Nat.sub_diag. reflexivity.
Qed.

Lemma nth_error_keep {A : Type} (h ext : list A) (l : nat) (x : A) :
  nth_error h l = Some x -> nth_error (h ++ ext) l = Some x.
Proof.
  intros H. rewrite nth_error_app1; [exact H|].
  apply nth_error_Some. congruence.
Qed.

Lemma set_nth_snoc {A : Type} (h : list A) (x y : A) :
  set_nth (length h) y (h ++ [x]) = h ++ [y].
Proof.
  induction h as [|a h IH]; simpl; [reflexivity|].
  rewrite IH. reflexivity.
Qed.

Lemma bind_ok {A B : Type} (m : M A) (k : A -> M B) st a st' :
  m st = (Ok a, st') -> bind m k st = k a st'.
Proof. intros H. unfold bind. rewrite H. reflexivity. Qed.

Lemma bind_raise {A B : Type} (m : M A) (k : A -> M B) st e st' :
  m st = (Raise e, st') -> bind m k st = (Raise e, st').
Proof. intros H. unfold bind. rewrite H. reflexivity. Qed.

(** *** The pandas calls, run on a state whose heap is known at [l] *)

Lemma deref_run h c l df :
  nth_error h l = Some df ->
  deref l (mkState h c) = (Ok df, mkState h c).
Proof. intros H. unfold deref. simpl. rewrite H. reflexivity. Qed.

Lemma copy_run h c l df :
  nth_error h l = Some df ->
  copy l (mkState h c) = (Ok (length h), mkState (h ++ [df]) c).
Proof.
  intros H. unfold copy.
  rewrite (bind_ok _ _ _ _ _ (deref_run h c l df H)). reflexivity.
Qed.

Lemma getitem_run h c l df col :
  nth_error h l = Some df ->
  getitem l col (mkState h c) = lift (column_cells col df) (mkState h c).
Proof.
  intros H. unfold getitem.
  rewrite (bind_ok _ _ _ _ _ (deref_run h c l df H)).
  unfold column_cells, lift.
  destruct (column_index col (columns df)); reflexivity.
Qed.

Lemma bind_getitem {B : Type} h c l df col (k : list cell -> M B) :
  nth_error h l = Some df ->
  bind (getitem l col) k (mkState h c) =
  match column_cells col df with
  | Ok s => k s (mkState h c)
  | Raise e => (Raise e, mkState h c)
  end.
Proof.
  intros H. unfold bind. rewrite (getitem_run h c l df col H). unfold lift.
  destruct (column_cells col df); reflexivity.
Qed.

Lemma getitem_mask_run h c l df mask :
  nth_error h l = Some df ->
  getitem_mask l mask (mkState h c) =
  (Ok (length h),
   mkState (h ++ [mkFrame (columns df) (select_mask mask (values df))]) c).
Proof.
  intros H. unfold getitem_mask.
  rewrite (bind_ok _ _ _ _ _ (deref_run h c l df H)). reflexivity.
Qed.

Lemma isin_filter_run h c l df col vals :
  nth_error h l = Some df ->
  isin_filter l col vals (mkState h c) =
  match isin_rows col vals df with
  | Ok f => (Ok (length h), mkState (h ++ [f]) c)
  | Raise e => (Raise e, mkState h c)
  end.
Proof.
  intros H. unfold isin_filter, isin_rows, bind.
  rewrite (getitem_run h c l df col H). unfold lift.
  destruct (column_cells col df) as [s|e]; simpl; [|reflexivity].
  apply getitem_mask_run. exact H.
Qed.

Lemma frame_with_columns_of_run h c l df :
  nth_error h l = Some df ->
  frame_with_columns_of l (mkState h c) =
  (Ok (length h), mkState (h ++ [empty_like df]) c).
Proof.
  intros H. unfold frame_with_columns_of.
  rewrite (bind_ok _ _ _ _ _ (deref_run h c l df H)). reflexivity.
Qed.

(** *** [filter_d1] and [filter_d2_by_d1] compute their frame functions *)

Lemma narrow_run h c l f sel col :
  nth_error h l = Some f ->
  exists ext,
    match narrow sel col f with
    | Ok f' =>
        exists l',
          (if truthy sel then isin_filter l col (selected sel) else ret l)
            (mkState h c) = (Ok l', mkState (h ++ ext) c) /\
          nth_error (h ++ ext) l' = Some f'
    | Raise e =>
        (if truthy sel then isin_filter l col (selected sel) else ret l)
          (mkState h c) = (Raise e, mkState (h ++ ext) c)
    end.
Proof.
  intros H. unfold narrow. destruct (truthy sel).
  - rewrite (isin_filter_run h c l f col _ H).
    destruct (isin_rows col (selected sel) f) as [f'|e].
    + exists [f']. exists (length h). split; [reflexivity|apply nth_error_snoc].
    + exists []. rewrite app_nil_r. reflexivity.
  - exists []. exists l. rewrite app_nil_r. split; [reflexivity|exact H].
Qed.

Lemma filter_d1_computes st d1 df ms ps ts :
  nth_error (heap st) d1 = Some df ->
  computes st "filter_d1" (filter_d1 d1 ms ps ts st)
    (filter_d1_frame df ms ps ts).
Proof.
  destruct st as [h c]. simpl. intros H.
  unfold filter_d1, filter_d1_frame, computes. simpl heap. simpl calls.
  rewrite (bind_ok _ _ _ tt (mkState h (c ++ ["filter_d1"]))) by reflexivity.
  rewrite (bind_ok _ _ _ _ _ (copy_run h _ d1 df H)).
  destruct (narrow_run (h ++ [df]) (c ++ ["filter_d1"]) (length h) df ms
              "machine_id" (nth_error_snoc h df)) as [e1 S1].
  destruct (narrow ms "machine_id" df) as [f1|x]; simpl result_bind.
  2:{ exists ([df] ++ e1). rewrite (bind_raise _ _ _ _ _ S1).
      rewrite <- app_assoc. split; reflexivity. }
  destruct S1 as [l1 [R1 L1]]. rewrite (bind_ok _ _ _ _ _ R1).
  destruct (narrow_run ((h ++ [df]) ++ e1) (c ++ ["filter_d1"]) l1 f1 ps
              "part_number" L1) as [e2 S2].
  destruct (narrow ps "part_number" f1) as [f2|x]; simpl result_bind.
  2:{ exists ([df] ++ e1 ++ e2). rewrite (bind_raise _ _ _ _ _ S2).
      rewrite <- !app_assoc. split; reflexivity. }
  destruct S2 as [l2 [R2 L2]]. rewrite (bind_ok _ _ _ _ _ R2).
  destruct (narrow_run (((h ++ [df]) ++ e1) ++ e2) (c ++ ["filter_d1"]) l2 f2
              ts "tool_number" L2) as [e3 S3].
  exists ([df] ++ e1 ++ e2 ++ e3).
  destruct (narrow ts "tool_number" f2) as [f3|x].
  - destruct S3 as [l3 [R3 L3]]. rewrite (bind_ok _ _ _ _ _ R3).
    rewrite <- !app_assoc in *. split; [reflexivity|].
    exists l3. split; [reflexivity|exact L3].
  - rewrite (bind_raise _ _ _ _ _ S3).
    rewrite <- !app_assoc. split; reflexivity.
Qed.

Lemma filter_d2_by_d1_computes st d2 l m a :
  nth_error (heap st) d2 = Some m ->
  nth_error (heap st) l = Some a ->
  computes st "filter_d2_by_d1" (filter_d2_by_d1 d2 l st)
    (filter_d2_by_d1_frame m a).
Proof.
  destruct st as [h c]. simpl. intros Hm Ha.
  unfold filter_d2_by_d1, filter_d2_by_d1_frame, computes.
  simpl heap. simpl calls.
  rewrite (bind_ok _ _ _ tt (mkState h (c ++ ["filter_d2_by_d1"])))
    by reflexivity.
  rewrite (bind_ok _ _ _ _ _ (deref_run h _ l a Ha)).
  destruct (df_empty a).
  - rewrite (frame_with_columns_of_run h _ d2 m Hm).
    exists [empty_like m]. split; [reflexivity|].
    exists (length h). split; [reflexivity|apply nth_error_snoc].
  - rewrite (bind_getitem h _ l a _ _ Ha).
    destruct (column_cells "machine_id" a) as [ids|e]; simpl result_bind.
    2:{ exists []. rewrite app_nil_r. split; reflexivity. }
    unfold isin_rows.
    rewrite (bind_getitem h _ d2 m _ _ Hm).
    destruct (column_cells "machine_id" m) as [s|e]; simpl result_bind.
    2:{ exists []. rewrite app_nil_r. split; reflexivity. }
    rewrite (bind_ok _ _ _ _ _ (getitem_mask_run h _ d2 m _ Hm)).
    rewrite (copy_run _ _ _ _ (nth_error_snoc h _)).
    set (f := mkFrame (columns m) _).
    exists [f; f]. split.
    + simpl. rewrite <- app_assoc. reflexivity.
    + exists (length (h ++ [f])). split; [reflexivity|].
      change (h ++ [f; f]) with (h ++ [f] ++ [f]). rewrite app_assoc.
      apply nth_error_snoc.
Qed.

(* ===================================================================== *)
(** ** Filter Engine *)
(* ===================================================================== *)

Lemma number_eqb_sym x y : number_eqb x y = number_eqb y x.
Proof.
  unfold number_eqb.
  destruct (value x), (value y); try reflexivity. apply Qeq_bool_comm.
Qed.

Lemma number_eqb_trans x y z :
  number_eqb x y = true -> number_eqb y z = true -> number_eqb x z = true.
Proof.
  unfold number_eqb.
  destruct (value x), (value y), (value z);
    try discriminate; try reflexivity.
  apply Qeq_bool_trans.
Qed.

Lemma number_eqb_refl x : number_eqb x x = true.
Proof.
  unfold number_eqb. destruct (value x); try reflexivity. apply Qeq_bool_refl.
Qed.

Lemma cell_eqb_sym a b : cell_eqb a b = cell_eqb b a.
Proof.
  destruct a, b; simpl; try reflexivity.
  - apply String.eqb_sym.
  - apply number_eqb_sym.
  - apply Z.eqb_sym.
Qed.

Lemma cell_eqb_trans a b c :
  cell_eqb a b = true -> cell_eqb b c = true -> cell_eqb a c = true.
Proof.
  destruct a, b, c; simpl; try discriminate; try reflexivity.
  - intros H1 H2. apply String.eqb_eq in H1, H2. subst. apply String.eqb_refl.
  - apply number_eqb_trans.
  - intros H1 H2. apply Z.eqb_eq in H1, H2. subst. apply Z.eqb_refl.
Qed.

Lemma filter_filter {A : Type} (p q : A -> bool) (l : list A) :
  filter p (filter q l) = filter (fun x => q x && p x) l.
Proof.
  induction l as [|x xs IH]; simpl; [reflexivity|].
  destruct (q x); simpl; [destruct (p x)|]; rewrite IH; reflexivity.
Qed.

(** Membership in the query values is membership of the string. *)
Lemma isin_selected vals c :
  isin (map VStr vals) c =
  match c with
  | VStr s => existsb (String.eqb s) vals
  | _ => false
  end.
Proof.
  unfold isin. induction vals as [|v vs IH]; simpl.
  - destruct c; reflexivity.
  - rewrite IH. destruct c; reflexivity.
Qed.

(** [unique] keeps the members. *)
Lemma isin_unique ids c : isin (unique ids) c = existsb (cell_eqb c) ids.
Proof.
  unfold isin. induction ids as [|x xs IH]; simpl; [reflexivity|].
  destruct (cell_eqb c x) eqn:E; simpl; [reflexivity|].
  rewrite <- IH. clear IH.
  induction (unique xs) as [|y ys IH]; simpl; [reflexivity|].
  destruct (cell_eqb x y) eqn:Exy; simpl.
  - rewrite IH. destruct (cell_eqb c y) eqn:Ecy; [|reflexivity].
    exfalso. rewrite cell_eqb_sym in Exy.
    rewrite (cell_eqb_trans _ _ _ Ecy Exy) in E. discriminate.
  - rewrite IH. reflexivity.
Qed.

Lemma field_at df col i r :
  column_index col (columns df) = Some i -> field df col r = cell_at i r.
Proof. intros H. unfold field. rewrite H. reflexivity. Qed.

Lemma has_column_index col df :
  has_column col df = true -> exists i, column_index col (columns df) = Some i.
Proof.
  unfold has_column. destruct (column_index col (columns df)) as [i|].
  - intros _. exists i. reflexivity.
  - discriminate.
Qed.

Lemma isin_rows_filter col vals df i :
  column_index col (columns df) = Some i ->
  isin_rows col vals df =
  Ok (mkFrame (columns df)
        (filter (fun r => isin vals (cell_at i r)) (values df))).
Proof.
  intros H. unfold isin_rows, column_cells. rewrite H. simpl.
  rewrite map_map. rewrite select_mask_map. reflexivity.
Qed.

(** One [if sel: df = df[df[col].isin(sel)]] keeps the admitted rows. *)
Lemma narrow_filter sel col df i :
  column_index col (columns df) = Some i ->
  narrow sel col df =
  Ok (mkFrame (columns df)
        (filter (fun r => admits sel (cell_at i r)) (values df))).
Proof.
  intros H. unfold narrow.
  destruct sel as [[|v vs]|]; simpl truthy; cbv iota.
  - simpl admits. rewrite filter_true. destruct df; reflexivity.
  - rewrite (isin_rows_filter _ _ _ i H). do 2 f_equal.
    apply filter_ext. intros r. unfold selected, admits.
    apply isin_selected.
  - simpl admits. rewrite filter_true. destruct df; reflexivity.
Qed.

(** C2.  On an attributes table that has the three categorical columns,
    [filter_d1] returns a new frame with the columns of the table and
    exactly the rows that every selection admits, in the order of the table:
    an absent or empty selection admits every row, a non-empty one the rows
    whose value is one of its strings. *)
Theorem filter_d1_retains_admitted_rows st d1 df ms ps ts :
  nth_error (heap st) d1 = Some df ->
  has_column "machine_id" df = true ->
  has_column "part_number" df = true ->
  has_column "tool_number" df = true ->
  exists l,
    fst (filter_d1 d1 ms ps ts st) = Ok l /\
    nth_error (heap (snd (filter_d1 d1 ms ps ts st))) l =
    Some (mkFrame (columns df)
            (filter
               (fun r =>
                  admits ms (field df "machine_id" r) &&
                  admits ps (field df "part_number" r) &&
                  admits ts (field df "tool_number" r))
               (values df))).
Proof.
  intros H Hm Hp Ht.
  destruct (has_column_index _ _ Hm) as [i Hi].
  destruct (has_column_index _ _ Hp) as [j Hj].
  destruct (has_column_index _ _ Ht) as [k Hk].
  destruct (filter_d1_computes st d1 df ms ps ts H) as [ext [Hst Hres]].
  assert (E : filter_d1_frame df ms ps ts =
              Ok (mkFrame (columns df)
                    (filter
                       (fun r =>
                          admits ms (field df "machine_id" r) &&
                          admits ps (field df "part_number" r) &&
                          admits ts (field df "tool_number" r))
                       (values df)))).
  { unfold filter_d1_frame.
    rewrite (narrow_filter ms _ df i Hi). simpl result_bind.
    rewrite (narrow_filter ps _ (mkFrame (columns df) _) j Hj).
    simpl result_bind.
    rewrite (narrow_filter ts _ (mkFrame (columns df) _) k Hk). simpl.
    rewrite !filter_filter. do 2 f_equal.
    apply filter_ext. intros r.
    rewrite (field_at df _ i r Hi), (field_at df _ j r Hj),
      (field_at df _ k r Hk).
    apply andb_assoc. }
  rewrite E in Hres. destruct Hres as [l [Hl Hf]].
  exists l. rewrite Hst. simpl. split; assumption.
Qed.

(** C3.  [filter_d2_by_d1] never raises on an empty attributes subset: it
    returns a new frame with the column labels of the measurements and no
    row.  On a non-empty subset it returns a new frame with exactly the
    columns of the measurements and exactly the measurement rows whose
    [machine_id] equals the [machine_id] of some row of the subset, in the
    order of the measurements. *)
Theorem filter_d2_by_d1_semi_join st d2 l m a :
  nth_error (heap st) d2 = Some m ->
  nth_error (heap st) l = Some a ->
  (df_empty a = true ->
   exists l' f,
     fst (filter_d2_by_d1 d2 l st) = Ok l' /\
     nth_error (heap (snd (filter_d2_by_d1 d2 l st))) l' = Some f /\
     map fst (columns f) = map fst (columns m) /\
     values f = []) /\
  (df_empty a = false ->
   has_column "machine_id" a = true ->
   has_column "machine_id" m = true ->
   exists l',
     fst (filter_d2_by_d1 d2 l st) = Ok l' /\
     nth_error (heap (snd (filter_d2_by_d1 d2 l st))) l' =
     Some (mkFrame (columns m)
             (filter
                (fun r =>
                   existsb (cell_eqb (field m "machine_id" r))
                     (map (field a "machine_id") (values a)))
                (values m)))).
Proof.
  intros Hm Ha.
  destruct (filter_d2_by_d1_computes st d2 l m a Hm Ha) as [ext [Hst Hres]].
  unfold filter_d2_by_d1_frame in Hres. split.
  - intros He. rewrite He in Hres. destruct Hres as [l' [Hl Hf]].
    exists l', (empty_like m). rewrite Hst. simpl.
    repeat split; try assumption.
    rewrite map_map. reflexivity.
  - intros He Hca Hcm. rewrite He in Hres.
    destruct (has_column_index _ _ Hca) as [i Hi].
    destruct (has_column_index _ _ Hcm) as [j Hj].
    unfold column_cells in Hres. rewrite Hi in Hres. simpl in Hres.
    rewrite (isin_rows_filter _ _ _ j Hj) in Hres.
    destruct Hres as [l' [Hl Hf]].
    exists l'. rewrite Hst. simpl. split; [assumption|].
    rewrite Hf. do 2 f_equal.
    apply filter_ext. intros r. rewrite isin_unique.
    rewrite (field_at m _ j r Hj). f_equal.
    apply map_ext. intros r'. symmetry. apply field_at. exact Hi.
Qed.

(* ===================================================================== *)
(** ** Aggregation Engine: the program computes [avg_series] *)
(* ===================================================================== *)

Lemma groupby_mean_run h c l df key target :
  nth_error h l = Some df ->
  groupby_mean l key target (mkState h c) =
  match grouped_frame df key target with
  | Ok g => (Ok (length h), mkState (h ++ [g]) c)
  | Raise e => (Raise e, mkState h c)
  end.
Proof.
  intros H. unfold groupby_mean, grouped_frame.
  rewrite (bind_ok _ _ _ _ _ (deref_run h c l df H)).
  rewrite (bind_getitem h c l df _ _ H).
  destruct (column_cells key df) as [keys|e]; simpl result_bind;
    [|reflexivity].
  rewrite (bind_getitem h c l df _ _ H).
  destruct (column_cells target df) as [vals|e]; simpl result_bind;
    [|reflexivity].
  destruct (String.eqb key target); [reflexivity|].
  unfold bind, lift. destruct (group_rows keys vals); reflexivity.
Qed.

Lemma sort_values_inplace_run h c g col :
  sort_values_inplace (length h) col (mkState (h ++ [g]) c) =
  match column_index col (columns g) with
  | Some i =>
      (Ok tt, mkState (h ++ [mkFrame (columns g) (sort_rows i (values g))]) c)
  | None => (Raise (KeyError col), mkState (h ++ [g]) c)
  end.
Proof.
  unfold sort_values_inplace.
  rewrite (bind_ok _ _ _ _ _ (deref_run _ c _ g (nth_error_snoc h g))).
  destruct (column_index col (columns g)); [|reflexivity].
  unfold assign. simpl. rewrite set_nth_snoc. reflexivity.
Qed.

Lemma combine_map {A B C : Type} (f : A -> B) (g : A -> C) (l : list A) :
  combine (map f l) (map g l) = map (fun x => (f x, g x)) l.
Proof.
  induction l as [|x xs IH]; simpl; [reflexivity|].
  rewrite IH. reflexivity.
Qed.

Lemma grouped_frame_columns df key target g :
  grouped_frame df key target = Ok g ->
  String.eqb key target = false /\
  exists d, columns g = [(key, d); (target, Number)].
Proof.
  unfold grouped_frame.
  destruct (column_cells key df) as [keys|]; simpl; [|discriminate].
  destruct (column_cells target df) as [vals|]; simpl; [|discriminate].
  destruct (String.eqb key target); [discriminate|].
  destruct (group_rows keys vals); simpl; [|discriminate].
  intros E. inversion E. split; [reflexivity|].
  eexists. reflexivity.
Qed.

Lemma traverse_map {A B C : Type} (f : B -> result C) (g : A -> B)
    (l : list A) :
  traverse f (map g l) = traverse (fun x => f (g x)) l.
Proof.
  induction l as [|x xs IH]; simpl; [reflexivity|].
  rewrite IH. reflexivity.
Qed.

Lemma traverse_ext {A B : Type} (f g : A -> result B) (l : list A) :
  (forall x, In x l -> f x = g x) -> traverse f l = traverse g l.
Proof.
  induction l as [|x xs IH]; simpl; intros H; [reflexivity|].
  rewrite (H x) by (left; reflexivity).
  rewrite IH by (intros y Hy; apply H; right; exact Hy).
  reflexivity.
Qed.

(** A comprehension none of whose elements raises is a [map]. *)
Lemma traverse_ok {A B : Type} (f : A -> result B) (g : A -> B)
    (l : list A) :
  (forall x, In x l -> f x = Ok (g x)) -> traverse f l = Ok (map g l).
Proof.
  induction l as [|x xs IH]; simpl; intros H; [reflexivity|].
  rewrite (H x) by (left; reflexivity). simpl.
  rewrite IH by (intros y Hy; apply H; right; exact Hy).
  reflexivity.
Qed.

(** [build_avg_time_series] computes [avg_series] of the frame it is given
    and only adds frames to the heap. *)
Lemma build_avg_time_series_run h c l df :
  nth_error h l = Some df ->
  exists ext,
    build_avg_time_series l (mkState h c) =
    (avg_series df,
     mkState (h ++ ext) (c ++ ["build_avg_time_series"])).
Proof.
  intros H. unfold build_avg_time_series, avg_series, aggregate_over.
  rewrite (bind_ok _ _ _ tt (mkState h (c ++ ["build_avg_time_series"])))
    by reflexivity.
  rewrite (bind_ok _ _ _ _ _ (deref_run h _ l df H)).
  destruct (df_empty df || negb (has_column "timestamp" df)).
  { exists []. rewrite app_nil_r. reflexivity. }
  destruct (select_target (numeric_cols df)) as [tc|].
  2:{ exists []. rewrite app_nil_r. reflexivity. }
  unfold bind at 1. rewrite (groupby_mean_run h _ l df _ _ H).
  destruct (grouped_frame df "timestamp" tc) as [g|e] eqn:G;
    simpl result_bind.
  2:{ exists []. rewrite app_nil_r. reflexivity. }
  destruct (grouped_frame_columns _ _ _ _ G) as [Hne [d Hc]].
  unfold bind at 1. rewrite sort_values_inplace_run.
  rewrite Hc. simpl column_index. cbv iota.
  set (g' := mkFrame _ _).
  assert (Hne' : String.eqb tc "timestamp" = false)
    by (rewrite String.eqb_sym; exact Hne).
  rewrite (bind_ok _ _ _ _ _ (deref_run _ _ _ g' (nth_error_snoc h g'))).
  rewrite (bind_getitem (h ++ [g']) _ (length h) g' _ _ (nth_error_snoc h g')).
  unfold column_cells. simpl columns. simpl column_index. cbv iota.
  rewrite (bind_getitem (h ++ [g']) _ (length h) g' _ _ (nth_error_snoc h g')).
  unfold column_cells. simpl columns. unfold column_index.
  rewrite Hne'. rewrite String.eqb_refl. simpl option_map. cbv iota.
  exists [g']. unfold lift. rewrite combine_map.
  rewrite (traverse_map _ (fun r => (cell_at 0 r, cell_at 1 r))).
  assert (Z : column_tz "timestamp" g' = column_tz "timestamp" g)
    by (unfold column_tz, column_dtype; rewrite Hc; reflexivity).
  rewrite Z. reflexivity.
Qed.

(* ===================================================================== *)
(** ** Aggregation Engine: groups *)
(* ===================================================================== *)

Lemma groupby_snoc kvs kv :
  groupby (kvs ++ [kv]) =
  match fst kv with
  | VTime t => group_insert t (snd kv) (groupby kvs)
  | _ => groupby kvs
  end.
Proof. unfold groupby. rewrite fold_left_app. reflexivity. Qed.

Lemma group_insert_above k0 k v gs :
  (k0 < k)%Z ->
  Forall (Z.lt k0) (map fst gs) ->
  Forall (Z.lt k0) (map fst (group_insert k v gs)).
Proof.
  intros Hk. induction gs as [|[k' vs] rest IH]; simpl; intros HF.
  - constructor; [exact Hk|constructor].
  - inversion HF as [|x xs Hx Hxs]; subst.
    destruct (k ?= k')%Z; simpl; constructor; auto.
Qed.

Lemma group_insert_sorted k v gs :
  StronglySorted Z.lt (map fst gs) ->
  StronglySorted Z.lt (map fst (group_insert k v gs)).
Proof.
  induction gs as [|[k' vs] rest IH]; simpl; intros HS.
  - constructor; constructor.
  - inversion HS as [|x xs Hxs HF]; subst.
    destruct (Z.compare_spec k k') as [C|C|C]; simpl.
    + constructor; assumption.
    + constructor; [exact HS|].
      constructor; [exact C|].
      eapply Forall_impl; [|exact HF]. intros a Ha. simpl in Ha. lia.
    + constructor; [apply IH; exact Hxs|].
      apply group_insert_above; assumption.
Qed.

Lemma group_of_above k gs :
  Forall (Z.lt k) (map fst gs) -> group_of k gs = None.
Proof.
  induction gs as [|[k' vs] rest IH]; simpl; intros HF; [reflexivity|].
  inversion HF as [|x xs Hx Hxs]; subst.
  destruct (Z.eqb_spec k k'); [lia|]. apply IH. exact Hxs.
Qed.

Lemma group_of_insert t k v gs :
  StronglySorted Z.lt (map fst gs) ->
  group_of t (group_insert k v gs) =
  if (t =? k)%Z
  then Some (match group_of k gs with Some vs => vs ++ [v] | None => [v] end)
  else group_of t gs.
Proof.
  induction gs as [|[k' vs] rest IH]; simpl; intros HS.
  - destruct (t =? k)%Z; reflexivity.
  - inversion HS as [|x xs Hxs HF]; subst.
    destruct (Z.compare_spec k k') as [C|C|C]; simpl.
    + subst k'. rewrite Z.eqb_refl.
      destruct (t =? k)%Z; reflexivity.
    + destruct (Z.eqb_spec t k) as [->|Hne]; [|reflexivity].
      destruct (Z.eqb_spec k k'); [lia|].
      rewrite group_of_above; [reflexivity|].
      eapply Forall_impl; [|exact HF]. intros a Ha. simpl in Ha. lia.
    + destruct (Z.eqb_spec k k'); [lia|].
      destruct (Z.eqb_spec t k') as [->|Hne].
      * destruct (Z.eqb_spec k' k); [lia|reflexivity].
      * apply IH. exact Hxs.
Qed.

(** On strictly ascending keys, a group is in the list exactly when the
    lookup finds it. *)
Lemma group_of_In t vs gs :
  StronglySorted Z.lt (map fst gs) ->
  In (t, vs) gs <-> group_of t gs = Some vs.
Proof.
  induction gs as [|[k ws] rest IH]; simpl; intros HS.
  - split; [contradiction|discriminate].
  - inversion HS as [|x xs Hxs HF]; subst. split.
    + intros [E|Hin].
      * inversion E; subst. rewrite Z.eqb_refl. reflexivity.
      * assert (k < t)%Z.
        { rewrite Forall_forall in HF. apply HF.
          apply (in_map fst) in Hin. exact Hin. }
        destruct (Z.eqb_spec t k); [lia|]. apply IH; assumption.
    + destruct (Z.eqb_spec t k) as [->|Hne].
      * intros E. inversion E. left. reflexivity.
      * intros E. right. apply IH; assumption.
Qed.

Lemma cell_eqb_time c t :
  cell_eqb c (VTime t) = true <-> c = VTime t.
Proof.
  destruct c; simpl; split; try discriminate; intros H.
  - apply Z.eqb_eq in H. subst. reflexivity.
  - inversion H. apply Z.eqb_refl.
Qed.

(** The groups are in strictly ascending key order, and the group of [t]
    holds the values of the pairs keyed [t], in their order. *)
Lemma groupby_spec kvs :
  StronglySorted Z.lt (map fst (groupby kvs)) /\
  forall t,
    group_of t (groupby kvs) =
    match map snd (filter (fun kv => cell_eqb (fst kv) (VTime t)) kvs) with
    | [] => None
    | v :: vs => Some (v :: vs)
    end.
Proof.
  induction kvs as [|kv kvs [IHs IHg]] using rev_ind.
  - split; [constructor|reflexivity].
  - rewrite groupby_snoc.
    assert (Hsplit : forall t,
      map snd (filter (fun kv => cell_eqb (fst kv) (VTime t)) (kvs ++ [kv])) =
      map snd (filter (fun kv => cell_eqb (fst kv) (VTime t)) kvs) ++
      (if cell_eqb (fst kv) (VTime t) then [snd kv] else [])).
    { intros t. rewrite filter_app, map_app. simpl.
      destruct (cell_eqb (fst kv) (VTime t)); reflexivity. }
    destruct (fst kv) as [s|q|t0|] eqn:K.
    1,2,4: (split; [exact IHs|]; intros t; rewrite Hsplit; simpl;
            rewrite app_nil_r; apply IHg).
    split; [apply group_insert_sorted; exact IHs|].
    intros t. rewrite Hsplit. rewrite (group_of_insert _ _ _ _ IHs).
    simpl cell_eqb. rewrite (Z.eqb_sym t0 t).
    destruct (Z.eqb_spec t t0) as [->|Hne].
    + rewrite IHg.
      destruct (map snd (filter _ kvs)); reflexivity.
    + rewrite app_nil_r. apply IHg.
Qed.

Lemma filter_map {A B : Type} (p : B -> bool) (f : A -> B) (l : list A) :
  filter p (map f l) = map f (filter (fun x => p (f x)) l).
Proof.
  induction l as [|x xs IH]; simpl; [reflexivity|].
  destruct (p (f x)); simpl; rewrite IH; reflexivity.
Qed.

(** Sorting rows that are already in strictly ascending key order changes
    nothing. *)
Lemma sort_rows_sorted (f : Z * list cell -> cell) gs :
  StronglySorted Z.lt (map fst gs) ->
  sort_rows 0 (map (fun g => [VTime (fst g); f g]) gs) =
  map (fun g => [VTime (fst g); f g]) gs.
Proof.
  induction gs as [|g rest IH]; simpl; intros HS; [reflexivity|].
  inversion HS as [|x xs Hxs HF]; subst.
  unfold sort_rows in *. simpl. rewrite (IH Hxs).
  destruct rest as [|g' rest']; simpl; [reflexivity|].
  inversion HF as [|y ys Hy Hys]; subst.
  unfold cell_at. simpl.
  destruct (Z.leb_spec (fst g) (fst g')); [reflexivity|lia].
Qed.

(* ===================================================================== *)
(** ** Well-formed frames *)
(* ===================================================================== *)

Lemma column_index_nth c cols i :
  column_index c cols = Some i -> exists d, nth_error cols i = Some (c, d).
Proof.
  revert i. induction cols as [|[n d] rest IH]; simpl; intros i H.
  - discriminate.
  - destruct (String.eqb_spec c n) as [->|Hne].
    + inversion H. exists d. reflexivity.
    + destruct (column_index c rest) as [i'|]; [|discriminate].
      inversion H. simpl. apply IH. reflexivity.
Qed.

Lemma column_index_in c d cols :
  In (c, d) cols -> exists i, column_index c cols = Some i.
Proof.
  induction cols as [|[n d'] rest IH]; simpl; intros H; [contradiction|].
  destruct (String.eqb_spec c n) as [->|Hne].
  - exists 0. reflexivity.
  - destruct H as [E|H]; [inversion E; congruence|].
    destruct (IH H) as [i Hi]. rewrite Hi. exists (S i). reflexivity.
Qed.

Lemma distinct_NoDup names : distinct names = true -> NoDup names.
Proof.
  induction names as [|n rest IH]; simpl; intros H; [constructor|].
  apply andb_true_iff in H. destruct H as [Hn Hr].
  constructor; [|apply IH; exact Hr].
  intros Hin. apply negb_true_iff in Hn.
  assert (existsb (String.eqb n) rest = true); [|congruence].
  apply existsb_exists. exists n. split; [exact Hin|apply String.eqb_refl].
Qed.

Lemma NoDup_fst_unique {A B : Type} (l : list (A * B)) a x y :
  NoDup (map fst l) -> In (a, x) l -> In (a, y) l -> x = y.
Proof.
  induction l as [|[a' b'] rest IH]; simpl; intros ND Hx Hy; [contradiction|].
  inversion ND as [|? ? Hnin ND']; subst.
  destruct Hx as [Ex|Hx], Hy as [Ey|Hy].
  - congruence.
  - inversion Ex; subst. exfalso. apply Hnin.
    apply (in_map fst) in Hy. exact Hy.
  - inversion Ey; subst. exfalso. apply Hnin.
    apply (in_map fst) in Hx. exact Hx.
  - apply IH; assumption.
Qed.

Lemma row_typed_at cols r i c d :
  row_typed cols r = true ->
  nth_error cols i = Some (c, d) ->
  cell_has d (cell_at i r) = true.
Proof.
  revert r i. induction cols as [|[n d'] rest IH]; intros r i HT HN.
  - destruct i; discriminate.
  - destruct r as [|x r']; simpl in HT; [discriminate|].
    apply andb_true_iff in HT. destruct HT as [Hx Hr].
    destruct i as [|i']; simpl in HN.
    + inversion HN; subst. exact Hx.
    + unfold cell_at. simpl. apply (IH r' i' Hr HN).
Qed.

Lemma numeric_cols_in tc df :
  In tc (numeric_cols df) -> In (tc, Number) (columns df).
Proof.
  unfold numeric_cols. intros H. apply in_map_iff in H.
  destruct H as [[n d] [E H]]. simpl in E. subst n.
  apply filter_In in H. destruct H as [H Hd]. simpl in Hd.
  destruct d; try discriminate. exact H.
Qed.

Lemma select_target_in numeric tc :
  select_target numeric = Some tc -> In tc numeric.
Proof.
  unfold select_target.
  destruct (existsb (String.eqb "value") numeric) eqn:E.
  - intros H. inversion H; subst.
    apply existsb_exists in E. destruct E as [x [Hin Hx]].
    apply String.eqb_eq in Hx. subst. exact Hin.
  - destruct numeric as [|first rest]; [discriminate|].
    intros H. inversion H. left. reflexivity.
Qed.

(** A measurements frame: well formed, with a datetime [timestamp] column,
    naive or not, and a target column [tc] picked among its numeric
    columns.  Then both columns are found, they differ, every key is a
    timestamp or null and every target cell a number or null. *)
Lemma datetime_columns df tc d tz :
  well_formed df = true ->
  column_dtype "timestamp" df = Some d ->
  timezone d = Some tz ->
  select_target (numeric_cols df) = Some tc ->
  exists i j,
    column_index "timestamp" (columns df) = Some i /\
    column_index tc (columns df) = Some j /\
    String.eqb "timestamp" tc = false /\
    (forall r, In r (values df) -> time_or_null (cell_at i r) = true) /\
    (forall r, In r (values df) -> cell_has Number (cell_at j r) = true).
Proof.
  intros WF HD Hz HT. unfold well_formed in WF.
  apply andb_true_iff in WF. destruct WF as [Hdis Hrows].
  apply distinct_NoDup in Hdis. rewrite forallb_forall in Hrows.
  unfold column_dtype in HD.
  destruct (column_index "timestamp" (columns df)) as [i|] eqn:Hi;
    [|discriminate].
  destruct (column_index_nth _ _ _ Hi) as [d0 Hnth].
  rewrite Hnth in HD. simpl in HD. inversion HD; subst d0.
  pose proof (numeric_cols_in _ _ (select_target_in _ _ HT)) as Hin.
  destruct (column_index_in _ _ _ Hin) as [j Hj].
  destruct (column_index_nth _ _ _ Hj) as [d' Hnj].
  assert (d' = Number).
  { apply (NoDup_fst_unique (columns df) tc d' Number Hdis);
      [eapply nth_error_In; exact Hnj|exact Hin]. }
  subst d'.
  exists i, j. repeat split; try assumption.
  - destruct (String.eqb_spec "timestamp" tc) as [E|]; [|reflexivity].
    subst tc. exfalso.
    assert (d = Number); [|subst d; discriminate].
    apply (NoDup_fst_unique (columns df) "timestamp" _ _ Hdis);
      [eapply nth_error_In; exact Hnth|exact Hin].
  - intros r Hr. pose proof (row_typed_at _ _ _ _ _ (Hrows r Hr) Hnth) as H.
    destruct d; try discriminate;
      destruct (cell_at i r); simpl in *; congruence.
  - intros r Hr. exact (row_typed_at _ _ _ _ _ (Hrows r Hr) Hnj).
Qed.


(** The frame of the group means keeps the time zone of the keys. *)
Lemma grouped_frame_tz df tc g :
  grouped_frame df "timestamp" tc = Ok g ->
  column_tz "timestamp" g = column_tz "timestamp" df.
Proof.
  unfold grouped_frame.
  destruct (column_cells "timestamp" df) as [keys|] eqn:K;
    cbn [result_bind]; [|discriminate].
  destruct (column_cells tc df) as [vals|]; cbn [result_bind];
    [|discriminate].
  destruct (String.eqb "timestamp" tc); [discriminate|].
  destruct (group_rows keys vals); cbn [result_bind]; [|discriminate].
  intros E. inversion E. unfold column_tz.
  unfold column_dtype at 1. cbn [columns column_index].
  rewrite String.eqb_refl. cbn [nth_error option_map snd].
  destruct (column_dtype "timestamp" df) as [d|]; reflexivity.
Qed.

(** The series of a measurements frame, group by group. *)
Lemma avg_series_groups df tc i j :
  column_index "timestamp" (columns df) = Some i ->
  column_index tc (columns df) = Some j ->
  String.eqb "timestamp" tc = false ->
  (forall r, In r (values df) -> time_or_null (cell_at i r) = true) ->
  select_target (numeric_cols df) = Some tc ->
  avg_series df =
  Ok (map (fun g => mkPoint (isoformat (column_tz "timestamp" df) (fst g))
                      (to_float (series_mean (snd g))))
        (groupby (map (fun r => (cell_at i r, cell_at j r)) (values df)))).
Proof.
  intros Hi Hj Hne Hkeys HT. unfold avg_series, aggregate_over.
  unfold has_column. rewrite Hi. simpl negb. rewrite orb_false_r.
  destruct (df_empty df) eqn:He.
  - unfold df_empty in He. apply orb_true_iff in He.
    destruct He as [He|He]; apply Nat.eqb_eq in He.
    + apply length_zero_iff_nil in He. rewrite He. reflexivity.
    + apply length_zero_iff_nil in He. rewrite He in Hi. discriminate.
  - rewrite HT.
    destruct (grouped_frame df "timestamp" tc) as [g|e] eqn:G.
    + simpl result_bind. rewrite (grouped_frame_tz df tc g G).
      unfold grouped_frame, column_cells in G. rewrite Hi, Hj in G.
      cbv beta iota delta [result_bind] in G. rewrite Hne in G.
      assert (HF : forallb time_or_null (map (cell_at i) (values df)) = true).
      { apply forallb_forall. intros c Hc. apply in_map_iff in Hc.
        destruct Hc as [r [E Hr]]. subst c. apply Hkeys. exact Hr. }
      unfold group_rows in G. rewrite HF in G. inversion G as [G'].
      cbv beta iota delta [values]. rewrite combine_map.
      rewrite (sort_rows_sorted (fun g => series_mean (snd g)));
        [|apply groupby_spec].
      rewrite traverse_map. apply traverse_ok. intros x _. reflexivity.
    + exfalso. unfold grouped_frame, column_cells in G. rewrite Hi, Hj in G.
      cbv beta iota delta [result_bind] in G. rewrite Hne in G.
      assert (HF : forallb time_or_null (map (cell_at i) (values df)) = true).
      { apply forallb_forall. intros c Hc. apply in_map_iff in Hc.
        destruct Hc as [r [E Hr]]. subst c. apply Hkeys. exact Hr. }
      unfold group_rows in G. rewrite HF in G. discriminate.
Qed.

(** The values of a group are the target cells of the rows stamped with
    its key. *)
Lemma group_cells df tc i j t vs :
  column_index "timestamp" (columns df) = Some i ->
  column_index tc (columns df) = Some j ->
  In (t, vs)
    (groupby (map (fun r => (cell_at i r, cell_at j r)) (values df))) ->
  vs = map (field df tc) (rows_at df t) /\ vs <> [].
Proof.
  intros Hi Hj Hin.
  destruct (groupby_spec (map (fun r => (cell_at i r, cell_at j r)) (values df)))
    as [HS HG].
  apply (group_of_In _ _ _ HS) in Hin. rewrite HG in Hin.
  rewrite filter_map, map_map in Hin. simpl in Hin.
  assert (E : map (field df tc) (rows_at df t) =
              map (fun r => cell_at j r)
                (filter (fun r => cell_eqb (cell_at i r) (VTime t)) (values df))).
  { unfold rows_at. rewrite (filter_ext _ (fun r => cell_eqb (cell_at i r) (VTime t))).
    - apply map_ext. intros r. apply field_at. exact Hj.
    - intros r. rewrite (field_at df _ i r Hi). reflexivity. }
  rewrite E.
  destruct (map _ (filter _ (values df))); [discriminate|].
  inversion Hin. split; [reflexivity|discriminate].
Qed.

Lemma group_keys df i j t :
  column_index "timestamp" (columns df) = Some i ->
  In t (map fst
          (groupby (map (fun r => (cell_at i r, cell_at j r)) (values df)))) <->
  exists r, In r (values df) /\ field df "timestamp" r = VTime t.
Proof.
  intros Hi.
  destruct (groupby_spec (map (fun r => (cell_at i r, cell_at j r)) (values df)))
    as [HS HG].
  specialize (HG t). rewrite filter_map, map_map in HG. simpl in HG.
  split.
  - intros Hin. apply in_map_iff in Hin. destruct Hin as [[k vs] [E Hin]].
    simpl in E. subst k. apply (group_of_In _ _ _ HS) in Hin.
    rewrite Hin in HG.
    destruct (filter (fun r => cell_eqb (cell_at i r) (VTime t)) (values df))
      as [|r rs] eqn:F; [discriminate|].
    assert (Hr : In r (filter (fun r => cell_eqb (cell_at i r) (VTime t))
                         (values df))) by (rewrite F; left; reflexivity).
    apply filter_In in Hr. destruct Hr as [Hr Ht].
    exists r. split; [exact Hr|].
    rewrite (field_at df _ i r Hi). apply cell_eqb_time. exact Ht.
  - intros [r [Hr Ht]]. rewrite (field_at df _ i r Hi) in Ht.
    assert (Hf : In r (filter (fun r => cell_eqb (cell_at i r) (VTime t))
                         (values df))).
    { apply filter_In. split; [exact Hr|]. apply cell_eqb_time. exact Ht. }
    destruct (filter (fun r => cell_eqb (cell_at i r) (VTime t)) (values df))
      as [|r0 rs]; [contradiction|].
    simpl in HG. apply (group_of_In _ _ _ HS) in HG.
    apply (in_map fst) in HG. exact HG.
Qed.

(* ===================================================================== *)
(** ** The text of a timestamp *)
(* ===================================================================== *)

Lemma append_assoc (a b c : string) : ((a ++ b) ++ c = a ++ b ++ c)%string.
Proof. induction a as [|x a IH]; simpl; [reflexivity|]. rewrite IH. reflexivity. Qed.

Lemma append_nil_r (a : string) : (a ++ "" = a)%string.
Proof. induction a as [|x a IH]; simpl; [reflexivity|]. rewrite IH. reflexivity. Qed.

Lemma length_append (a b : string) :
  String.length (a ++ b) = String.length a + String.length b.
Proof. induction a as [|x a IH]; simpl; [reflexivity|]. rewrite IH. reflexivity. Qed.

Lemma substring_all (a : string) : substring 0 (String.length a) a = a.
Proof. induction a as [|x a IH]; simpl; [reflexivity|]. rewrite IH. reflexivity. Qed.

Lemma substring_prefix (a b : string) :
  substring 0 (String.length a) (a ++ b) = a.
Proof.
  induction a as [|x a IH]; simpl.
  - destruct b; reflexivity.
  - rewrite IH. reflexivity.
Qed.

Lemma substring_suffix (a b : string) :
  substring (String.length a) (String.length b) (a ++ b) = b.
Proof.
  induction a as [|x a IH]; simpl; [apply substring_all|exact IH].
Qed.

Lemma length_zero_pad w n : String.length (zero_pad w n) = w.
Proof.
  revert n. induction w as [|w IH]; intros n; simpl; [reflexivity|].
  rewrite length_append, IH. simpl. lia.
Qed.

Lemma digit_value_digit n : digit_value (digit n) = Some (n mod 10)%Z.
Proof.
  unfold digit_value, digit.
  pose proof (Z.mod_pos_bound n 10 ltac:(lia)) as B.
  rewrite nat_ascii_embedding by lia.
  rewrite Nat2Z.inj_add, Z2Nat.id by lia.
  change (Z.of_nat 48) with 48%Z.
  destruct (Z.leb_spec 48 (48 + n mod 10)); [|lia].
  destruct (Z.leb_spec (48 + n mod 10) 57); [|lia].
  cbn [andb]. f_equal. lia.
Qed.

Lemma pow10_pos k : (0 < 10 ^ Z.of_nat k)%Z.
Proof. apply Z.pow_pos_nonneg; lia. Qed.

Lemma mod_pow10_succ n w :
  (n mod 10 ^ Z.of_nat (S w) = 10 * ((n / 10) mod 10 ^ Z.of_nat w) + n mod 10)%Z.
Proof.
  rewrite Nat2Z.inj_succ, Z.pow_succ_r by lia.
  rewrite Z.rem_mul_r by (pose proof (pow10_pos w); lia). lia.
Qed.

(** Reading the digits that [zero_pad] wrote gives the number back, on as
    many digits as were written. *)
Lemma read_digits_zero_pad w k n acc rest :
  read_digits (w + k) acc (zero_pad w n ++ rest) =
  read_digits k (acc * 10 ^ Z.of_nat w + n mod 10 ^ Z.of_nat w)%Z rest.
Proof.
  revert k n acc rest. induction w as [|w IH]; intros k n acc rest.
  - simpl. rewrite Z.mod_1_r. f_equal. lia.
  - cbn [zero_pad]. rewrite append_assoc.
    replace (S w + k) with (w + S k) by lia. rewrite IH.
    cbn [append read_digits]. rewrite digit_value_digit.
    f_equal. rewrite mod_pow10_succ.
    rewrite (Nat2Z.inj_succ w), Z.pow_succ_r by lia. lia.
Qed.

Lemma read_zero_pad w n rest :
  (0 <= n < 10 ^ Z.of_nat w)%Z ->
  read_digits w 0 (zero_pad w n ++ rest) = Some (n, rest).
Proof.
  intros H. rewrite <- (Nat.add_0_r w) at 1.
  rewrite read_digits_zero_pad. simpl read_digits.
  rewrite Z.mod_small by exact H. reflexivity.
Qed.

Lemma read_fraction_digits_zero_pad w k n acc rest :
  read_fraction_digits (w + k) acc (zero_pad w n ++ rest) =
  read_fraction_digits k
    (acc + (n mod 10 ^ Z.of_nat w) * 10 ^ Z.of_nat k)%Z rest.
Proof.
  revert k n acc rest. induction w as [|w IH]; intros k n acc rest.
  - simpl. rewrite Z.mod_1_r. f_equal. lia.
  - cbn [zero_pad]. rewrite append_assoc.
    replace (S w + k) with (w + S k) by lia. rewrite IH.
    cbn [append read_fraction_digits]. rewrite digit_value_digit.
    f_equal. rewrite mod_pow10_succ.
    rewrite (Nat2Z.inj_succ k), Z.pow_succ_r by lia. lia.
Qed.

(** A text written by [zero_pad] is split where it is written. *)
Lemma zero_pad_split a b n :
  (zero_pad (a + b) n =
   zero_pad a (n / 10 ^ Z.of_nat b) ++ zero_pad b n)%string.
Proof.
  revert n. induction b as [|b IH]; intros n.
  - rewrite Nat.add_0_r. simpl. rewrite Z.div_1_r, append_nil_r. reflexivity.
  - rewrite <- plus_n_Sm. cbn [zero_pad]. rewrite IH.
    rewrite append_assoc. do 2 f_equal.
    rewrite Nat2Z.inj_succ, Z.pow_succ_r by lia.
    rewrite Z.div_div by (pose proof (pow10_pos b); lia).
    reflexivity.
Qed.

Lemma digit_mod n k : (0 < k)%Z -> digit (n mod (10 * k)) = digit n.
Proof.
  intros Hk. unfold digit. do 3 f_equal.
  rewrite Z.rem_mul_r by lia.
  rewrite (Z.mul_comm 10), Z.mod_add by lia.
  apply Z.mod_mod. lia.
Qed.

Lemma zero_pad_mod w n : zero_pad w (n mod 10 ^ Z.of_nat w) = zero_pad w n.
Proof.
  revert n. induction w as [|w IH]; intros n; [reflexivity|].
  cbn [zero_pad]. rewrite Nat2Z.inj_succ, Z.pow_succ_r by lia.
  rewrite digit_mod by apply pow10_pos. f_equal.
  rewrite <- (IH (n / 10)%Z). f_equal.
  rewrite Z.rem_mul_r by (pose proof (pow10_pos w); lia).
  rewrite (Z.mul_comm 10), Z.div_add by lia.
  rewrite (Z.div_small (n mod 10) 10) by (apply Z.mod_pos_bound; lia).
  reflexivity.
Qed.

(** The date that [civil_from_days] gives for a day is a date of the
    calendar, and it is the date of that day. *)
Lemma civil_from_days_spec n :
  let '(y, m, d) := civil_from_days n in
  (1 <= m <= 12 /\ 1 <= d <= days_in_month y m /\
   days_from_civil y m d = n)%Z.
Proof.
  unfold civil_from_days.
  set (z := (n + 719468)%Z).
  set (era := (z / 146097)%Z).
  set (doe := (z - era * 146097)%Z).
  assert (Hdoe : (0 <= doe < 146097)%Z).
  { subst doe era. pose proof (Z.mod_pos_bound z 146097 ltac:(lia)) as H.
    rewrite Z.mod_eq in H by lia. lia. }
  assert (Hn : n = (era * 146097 + doe - 719468)%Z) by (subst doe z; lia).
  clearbody doe era. clear z. subst n.
  set (yoe := ((doe - doe / 1460 + doe / 36524 - doe / 146096) / 365)%Z).
  assert (Hy : (0 <= yoe <= 399 /\
                365 * yoe + yoe / 4 - yoe / 100 <= doe /\
                (yoe < 399 ->
                 doe < 365 * (yoe + 1) + (yoe + 1) / 4 - (yoe + 1) / 100))%Z).
  { subst yoe. Z.to_euclidean_division_equations; lia. }
  clearbody yoe.
  set (doy := (doe - (365 * yoe + yoe / 4 - yoe / 100))%Z).
  assert (Hd : (0 <= doy <= 365 /\
                (doy = 365 ->
                 (yoe + 1) mod 4 = 0 /\
                 ((yoe + 1) mod 100 <> 0 \/ yoe = 399)))%Z).
  { subst doy. Z.to_euclidean_division_equations; lia. }
  assert (Hdoe' : doe = (doy + (365 * yoe + yoe / 4 - yoe / 100))%Z)
    by (subst doy; lia).
  clearbody doy. subst doe. clear Hdoe.
  set (mp := ((5 * doy + 2) / 153)%Z).
  assert (Hmp : (0 <= mp <= 11)%Z)
    by (subst mp; Z.to_euclidean_division_equations; lia).
  assert (Hday : ((153 * mp + 2) / 5 <= doy /\
                  (mp < 11 -> doy < (153 * (mp + 1) + 2) / 5))%Z)
    by (subst mp; Z.to_euclidean_division_equations; lia).
  clearbody mp.
  assert (Hm : exists m,
             (if mp <? 10 then mp + 3 else mp - 9)%Z = m /\
             ((mp < 10 /\ m = mp + 3) \/ (10 <= mp /\ m = mp - 9))%Z).
  { eexists. split; [reflexivity|].
    destruct (Z.ltb_spec mp 10); [left|right]; lia. }
  destruct Hm as [m [Em Hm]]. rewrite Em. clear Em.
  assert (Hc : (m = 1 \/ m = 2 \/ m = 3 \/ m = 4 \/ m = 5 \/ m = 6 \/
                m = 7 \/ m = 8 \/ m = 9 \/ m = 10 \/ m = 11 \/ m = 12)%Z)
    by lia.
  unfold days_from_civil, days_before_year, days_before_month, days_in_month,
    is_leap.
  repeat (destruct Hc as [E|Hc];
          [subst m;
           cbv beta iota delta
             [Z.leb Z.ltb Z.compare Pos.compare Pos.compare_cont]|]);
    try (subst m;
         cbv beta iota delta
           [Z.leb Z.ltb Z.compare Pos.compare Pos.compare_cont]).
  all: repeat match goal with
              | |- context [Z.eqb ?a ?b] => destruct (Z.eqb_spec a b)
              end; cbv beta iota delta [andb orb negb].
  all: Z.to_euclidean_division_equations; lia.
Qed.

(** The year of a day between 0001-01-01 and 9999-12-31. *)
Lemma civil_year_bounds y m d :
  (1 <= m <= 12)%Z ->
  (1 <= d <= days_in_month y m)%Z ->
  (-719162 <= days_from_civil y m d <= 2932896)%Z ->
  (1 <= y <= 9999)%Z.
Proof.
  intros Hm Hd H.
  assert (B : (0 <= days_before_month y m + (d - 1) <= 365)%Z).
  { revert Hd. unfold days_before_month, days_in_month.
    assert (Hc : (m = 1 \/ m = 2 \/ m = 3 \/ m = 4 \/ m = 5 \/ m = 6 \/
                  m = 7 \/ m = 8 \/ m = 9 \/ m = 10 \/ m = 11 \/ m = 12)%Z)
      by lia.
    repeat (destruct Hc as [E|Hc]; [subst m|]); try subst m;
      cbv beta iota delta
        [Z.leb Z.ltb Z.compare Pos.compare Pos.compare_cont andb];
      destruct (is_leap y); lia. }
  assert (H' : (0 <= days_before_year y +
                     (days_before_month y m + (d - 1)) <= 3652058)%Z)
    by (unfold days_from_civil in H; lia).
  clear H. revert B H'.
  generalize (days_before_month y m + (d - 1))%Z. intros x B H.
  unfold days_before_year in H.
  set (p := (y - 1)%Z) in *.
  assert (E4 : (p / 4 = 100 * (p / 400) + p mod 400 / 4)%Z)
    by (Z.to_euclidean_division_equations; lia).
  assert (E100 : (p / 100 = 4 * (p / 400) + p mod 400 / 100)%Z)
    by (Z.to_euclidean_division_equations; lia).
  rewrite E4, E100 in H. clear E4 E100.
  assert (Hp : (p = 400 * (p / 400) + p mod 400)%Z)
    by (apply Z.div_mod; lia).
  pose proof (Z.mod_pos_bound p 400 ltac:(lia)) as Hb.
  revert H Hp Hb. generalize (p / 400)%Z (p mod 400)%Z. intros a b H Hp Hb.
  assert (H0 : (0 <= b / 4 <= 99 /\ 0 <= b / 100 <= 3 /\ 4 * (b / 4) <= b /\
                b < 4 * (b / 4) + 4 /\ 100 * (b / 100) <= b /\
                b < 100 * (b / 100) + 100)%Z)
    by (Z.to_euclidean_division_equations; lia).
  revert H H0. generalize (b / 4)%Z (b / 100)%Z. intros u v H H0.
  assert (U : (365 * b + u - v <= 145731)%Z) by lia.
  assert (L : (b = 399 -> 365 * b + u - v = 145731)%Z) by lia.
  subst p.
  assert (Ha : (0 <= a <= 24)%Z) by lia.
  assert (a < 24 \/ (a = 24 /\ b < 399) \/ (a = 24 /\ b = 399))%Z
    as [C|[C|C]] by lia; lia.
Qed.

(** The time of day that [render_seconds] writes, put together again. *)
Lemma clock_fields w :
  let secs := (w / 1000000000)%Z in
  let sod := (secs mod 86400)%Z in
  (0 <= sod / 3600 < 24 /\ 0 <= sod mod 3600 / 60 < 60 /\
   0 <= sod mod 60 < 60 /\ 0 <= w mod 1000000000 < 1000000000 /\
   (secs / 86400 * 86400 + sod / 3600 * 3600 + sod mod 3600 / 60 * 60 +
    sod mod 60) * 1000000000 + w mod 1000000000 = w)%Z.
Proof. cbv zeta. Z.to_euclidean_division_equations; lia. Qed.

Lemma wall_days w :
  (MIN_WALL <= w <= MAX_WALL)%Z ->
  (-719162 <= w / 1000000000 / 86400 <= 2932896)%Z.
Proof.
  unfold MIN_WALL, MAX_WALL. intros H.
  Z.to_euclidean_division_equations; lia.
Qed.

Lemma days_in_month_le y m : (days_in_month y m <= 31)%Z.
Proof.
  unfold days_in_month.
  destruct m as [|p|p]; try lia.
  do 4 (try destruct p as [p|p|]); try lia; destruct (is_leap y); lia.
Qed.

(** The three texts that may end a timestamp: none, or an offset east or
    west of UTC. *)
Lemma read_offset_east h mi :
  (0 <= h < 24)%Z -> (0 <= mi < 60)%Z ->
  read_offset ("+" ++ zero_pad 2 h ++ ":" ++ zero_pad 2 mi) =
  Some (Some (h * 3600 + mi * 60)%Z).
Proof.
  intros Hh Hm. cbn [append read_offset].
  change (Ascii.eqb "+" "+") with true. cbn [orb].
  rewrite read_zero_pad by (change (10 ^ Z.of_nat 2)%Z with 100%Z; lia).
  cbn [append expect]. change (Ascii.eqb ":" ":") with true. cbv iota.
  rewrite <- (append_nil_r (zero_pad 2 mi)).
  rewrite read_zero_pad by (change (10 ^ Z.of_nat 2)%Z with 100%Z; lia).
  destruct (Z.ltb_spec h 24); [|lia]. destruct (Z.ltb_spec mi 60); [|lia].
  reflexivity.
Qed.

Lemma read_offset_west h mi :
  (0 <= h < 24)%Z -> (0 <= mi < 60)%Z ->
  read_offset ("-" ++ zero_pad 2 h ++ ":" ++ zero_pad 2 mi) =
  Some (Some (- (h * 3600 + mi * 60))%Z).
Proof.
  intros Hh Hm. cbn [append read_offset].
  change (Ascii.eqb "-" "+") with false. change (Ascii.eqb "-" "-") with true.
  cbn [orb].
  rewrite read_zero_pad by (change (10 ^ Z.of_nat 2)%Z with 100%Z; lia).
  cbn [append expect]. change (Ascii.eqb ":" ":") with true. cbv iota.
  rewrite <- (append_nil_r (zero_pad 2 mi)).
  rewrite read_zero_pad by (change (10 ^ Z.of_nat 2)%Z with 100%Z; lia).
  destruct (Z.ltb_spec h 24); [|lia]. destruct (Z.ltb_spec mi 60); [|lia].
  reflexivity.
Qed.

Lemma read_fraction_digits_end fuel acc s :
  ends_fraction s -> read_fraction_digits fuel acc s = (acc, s).
Proof.
  intros H. destruct fuel as [|fuel]; [reflexivity|].
  destruct s as [|c s]; [reflexivity|].
  simpl in H. destruct H as [H _]. cbn [read_fraction_digits]. rewrite H.
  reflexivity.
Qed.

Lemma read_fraction_none s : ends_fraction s -> read_fraction s = Some (0%Z, s).
Proof.
  destruct s as [|c s]; [reflexivity|]. intros [_ H].
  unfold read_fraction.
  destruct c as [[] [] [] [] [] [] [] []]; try reflexivity.
  exfalso. apply H. reflexivity.
Qed.

Lemma read_fraction_micro micro s :
  (0 <= micro < 1000000)%Z ->
  ends_fraction s ->
  read_fraction ("." ++ zero_pad 6 micro ++ s) = Some ((micro * 1000)%Z, s).
Proof.
  intros Hm Hs. cbn [append read_fraction].
  change (zero_pad 6 micro) with (zero_pad (1 + 5) micro).
  rewrite (zero_pad_split 1 5 micro). rewrite append_assoc.
  rewrite read_zero_pad.
  2:{ change (10 ^ Z.of_nat 5)%Z with 100000%Z.
      change (10 ^ Z.of_nat 1)%Z with 10%Z.
      Z.to_euclidean_division_equations; lia. }
  rewrite (read_fraction_digits_zero_pad 5 3).
  rewrite read_fraction_digits_end by exact Hs.
  do 2 f_equal.
  change (10 ^ Z.of_nat 5)%Z with 100000%Z.
  change (10 ^ Z.of_nat 3)%Z with 1000%Z.
  Z.to_euclidean_division_equations; lia.
Qed.

Lemma read_fraction_nano frac s :
  (0 <= frac < 1000000000)%Z ->
  read_fraction ("." ++ zero_pad 9 frac ++ s) = Some (frac, s).
Proof.
  intros Hf. cbn [append read_fraction].
  change (zero_pad 9 frac) with (zero_pad (1 + 8) frac).
  rewrite (zero_pad_split 1 8 frac). rewrite append_assoc.
  rewrite read_zero_pad.
  2:{ change (10 ^ Z.of_nat 8)%Z with 100000000%Z.
      change (10 ^ Z.of_nat 1)%Z with 10%Z.
      Z.to_euclidean_division_equations; lia. }
  rewrite (read_fraction_digits_zero_pad 8 0).
  cbn [read_fraction_digits]. do 2 f_equal.
  change (10 ^ Z.of_nat 8)%Z with 100000000%Z.
  change (10 ^ Z.of_nat 0)%Z with 1%Z.
  Z.to_euclidean_division_equations; lia.
Qed.

(** Reading a text made of a date and a time of day written on the
    widths of ISO 8601, a fraction and an offset. *)
Lemma read_text y m d hh mm ss F Zt ns off :
  (1 <= y <= 9999)%Z -> (1 <= m <= 12)%Z ->
  (1 <= d <= days_in_month y m)%Z ->
  (0 <= hh < 24)%Z -> (0 <= mm < 60)%Z -> (0 <= ss < 60)%Z ->
  read_fraction (F ++ Zt) = Some (ns, Zt) ->
  read_offset Zt = Some off ->
  read_iso8601
    (zero_pad 4 y ++ "-" ++ zero_pad 2 m ++ "-" ++ zero_pad 2 d ++ "T" ++
     zero_pad 2 hh ++ ":" ++ zero_pad 2 mm ++ ":" ++ zero_pad 2 ss ++
     F ++ Zt) =
  Some (((days_from_civil y m d * 86400 + hh * 3600 + mm * 60 + ss) *
         1000000000 + ns)%Z, off).
Proof.
  intros Hy Hm Hd Hh Hmm Hs HF HZ.
  pose proof (days_in_month_le y m) as Hdm.
  unfold read_iso8601.
  rewrite read_zero_pad by (change (10 ^ Z.of_nat 4)%Z with 10000%Z; lia).
  cbn [append expect]. change (Ascii.eqb "-" "-") with true. cbv iota.
  rewrite read_zero_pad by (change (10 ^ Z.of_nat 2)%Z with 100%Z; lia).
  cbn [append expect]. change (Ascii.eqb "-" "-") with true. cbv iota.
  rewrite read_zero_pad by (change (10 ^ Z.of_nat 2)%Z with 100%Z; lia).
  cbn [append expect]. change (Ascii.eqb "T" "T") with true. cbv iota.
  rewrite read_zero_pad by (change (10 ^ Z.of_nat 2)%Z with 100%Z; lia).
  cbn [append expect]. change (Ascii.eqb ":" ":") with true. cbv iota.
  rewrite read_zero_pad by (change (10 ^ Z.of_nat 2)%Z with 100%Z; lia).
  cbn [append expect]. change (Ascii.eqb ":" ":") with true. cbv iota.
  rewrite read_zero_pad by (change (10 ^ Z.of_nat 2)%Z with 100%Z; lia).
  rewrite HF, HZ.
  destruct (Z.leb_spec 1 y); [|lia]. destruct (Z.leb_spec 1 m); [|lia].
  destruct (Z.leb_spec m 12); [|lia]. destruct (Z.leb_spec 1 d); [|lia].
  destruct (Z.leb_spec d (days_in_month y m)); [|lia].
  destruct (Z.ltb_spec hh 24); [|lia]. destruct (Z.ltb_spec mm 60); [|lia].
  destruct (Z.ltb_spec ss 60); [|lia].
  reflexivity.
Qed.

(** The text of the offset of a zone, when it is a whole number of
    minutes: it has six characters, does not go on a fraction, and reads
    as the offset. *)
Lemma format_offset_minutes off :
  (off mod 60 = 0)%Z -> (-86400 < off < 86400)%Z ->
  String.length (format_offset off) = 6 /\
  ends_fraction (format_offset off) /\
  read_offset (format_offset off) = Some (Some off).
Proof.
  intros Hmod Hoff. unfold format_offset.
  set (a := Z.abs off).
  assert (Ha : (a mod 60 = 0)%Z)
    by (subst a; Z.to_euclidean_division_equations; lia).
  rewrite Ha. change (0 =? 0)%Z with true. cbv iota.
  rewrite append_nil_r.
  assert (Hh : (0 <= a / 3600 < 24)%Z)
    by (subst a; Z.to_euclidean_division_equations; lia).
  assert (Hm : (0 <= a mod 3600 / 60 < 60)%Z)
    by (subst a; Z.to_euclidean_division_equations; lia).
  assert (Hv : (a / 3600 * 3600 + a mod 3600 / 60 * 60 = a)%Z)
    by (Z.to_euclidean_division_equations; lia).
  destruct (Z.ltb_spec off 0) as [Hneg|Hpos].
  - split; [|split].
    + cbn [append String.length]. rewrite length_append, length_zero_pad.
      cbn [append String.length]. rewrite length_zero_pad. reflexivity.
    + cbn [append ends_fraction]. split; [reflexivity|discriminate].
    + rewrite read_offset_west by assumption. rewrite Hv.
      do 2 f_equal. subst a. lia.
  - split; [|split].
    + cbn [append String.length]. rewrite length_append, length_zero_pad.
      cbn [append String.length]. rewrite length_zero_pad. reflexivity.
    + cbn [append ends_fraction]. split; [reflexivity|discriminate].
    + rewrite read_offset_east by assumption. rewrite Hv.
      do 2 f_equal. subst a. lia.
Qed.

(** The text of a timestamp: the wall clock to the second, then the
    fraction of the second if there is one, then the offset if there is a
    zone; the fraction and the offset read as they are. *)
Lemma isoformat_text tz t :
  representable tz t ->
  exists F Zt,
    isoformat tz t = (render_seconds "T" (wall_clock tz t) ++ F ++ Zt)%string /\
    read_fraction (F ++ Zt) = Some ((wall_clock tz t mod 1000000000)%Z, Zt) /\
    read_offset Zt = Some (option_map (fun zone => zone t) tz).
Proof.
  intros [_ [Hmod Hoff]]. unfold isoformat.
  set (w := wall_clock tz t).
  set (A := render_seconds "T" w).
  set (frac := (w mod 1000000000)%Z).
  assert (Hfrac : (0 <= frac < 1000000000)%Z)
    by (subst frac; apply Z.mod_pos_bound; lia).
  set (micro := (frac / 1000)%Z).
  set (nano := (frac mod 1000)%Z).
  assert (Hsplit : (frac = micro * 1000 + nano /\ 0 <= micro < 1000000 /\
                    0 <= nano < 1000)%Z)
    by (subst micro nano; Z.to_euclidean_division_equations; lia).
  set (Zt := match tz with
             | Some _ => format_offset (utcoffset tz t)
             | None => ""
             end).
  assert (HZ : ends_fraction Zt /\
               read_offset Zt = Some (option_map (fun zone => zone t) tz) /\
               match tz with
               | Some _ => String.length Zt = 6
               | None => Zt = ""
               end).
  { subst Zt. destruct tz as [zone|]; simpl in *.
    - destruct (format_offset_minutes (zone t) Hmod Hoff) as [L [E R]].
      split; [exact E|]. split; [exact R|exact L].
    - split; [exact I|]. split; reflexivity. }
  clearbody Zt. destruct HZ as [HE [HR HL]].
  destruct (Z.eqb_spec nano 0) as [Hn|Hn].
  - destruct (Z.eqb_spec micro 0) as [Hm|Hm].
    + exists "", Zt. split; [reflexivity|]. split; [|exact HR].
      cbn [append]. rewrite read_fraction_none by exact HE.
      do 2 f_equal. lia.
    + exists ("." ++ zero_pad 6 micro)%string, Zt.
      split; [reflexivity|]. split; [|exact HR].
      rewrite append_assoc.
      rewrite read_fraction_micro by (try exact HE; lia).
      do 2 f_equal. lia.
  - exists ("." ++ zero_pad 9 frac)%string, Zt.
    split; [|split; [|exact HR]].
    2:{ rewrite append_assoc. apply read_fraction_nano. exact Hfrac. }
    set (MT := (if (micro =? 0)%Z then "" else "." ++ zero_pad 6 micro)%string).
    set (NT := (if (micro =? 0)%Z then "." ++ zero_pad 9 nano
                else zero_pad 3 nano)%string).
    assert (Hcut : match tz with
                   | Some _ => String.length (A ++ MT ++ Zt) - 6
                   | None => String.length (A ++ MT ++ Zt)
                   end = String.length (A ++ MT)).
    { destruct tz as [zone|].
      - rewrite <- append_assoc, length_append, HL. lia.
      - rewrite HL, append_nil_r. reflexivity. }
    rewrite Hcut.
    assert (Hlen : String.length (A ++ MT ++ Zt) - String.length (A ++ MT) =
                   String.length Zt).
    { rewrite <- append_assoc, length_append. lia. }
    rewrite Hlen. rewrite <- (append_assoc A MT Zt).
    rewrite substring_prefix, substring_suffix.
    rewrite append_assoc. f_equal.
    rewrite <- append_assoc. f_equal.
    subst MT NT. destruct (Z.eqb_spec micro 0) as [Hm|Hm].
    + cbn [append]. do 2 f_equal. lia.
    + rewrite append_assoc. f_equal.
      change (zero_pad 9 frac) with (zero_pad (6 + 3) frac).
      rewrite zero_pad_split. f_equal.
      subst nano. apply (zero_pad_mod 3 frac).
Qed.

(** A timestamp reads from its text: the ISO 8601 reading of
    [isoformat] is the wall clock of the timestamp and the offset of its
    zone at that instant. *)
Lemma read_isoformat tz t :
  representable tz t ->
  read_iso8601 (isoformat tz t) =
  Some (wall_clock tz t, option_map (fun zone => zone t) tz).
Proof.
  intros Hrep.
  destruct (isoformat_text tz t Hrep) as [F [Zt [E [HF HZ]]]].
  rewrite E. destruct Hrep as [Hw _].
  set (w := wall_clock tz t) in *.
  unfold render_seconds.
  pose proof (clock_fields w) as C. cbv zeta in C.
  pose proof (wall_days w Hw) as D.
  set (secs := (w / 1000000000)%Z) in *.
  set (sod := (secs mod 86400)%Z) in *.
  pose proof (civil_from_days_spec (secs / 86400)) as S.
  destruct (civil_from_days (secs / 86400)) as [[y m] d].
  destruct S as [Hm [Hd Hdays]].
  assert (Hy : (1 <= y <= 9999)%Z).
  { apply (civil_year_bounds y m d Hm Hd). rewrite Hdays. exact D. }
  destruct C as [Hh [Hmi [Hs [Hf Hsum]]]].
  rewrite !append_assoc.
  rewrite (read_text y m d _ _ _ F Zt _ _ Hy Hm Hd Hh Hmi Hs HF HZ).
  rewrite Hdays. do 2 f_equal. lia.
Qed.

(* ===================================================================== *)
(** ** Aggregation Engine: means *)
(* ===================================================================== *)

Lemma to_float_cell_of_float f : to_float (cell_of_float f) = f.
Proof. destruct f; reflexivity. Qed.

(** The running sum of pandas is the compensated sum of the numbers met so
    far, and the count their number. *)
Lemma sum_count_from (vs : list cell) (acc : accumulator) :
  sumx (fold_left add_cell vs acc) =
  compensated_sum (sumx acc) (compensation acc) (floats vs) /\
  nobs (fold_left add_cell vs acc) = nobs acc + length (floats vs).
Proof.
  revert acc. induction vs as [|v vs IH]; intros acc.
  - cbn [fold_left floats flat_map compensated_sum length].
    split; [reflexivity|lia].
  - destruct v as [x|x|x|]; try apply IH.
    cbn [fold_left add_cell].
    change (floats (VNum x :: vs)) with (float_of_number x :: floats vs).
    cbn [compensated_sum length].
    destruct (IH (kahan_step acc (float_of_number x))) as [H1 H2].
    split.
    + rewrite H1. reflexivity.
    + rewrite H2. cbn [kahan_step nobs]. lia.
Qed.

(** The mean of pandas is the float mean of the numbers of the group; the
    nulls take no part in the sum nor in the count. *)
Lemma series_mean_spec cs :
  to_float (series_mean cs) = float_mean (floats cs).
Proof.
  unfold series_mean, sum_count.
  destruct (sum_count_from cs (mkAcc 0 (S754_zero false) (S754_zero false)))
    as [H1 H2].
  cbn [nobs sumx compensation] in H1, H2. rewrite H2, H1.
  destruct (floats cs) as [|x xs] eqn:N.
  - reflexivity.
  - cbn [length Nat.add]. rewrite to_float_cell_of_float. reflexivity.
Qed.

Lemma floats_skip_null {A : Type} (f : A -> cell) (l : list A) :
  floats (map f (filter (fun x => negb (is_null (f x))) l)) =
  floats (map f l).
Proof.
  induction l as [|x xs IH]; simpl; [reflexivity|].
  destruct (f x) eqn:E; simpl; rewrite ?E; simpl; rewrite IH; reflexivity.
Qed.

Lemma floats_length_typed {A : Type} (f : A -> cell) (l : list A) :
  (forall x, In x l -> cell_has Number (f x) = true) ->
  length (floats (map f (filter (fun x => negb (is_null (f x))) l))) =
  length (filter (fun x => negb (is_null (f x))) l).
Proof.
  induction l as [|x xs IH]; simpl; intros H; [reflexivity|].
  assert (Hx := H x (or_introl eq_refl)).
  destruct (f x) eqn:E; simpl in *; try discriminate;
    rewrite ?E; simpl; rewrite IH; auto.
Qed.

Lemma column_tz_of df d tz :
  column_dtype "timestamp" df = Some d ->
  timezone d = Some tz ->
  column_tz "timestamp" df = tz.
Proof.
  intros HD Hz. unfold column_tz. rewrite HD.
  destruct d; simpl in Hz; inversion Hz; reflexivity.
Qed.

Lemma strictly_ascending_NoDup (l : list Z) :
  StronglySorted Z.lt l -> NoDup l.
Proof.
  induction 1 as [|k rest HS IH HF]; constructor; [|exact IH].
  intros Hin. rewrite Forall_forall in HF. specialize (HF k Hin). lia.
Qed.

(** Two timestamps of one column with the same text are the same. *)
Lemma isoformat_injective tz t1 t2 :
  representable tz t1 -> representable tz t2 ->
  isoformat tz t1 = isoformat tz t2 -> t1 = t2.
Proof.
  intros R1 R2 E.
  pose proof (read_isoformat tz t1 R1) as H1.
  pose proof (read_isoformat tz t2 R2) as H2.
  rewrite E, H2 in H1. inversion H1 as [[Hw Ho]].
  unfold wall_clock, utcoffset in Hw.
  destruct tz as [zone|]; simpl in Ho.
  - inversion Ho as [Hz]. rewrite Hz in Hw. lia.
  - lia.
Qed.

Lemma NoDup_map_on {A B : Type} (f : A -> B) (l : list A) :
  (forall x y, In x l -> In y l -> f x = f y -> x = y) ->
  NoDup l -> NoDup (map f l).
Proof.
  intros Hinj ND. induction ND as [|x l Hx ND IH]; simpl; constructor.
  - intros Hin. apply in_map_iff in Hin. destruct Hin as [y [E Hy]].
    apply Hx. rewrite (Hinj x y); [exact Hy|left; reflexivity|right; exact Hy|].
    symmetry. exact E.
  - apply IH. intros a b Ha Hb. apply Hinj; right; assumption.
Qed.

(** C1.  On a well-formed measurements frame with a datetime [timestamp]
    column, naive or with a time zone, and a numeric target column,
    [build_avg_time_series] returns one point per distinct (non-null)
    timestamp of the frame, in strictly ascending order of timestamp, hence
    without duplicates, also among the texts.  The point of [t] carries an
    ISO 8601 text that reads as [t] on the clock of the zone, with the
    offset of the zone, and, as a float, the mean of the target column over
    the rows stamped exactly [t]: their sum over their count in binary64. *)
Theorem build_avg_time_series_sorted_means st l df tc d tz :
  nth_error (heap st) l = Some df ->
  well_formed df = true ->
  column_dtype "timestamp" df = Some d ->
  timezone d = Some tz ->
  select_target (numeric_cols df) = Some tc ->
  (forall r t,
     In r (values df) -> field df "timestamp" r = VTime t ->
     representable tz t) ->
  exists groups : list (Z * float),
    fst (build_avg_time_series l st) =
    Ok (map (fun g => mkPoint (isoformat tz (fst g)) (snd g)) groups) /\
    StronglySorted Z.lt (map fst groups) /\
    NoDup (map fst groups) /\
    NoDup (map (fun g => isoformat tz (fst g)) groups) /\
    (forall t,
       In t (map fst groups) <->
       exists r, In r (values df) /\ field df "timestamp" r = VTime t) /\
    (forall t a,
       In (t, a) groups ->
       read_iso8601 (isoformat tz t) =
       Some (wall_clock tz t, option_map (fun zone => zone t) tz) /\
       a = float_mean (floats (map (field df tc) (rows_at df t)))).
Proof.
  intros H WF HD Hz HT Hrep.
  destruct (datetime_columns df tc d tz WF HD Hz HT)
    as [i [j [Hi [Hj [Hne [Hkeys _]]]]]].
  destruct st as [h c]. simpl in H.
  destruct (build_avg_time_series_run h c l df H) as [ext Hrun].
  rewrite Hrun. simpl fst.
  rewrite (avg_series_groups df tc i j Hi Hj Hne Hkeys HT).
  rewrite (column_tz_of df d tz HD Hz).
  set (gs := groupby _).
  assert (HS : StronglySorted Z.lt (map fst gs)) by apply groupby_spec.
  assert (HK : forall t,
             In t (map fst gs) <->
             exists r, In r (values df) /\ field df "timestamp" r = VTime t)
    by (intros t; apply (group_keys df i j t Hi)).
  assert (HR : forall t, In t (map fst gs) -> representable tz t).
  { intros t Ht. apply HK in Ht. destruct Ht as [r [Hr Ht]].
    exact (Hrep r t Hr Ht). }
  exists (map (fun g => (fst g, to_float (series_mean (snd g)))) gs).
  split; [|split; [|split; [|split; [|split]]]].
  - rewrite map_map. reflexivity.
  - rewrite map_map. simpl. exact HS.
  - rewrite map_map. simpl. apply strictly_ascending_NoDup. exact HS.
  - rewrite map_map. simpl.
    rewrite <- (map_map fst (isoformat tz)).
    apply NoDup_map_on; [|apply strictly_ascending_NoDup; exact HS].
    intros x y Hx Hy. apply isoformat_injective; apply HR; assumption.
  - intros t. rewrite map_map. simpl. apply HK.
  - intros t a Hin. apply in_map_iff in Hin.
    destruct Hin as [[k vs] [E Hin]].
    simpl in E. inversion E; subst.
    split.
    + apply read_isoformat. apply HR.
      apply (in_map fst) in Hin. exact Hin.
    + destruct (group_cells df tc i j t vs Hi Hj Hin) as [Hvs _].
      rewrite <- Hvs. apply series_mean_spec.
Qed.

(** C8.  In every group of [build_avg_time_series], the rows whose target
    cell is null are left out of the mean: the value of the point of [t] is
    the sum of the target numbers of the non-null rows stamped [t] over the
    number of those rows (NaN when there is none). *)
Theorem build_avg_time_series_skips_nulls st l df tc d tz :
  nth_error (heap st) l = Some df ->
  well_formed df = true ->
  column_dtype "timestamp" df = Some d ->
  timezone d = Some tz ->
  select_target (numeric_cols df) = Some tc ->
  exists groups : list (Z * float),
    fst (build_avg_time_series l st) =
    Ok (map (fun g => mkPoint (isoformat tz (fst g)) (snd g)) groups) /\
    (forall t,
       In t (map fst groups) <->
       exists r, In r (values df) /\ field df "timestamp" r = VTime t) /\
    forall t a,
      In (t, a) groups ->
      let kept :=
        filter (fun r => negb (is_null (field df tc r))) (rows_at df t) in
      a = float_mean (floats (map (field df tc) kept)) /\
      length (floats (map (field df tc) kept)) = length kept.
Proof.
  intros H WF HD Hz HT.
  destruct (datetime_columns df tc d tz WF HD Hz HT)
    as [i [j [Hi [Hj [Hne [Hkeys Hnum]]]]]].
  destruct st as [h c]. simpl in H.
  destruct (build_avg_time_series_run h c l df H) as [ext Hrun].
  rewrite Hrun. simpl fst.
  rewrite (avg_series_groups df tc i j Hi Hj Hne Hkeys HT).
  rewrite (column_tz_of df d tz HD Hz).
  set (gs := groupby _).
  exists (map (fun g => (fst g, to_float (series_mean (snd g)))) gs).
  split; [rewrite map_map; reflexivity|].
  split; [intros t; rewrite map_map; simpl; apply (group_keys df i j t Hi)|].
  intros t a Hin kept. subst kept.
  apply in_map_iff in Hin. destruct Hin as [[k vs] [E Hin]].
  simpl in E. inversion E; subst.
  destruct (group_cells df tc i j t vs Hi Hj Hin) as [Hvs _].
  split.
  - rewrite floats_skip_null. rewrite <- Hvs. apply series_mean_spec.
  - apply floats_length_typed. intros r Hr.
    unfold rows_at in Hr. apply filter_In in Hr. destruct Hr as [Hr _].
    rewrite (field_at df tc j r Hj). apply Hnum. exact Hr.
Qed.

(* ===================================================================== *)
(** ** Aggregation Engine: the target column and the empty cases *)
(* ===================================================================== *)

Lemma numeric_cols_value df :
  existsb (String.eqb "value") (numeric_cols df) = true <->
  In ("value", Number) (columns df).
Proof.
  split.
  - intros H. apply existsb_exists in H. destruct H as [x [Hin Hx]].
    apply String.eqb_eq in Hx. subst x. apply numeric_cols_in. exact Hin.
  - intros H. apply existsb_exists. exists "value".
    split; [|reflexivity].
    unfold numeric_cols. apply in_map_iff. exists ("value", Number).
    split; [reflexivity|]. apply filter_In. split; [exact H|reflexivity].
Qed.

Lemma numeric_cols_first df :
  match numeric_cols df with
  | first :: _ => Some first
  | [] => None
  end = option_map fst (find (fun c => is_number (snd c)) (columns df)).
Proof.
  unfold numeric_cols. induction (columns df) as [|[n d] rest IH]; simpl.
  - reflexivity.
  - destruct (is_number d); simpl; [reflexivity|exact IH].
Qed.

Lemma build_avg_time_series_result st l df :
  nth_error (heap st) l = Some df ->
  fst (build_avg_time_series l st) = avg_series df.
Proof.
  destruct st as [h c]. simpl. intros H.
  destruct (build_avg_time_series_run h c l df H) as [ext Hrun].
  rewrite Hrun. reflexivity.
Qed.

(** C4.  The target column of [build_avg_time_series]: ["value"] when the
    frame has a numeric column of that name; else the first numeric column
    in column order; and with no numeric column the result is the empty
    list.  A frame whose only numeric column is ["pressure"] is averaged
    over ["pressure"]. *)
Theorem build_avg_time_series_target_policy st l df :
  nth_error (heap st) l = Some df ->
  (df_empty df = false ->
   has_column "timestamp" df = true ->
   In ("value", Number) (columns df) ->
   fst (build_avg_time_series l st) = aggregate_over df "value") /\
  (forall c,
     df_empty df = false ->
     has_column "timestamp" df = true ->
     ~ In ("value", Number) (columns df) ->
     find (fun col => is_number (snd col)) (columns df) = Some (c, Number) ->
     fst (build_avg_time_series l st) = aggregate_over df c) /\
  (find (fun col => is_number (snd col)) (columns df) = None ->
   fst (build_avg_time_series l st) = Ok []) /\
  (df_empty df = false ->
   has_column "timestamp" df = true ->
   numeric_cols df = ["pressure"] ->
   fst (build_avg_time_series l st) = aggregate_over df "pressure").
Proof.
  intros H. rewrite (build_avg_time_series_result st l df H).
  unfold avg_series, select_target.
  split; [|split; [|split]].
  - intros He Ht Hv. rewrite He, Ht. cbn [negb orb].
    apply numeric_cols_value in Hv. rewrite Hv. reflexivity.
  - intros c He Ht Hv Hf. rewrite He, Ht. cbn [negb orb].
    destruct (existsb (String.eqb "value") (numeric_cols df)) eqn:E.
    + exfalso. apply Hv. apply numeric_cols_value. exact E.
    + rewrite numeric_cols_first. rewrite Hf. reflexivity.
  - intros Hf.
    destruct (df_empty df || negb (has_column "timestamp" df));
      [reflexivity|].
    destruct (existsb (String.eqb "value") (numeric_cols df)) eqn:E.
    + exfalso. apply numeric_cols_value in E.
      apply (find_none _ _ Hf) in E. discriminate.
    + rewrite numeric_cols_first. rewrite Hf. reflexivity.
  - intros He Ht Hp. rewrite He, Ht, Hp. cbn [negb orb]. reflexivity.
Qed.

(** C7.  On a frame that is empty or has no [timestamp] column,
    [build_avg_time_series] returns the empty list; it does not raise and
    allocates nothing. *)
Theorem build_avg_time_series_empty_input st l df :
  nth_error (heap st) l = Some df ->
  df_empty df = true \/ has_column "timestamp" df = false ->
  fst (build_avg_time_series l st) = Ok [] /\
  heap (snd (build_avg_time_series l st)) = heap st.
Proof.
  destruct st as [h c]. simpl. intros H Hcase.
  unfold build_avg_time_series.
  rewrite (bind_ok _ _ _ tt (mkState h (c ++ ["build_avg_time_series"])))
    by reflexivity.
  rewrite (bind_ok _ _ _ _ _ (deref_run h _ l df H)).
  assert (E : df_empty df || negb (has_column "timestamp" df) = true).
  { destruct Hcase as [E|E]; rewrite E; [reflexivity|apply orb_true_r]. }
  rewrite E. split; reflexivity.
Qed.

(* ===================================================================== *)
(** ** The request handler *)
(* ===================================================================== *)

Lemma grows_refl st : grows st st.
Proof.
  exists [], []. destruct st as [h c]. simpl. rewrite !app_nil_r. reflexivity.
Qed.

Lemma grows_trans st1 st2 st3 : grows st1 st2 -> grows st2 st3 -> grows st1 st3.
Proof.
  intros [e1 [c1 H1]] [e2 [c2 H2]]. subst st2 st3. simpl.
  exists (e1 ++ e2), (c1 ++ c2). rewrite !app_assoc. reflexivity.
Qed.

Lemma grows_lookup st st' l f :
  grows st st' -> nth_error (heap st) l = Some f ->
  nth_error (heap st') l = Some f.
Proof.
  intros [e [c H]] Hl. subst st'. simpl. apply nth_error_keep. exact Hl.
Qed.

Lemma grows_alloc h c fs : grows (mkState h c) (mkState (h ++ fs) c).
Proof. exists fs, []. simpl. rewrite app_nil_r. reflexivity. Qed.

Lemma computes_grows st fn out p :
  computes st fn out p -> grows st (snd out).
Proof. intros [ext [H _]]. exists ext, [fn]. exact H. Qed.

Lemma computes_result st fn r st' p :
  computes st fn (r, st') p ->
  match p with
  | Ok f => exists l, r = Ok l /\ nth_error (heap st') l = Some f
  | Raise e => r = Raise e
  end.
Proof.
  intros [ext [H R]]. simpl in H, R. subst st'. simpl. exact R.
Qed.

Lemma head_run h c l df n :
  nth_error h l = Some df ->
  head l n (mkState h c) = (Ok (length h), mkState (h ++ [top_rows n df]) c).
Proof.
  intros H. unfold head.
  rewrite (bind_ok _ _ _ _ _ (deref_run h c l df H)). reflexivity.
Qed.

Lemma to_dict_records_run h c l df :
  nth_error h l = Some df ->
  to_dict_records l (mkState h c) = (Ok (records df), mkState h c).
Proof.
  intros H. unfold to_dict_records.
  rewrite (bind_ok _ _ _ _ _ (deref_run h c l df H)). reflexivity.
Qed.

Lemma bind_assoc {A B C : Type} (m : M A) (f : A -> M B) (g : B -> M C) st :
  bind (bind m f) g st = bind m (fun x => bind (f x) g) st.
Proof.
  unfold bind. destruct (m st) as [[a|e] st']; reflexivity.
Qed.

Lemma dt_strftime_run h c l df col :
  nth_error h l = Some df ->
  dt_strftime l col (mkState h c) =
  (result_bind (column_cells col df) (fun s =>
   result_bind (dt (column_dtype col df)) (fun tz =>
   Ok (map (strftime_cell tz) s))), mkState h c).
Proof.
  intros H. unfold dt_strftime.
  rewrite (bind_ok _ _ _ _ _ (deref_run h c l df H)).
  rewrite (bind_getitem h c l df _ _ H).
  destruct (column_cells col df) as [s|e]; simpl; [|reflexivity].
  unfold bind, lift. destruct (dt (column_dtype col df)); reflexivity.
Qed.

Lemma setitem_existing_run h c df col i series :
  column_index col (columns df) = Some i ->
  setitem (length h) col series (mkState (h ++ [df]) c) =
  (Ok tt, mkState (h ++ [set_column i Object series df]) c).
Proof.
  intros Hi. unfold setitem.
  rewrite (bind_ok _ _ _ _ _ (deref_run _ c _ df (nth_error_snoc h df))).
  rewrite Hi. unfold assign. cbn [heap calls].
  rewrite set_nth_snoc. reflexivity.
Qed.

(** The block that prepares the table: [head], [copy], the timestamp
    column rewritten in place in the copy, and the records read off it. *)
Lemma table_rows_run h c l df limit :
  nth_error h l = Some df ->
  exists st',
    grows (mkState h c) st' /\
    forall (B : Type) (k : list (list (string * cell)) -> M B),
      (top <- head l limit;;
       rows <- copy top;;
       r <- deref rows;;
       (if has_column "timestamp" r
        then s <- dt_strftime rows "timestamp";; setitem rows "timestamp" s
        else ret tt);;
       rows_out <- to_dict_records rows;;
       k rows_out) (mkState h c) =
      match rows_frame limit df with
      | Ok shown => k (records shown) st'
      | Raise e => (Raise e, st')
      end.
Proof.
  intros H.
  set (top := top_rows limit df).
  set (h1 := h ++ [top]).
  assert (L : nth_error (h1 ++ [top]) (length h1) = Some top)
    by apply nth_error_snoc.
  assert (G : forall f, grows (mkState h c) (mkState (h1 ++ [f]) c)).
  { intros f. unfold h1. rewrite <- app_assoc. apply grows_alloc. }
  assert (Start : forall (B : Type) (k : loc -> M B),
            (top <- head l limit;; rows <- copy top;; k rows) (mkState h c) =
            k (length h1) (mkState (h1 ++ [top]) c)).
  { intros B k.
    rewrite (bind_ok _ _ _ _ _ (head_run h c l df limit H)).
    rewrite (bind_ok _ _ _ _ _ (copy_run _ c _ top (nth_error_snoc h top))).
    reflexivity. }
  unfold rows_frame. fold top.
  destruct (column_index "timestamp" (columns top)) as [i|] eqn:Hi.
  - pose proof (dt_strftime_run _ c _ top "timestamp" L) as Hdt.
    unfold column_cells in Hdt. rewrite Hi in Hdt. simpl result_bind in Hdt.
    destruct (dt (column_dtype "timestamp" top)) as [tz|e];
      simpl result_bind in *.
    2:{ exists (mkState (h1 ++ [top]) c). split; [apply G|].
        intros B k. rewrite Start.
        rewrite (bind_ok _ _ _ _ _ (deref_run _ c _ top L)).
        unfold has_column. rewrite Hi. rewrite bind_assoc.
        rewrite (bind_raise _ _ _ _ _ Hdt). reflexivity. }
    set (shown := set_column i Object _ top).
    exists (mkState (h1 ++ [shown]) c). split; [apply G|].
    intros B k. rewrite Start.
    rewrite (bind_ok _ _ _ _ _ (deref_run _ c _ top L)).
    unfold has_column. rewrite Hi. rewrite bind_assoc.
    rewrite (bind_ok _ _ _ _ _ Hdt).
    rewrite (bind_ok _ _ _ _ _ (setitem_existing_run h1 c top _ i _ Hi)).
    fold shown.
    rewrite (bind_ok _ _ _ _ _
               (to_dict_records_run _ c _ shown (nth_error_snoc h1 shown))).
    reflexivity.
  - exists (mkState (h1 ++ [top]) c). split; [apply G|].
    intros B k. rewrite Start.
    rewrite (bind_ok _ _ _ _ _ (deref_run _ c _ top L)).
    unfold has_column. rewrite Hi.
    rewrite (bind_ok _ _ _ tt (mkState (h1 ++ [top]) c)) by reflexivity.
    rewrite (bind_ok _ _ _ _ _ (to_dict_records_run _ c _ top L)).
    reflexivity.
Qed.

(** [get_data] computes [response_of] of the two tables of the store and
    only adds frames to the heap. *)
Lemma get_data_run limit ms ps ts st d1 d2 :
  nth_error (heap st) D1 = Some d1 ->
  nth_error (heap st) D2 = Some d2 ->
  exists st',
    get_data_with_limit limit ms ps ts st =
    (response_of limit d1 d2 ms ps ts, st') /\
    grows st st'.
Proof.
  intros H1 H2. unfold get_data_with_limit, response_of.
  destruct (negb (truthy ms || truthy ps || truthy ts)).
  { exists st. split; [reflexivity|apply grows_refl]. }
  pose proof (filter_d1_computes st D1 d1 ms ps ts H1) as C1.
  destruct (filter_d1 D1 ms ps ts st) as [r1 st1] eqn:E1.
  pose proof (computes_grows _ _ _ _ C1) as G1. simpl in G1.
  apply computes_result in C1.
  destruct (filter_d1_frame d1 ms ps ts) as [d1f|e]; simpl result_bind.
  2:{ subst r1. rewrite (bind_raise _ _ _ _ _ E1).
      exists st1. split; [reflexivity|exact G1]. }
  destruct C1 as [l1 [-> L1]]. rewrite (bind_ok _ _ _ _ _ E1).
  pose proof (grows_lookup _ _ _ _ G1 H2) as H2'.
  pose proof (filter_d2_by_d1_computes st1 D2 l1 d2 d1f H2' L1) as C2.
  destruct (filter_d2_by_d1 D2 l1 st1) as [r2 st2] eqn:E2.
  pose proof (grows_trans _ _ _ G1 (computes_grows _ _ _ _ C2)) as G2.
  simpl in G2. apply computes_result in C2.
  destruct (filter_d2_by_d1_frame d2 d1f) as [d2f|e]; simpl result_bind.
  2:{ subst r2. rewrite (bind_raise _ _ _ _ _ E2).
      exists st2. split; [reflexivity|exact G2]. }
  destruct C2 as [l2 [-> L2]]. rewrite (bind_ok _ _ _ _ _ E2).
  destruct st2 as [h2 c2]. simpl in L2.
  destruct (table_rows_run h2 c2 l2 d2f limit L2) as [st3 [G3 Hblock]].
  rewrite Hblock.
  pose proof (grows_trans _ _ _ G2 G3) as G3'.
  destruct (rows_frame limit d2f) as [shown|e]; simpl result_bind.
  2:{ exists st3. split; [reflexivity|exact G3']. }
  pose proof (grows_lookup _ _ l2 d2f G3 L2) as L3.
  destruct st3 as [h3 c3]. simpl in L3.
  destruct (build_avg_time_series_run h3 c3 l2 d2f L3) as [ext Hrun].
  unfold bind. rewrite Hrun.
  eexists. split.
  - destruct (avg_series d2f); reflexivity.
  - eapply grows_trans; [exact G3'|].
    exists ext, ["build_avg_time_series"]. reflexivity.
Qed.

Lemma grows_store st st' d1 d2 d3 :
  nth_error (heap st) D1 = Some d1 ->
  nth_error (heap st) D2 = Some d2 ->
  nth_error (heap st) D3 = Some d3 ->
  grows st st' ->
  store st' = store st.
Proof.
  intros H1 H2 H3 G. unfold store.
  rewrite (grows_lookup _ _ _ _ G H1), (grows_lookup _ _ _ _ G H2),
    (grows_lookup _ _ _ _ G H3).
  rewrite H1, H2, H3. reflexivity.
Qed.

Lemma computes_observe st fn out p :
  computes st fn out p ->
  observe out =
  match p with
  | Ok f => Ok (Some f)
  | Raise e => Raise e
  end.
Proof.
  destruct out as [r st']. intros C.
  pose proof (computes_grows _ _ _ _ C) as G.
  apply computes_result in C. unfold observe. simpl.
  destruct p as [f|e].
  - destruct C as [l [-> L]]. rewrite L. reflexivity.
  - subst r. reflexivity.
Qed.

(** C6.  With none of the three parameters supplied, [get_data] returns the
    empty payload and leaves the whole state as it was: no frame is read,
    copied or allocated, and no engine is entered (the record of calls does
    not grow).  This holds on any state, loaded or not. *)
Theorem get_data_without_selection st :
  get_data None None None st = (Ok (mkResponse [] []), st).
Proof. reflexivity. Qed.

(** C10.  With the three parameters supplied as empty lists, [get_data]
    returns the empty payload, exactly as when they are absent, and the
    state is untouched; whereas [filter_d1] alone, given the same empty
    lists, would keep the whole attributes table. *)
Theorem get_data_empty_lists st :
  get_data (Some []) (Some []) (Some []) st = (Ok (mkResponse [] []), st) /\
  get_data (Some []) (Some []) (Some []) st = get_data None None None st /\
  forall df, filter_d1_frame df (Some []) (Some []) (Some []) = Ok df.
Proof. repeat split. Qed.

(** C9.  On a loaded store, each engine and the handler leave the three
    tables as they were, and their outcome is a function of the frames they
    are given: started again in any state that holds the same frames, they
    return the same frame, the same series, the same payload, or raise the
    same exception. *)
Theorem operations_are_pure st d1 d2 d3 :
  nth_error (heap st) D1 = Some d1 ->
  nth_error (heap st) D2 = Some d2 ->
  nth_error (heap st) D3 = Some d3 ->
  (forall ms ps ts,
     store (snd (filter_d1 D1 ms ps ts st)) = store st /\
     forall st',
       nth_error (heap st') D1 = Some d1 ->
       observe (filter_d1 D1 ms ps ts st') =
       observe (filter_d1 D1 ms ps ts st)) /\
  (forall l a,
     nth_error (heap st) l = Some a ->
     store (snd (filter_d2_by_d1 D2 l st)) = store st /\
     forall st' l',
       nth_error (heap st') D2 = Some d2 ->
       nth_error (heap st') l' = Some a ->
       observe (filter_d2_by_d1 D2 l' st') =
       observe (filter_d2_by_d1 D2 l st)) /\
  (forall l df,
     nth_error (heap st) l = Some df ->
     store (snd (build_avg_time_series l st)) = store st /\
     forall st' l',
       nth_error (heap st') l' = Some df ->
       fst (build_avg_time_series l' st') =
       fst (build_avg_time_series l st)) /\
  (forall limit ms ps ts,
     store (snd (get_data_with_limit limit ms ps ts st)) = store st /\
     forall st',
       store st' = store st ->
       fst (get_data_with_limit limit ms ps ts st') =
       fst (get_data_with_limit limit ms ps ts st)).
Proof.
  intros H1 H2 H3. split; [|split; [|split]].
  - intros ms ps ts.
    pose proof (filter_d1_computes st D1 d1 ms ps ts H1) as C. split.
    + apply (grows_store st _ d1 d2 d3 H1 H2 H3).
      apply (computes_grows _ _ _ _ C).
    + intros st' H1'.
      rewrite (computes_observe _ _ _ _ C).
      apply (computes_observe _ _ _ _
               (filter_d1_computes st' D1 d1 ms ps ts H1')).
  - intros l a Ha.
    pose proof (filter_d2_by_d1_computes st D2 l d2 a H2 Ha) as C. split.
    + apply (grows_store st _ d1 d2 d3 H1 H2 H3).
      apply (computes_grows _ _ _ _ C).
    + intros st' l' H2' Ha'.
      rewrite (computes_observe _ _ _ _ C).
      apply (computes_observe _ _ _ _
               (filter_d2_by_d1_computes st' D2 l' d2 a H2' Ha')).
  - intros l df Hl. split.
    + apply (grows_store st _ d1 d2 d3 H1 H2 H3).
      destruct st as [h c]. simpl in Hl.
      destruct (build_avg_time_series_run h c l df Hl) as [ext Hrun].
      rewrite Hrun. exists ext, ["build_avg_time_series"]. reflexivity.
    + intros st' l' Hl'.
      rewrite (build_avg_time_series_result st l df Hl).
      apply (build_avg_time_series_result st' l' df Hl').
  - intros limit ms ps ts.
    destruct (get_data_run limit ms ps ts st d1 d2 H1 H2) as [st1 [E G]].
    split.
    + rewrite E. apply (grows_store st _ d1 d2 d3 H1 H2 H3 G).
    + intros st' Hs. unfold store in Hs. rewrite H1, H2, H3 in Hs.
      inversion Hs as [[H1' H2' H3']].
      destruct (get_data_run limit ms ps ts st' d1 d2 H1' H2') as [st2 [E' _]].
      rewrite E, E'. reflexivity.
Qed.

(* ===================================================================== *)
(** ** The table of the page *)
(* ===================================================================== *)

Lemma combine_map_r {A B : Type} (f : A -> B) (l : list A) :
  combine l (map f l) = map (fun x => (x, f x)) l.
Proof.
  induction l as [|x xs IH]; simpl; [reflexivity|].
  rewrite IH. reflexivity.
Qed.

Lemma column_index_labels c cols :
  column_index c (map (fun col => (fst col, Object)) cols) =
  column_index c cols.
Proof.
  induction cols as [|[n d] rest IH]; simpl; [reflexivity|].
  rewrite IH. reflexivity.
Qed.

Lemma set_nth_labels (cols : list (string * dtype)) i n d d' :
  nth_error cols i = Some (n, d) ->
  map fst (set_nth i (n, d') cols) = map fst cols.
Proof.
  revert i. induction cols as [|[n0 d0] rest IH]; intros i Hn.
  - destruct i; discriminate.
  - destruct i as [|i']; simpl in *.
    + inversion Hn. reflexivity.
    + f_equal. apply IH. exact Hn.
Qed.

(** When the table is built, it holds the first [limit] rows of the
    filtered frame, in their order, with the timestamps as text. *)
Lemma rows_frame_first_rows limit df shown :
  rows_frame limit df = Ok shown ->
  values shown = map (shown_row df) (firstn limit (values df)) /\
  map fst (columns shown) = map fst (columns df).
Proof.
  unfold rows_frame, shown_row, top_rows. simpl columns.
  destruct (column_index "timestamp" (columns df)) as [i|] eqn:Hi.
  - assert (Z : forall tz, dt (column_dtype "timestamp" df) = Ok tz ->
                         column_tz "timestamp" df = tz).
    { intros tz. unfold column_tz.
      destruct (column_dtype "timestamp" df) as [[| | |]|]; simpl;
        intros E; inversion E; reflexivity. }
    change (column_dtype "timestamp"
              {| columns := columns df; values := firstn limit (values df) |})
      with (column_dtype "timestamp" df).
    destruct (dt (column_dtype "timestamp" df)) as [tz|]; [|discriminate].
    rewrite (Z tz eq_refl).
    destruct (column_index_nth _ _ _ Hi) as [d Hn].
    intros E. inversion E. simpl. unfold set_column. simpl. rewrite Hn.
    split.
    + rewrite map_map. rewrite combine_map_r. rewrite map_map. reflexivity.
    + eapply set_nth_labels. exact Hn.
  - intros E. inversion E. simpl.
    split; [|reflexivity]. symmetry. apply map_id.
Qed.

(** What [get_data] returns when it returns: the first [limit] rows of the
    filtered measurements, and the series of all of them. *)
Lemma get_data_payload limit st d1 d2 ms ps ts resp :
  nth_error (heap st) D1 = Some d1 ->
  nth_error (heap st) D2 = Some d2 ->
  truthy ms || truthy ps || truthy ts = true ->
  fst (get_data_with_limit limit ms ps ts st) = Ok resp ->
  exists d1f d2f,
    filter_d1_frame d1 ms ps ts = Ok d1f /\
    filter_d2_by_d1_frame d2 d1f = Ok d2f /\
    rows resp =
    map (fun r => combine (map fst (columns d2f)) (shown_row d2f r))
      (firstn limit (values d2f)) /\
    length (rows resp) = min limit (length (values d2f)) /\
    avg_series d2f = Ok (average resp).
Proof.
  intros H1 H2 Hany Hres.
  destruct (get_data_run limit ms ps ts st d1 d2 H1 H2) as [st' [E _]].
  rewrite E in Hres. simpl in Hres. unfold response_of in Hres.
  rewrite Hany in Hres. simpl negb in Hres. cbv iota in Hres.
  destruct (filter_d1_frame d1 ms ps ts) as [d1f|] eqn:F1; [|discriminate].
  simpl result_bind in Hres.
  destruct (filter_d2_by_d1_frame d2 d1f) as [d2f|] eqn:F2; [|discriminate].
  simpl result_bind in Hres.
  destruct (rows_frame limit d2f) as [shown|] eqn:R; [|discriminate].
  simpl result_bind in Hres.
  destruct (avg_series d2f) as [pts|] eqn:A; [|discriminate].
  simpl in Hres. inversion Hres. simpl.
  exists d1f, d2f.
  destruct (rows_frame_first_rows _ _ _ R) as [Hv Hc].
  assert (Hrows : records shown =
                  map (fun r => combine (map fst (columns d2f)) (shown_row d2f r))
                    (firstn limit (values d2f))).
  { unfold records. rewrite Hv, Hc. rewrite map_map. reflexivity. }
  repeat split; try assumption.
  rewrite Hrows. rewrite length_map. apply length_firstn.
Qed.

(** When the selection matches no attribute row and the measurements have a
    [timestamp] column, [get_data] raises: the empty frame it builds has
    object columns, which have no [.dt]. *)
Lemma get_data_raises_on_no_match limit st d1 d2 ms ps ts d1f :
  nth_error (heap st) D1 = Some d1 ->
  nth_error (heap st) D2 = Some d2 ->
  truthy ms || truthy ps || truthy ts = true ->
  filter_d1_frame d1 ms ps ts = Ok d1f ->
  df_empty d1f = true ->
  has_column "timestamp" d2 = true ->
  fst (get_data_with_limit limit ms ps ts st) = Raise AttributeError.
Proof.
  intros H1 H2 Hany Hf He Ht.
  destruct (get_data_run limit ms ps ts st d1 d2 H1 H2) as [st' [E _]].
  rewrite E. simpl. unfold response_of.
  rewrite Hany, Hf. simpl.
  unfold filter_d2_by_d1_frame. rewrite He. simpl.
  unfold rows_frame, top_rows, column_dtype, empty_like. simpl.
  rewrite column_index_labels.
  destruct (has_column_index _ _ Ht) as [i Hi]. rewrite Hi.
  destruct (column_index_nth _ _ _ Hi) as [d Hn].
  rewrite nth_error_map. rewrite Hn. reflexivity.
Qed.

(** C5, at a selection that matches no attribute row: the handler builds
    no payload, it raises [AttributeError] (the claim expects no row and an
    empty series). *)
Theorem get_data_no_match_raises :
  fst (get_data (Some ["M9"]) None None demo_state) = Raise AttributeError.
Proof. vm_compute. reflexivity. Qed.

(* ===================================================================== *)
(** ** Worked cases *)
(* ===================================================================== *)

Example isoformat_epoch : isoformat None 0 = "1970-01-01T00:00:00".
Proof. vm_compute. reflexivity. Qed.

Example isoformat_leap_day :
  isoformat None 1709251199000000000 = "2024-02-29T23:59:59".
Proof. vm_compute. reflexivity. Qed.

Example isoformat_micro :
  isoformat None 951782400250000000 = "2000-02-29T00:00:00.250000".
Proof. vm_compute. reflexivity. Qed.

Example isoformat_nano :
  isoformat None 1735689599000000007 = "2024-12-31T23:59:59.000000007".
Proof. vm_compute. reflexivity. Qed.

Example isoformat_micro_nano :
  isoformat None 1735689599123456789 = "2024-12-31T23:59:59.123456789".
Proof. vm_compute. reflexivity. Qed.

Example isoformat_before_epoch :
  isoformat None (-1000000000) = "1969-12-31T23:59:59".
Proof. vm_compute. reflexivity. Qed.

Example isoformat_utc :
  isoformat (Some UTC) T1 = "2024-01-01T00:00:00+00:00".
Proof. vm_compute. reflexivity. Qed.

Example isoformat_east :
  isoformat (Some (fixed_offset 19800)) 1735689599000000007 =
  "2025-01-01T05:29:59.000000007+05:30".
Proof. vm_compute. reflexivity. Qed.

Example isoformat_west :
  isoformat (Some (fixed_offset (-18000))) 951782400250000000 =
  "2000-02-28T19:00:00.250000-05:00".
Proof. vm_compute. reflexivity. Qed.

Example strftime_2024 :
  strftime None 1704070861000000000 = "2024-01-01 01:01:01".
Proof. vm_compute. reflexivity. Qed.

Example strftime_east :
  strftime (Some (fixed_offset 19800)) 1704070861000000000 =
  "2024-01-01 06:31:01".
Proof. vm_compute. reflexivity. Qed.

(** [(0.1 + 0.2) / 2] is [0.15000000000000002] in binary64, not [0.15]. *)
Example mean_is_rounded :
  float_mean [dyadic 3602879701896397 (-55); dyadic 3602879701896397 (-54)] =
  dyadic 5404319552844596 (-55) /\
  dyadic 5404319552844596 (-55) <> dyadic 5404319552844595 (-55).
Proof. split; [vm_compute; reflexivity|vm_compute; discriminate]. Qed.

(** The largest int64 is not a float: its mean with itself is [2^63]. *)
Example mean_of_large_int :
  to_float (series_mean [VNum (Int 9223372036854775807)]) =
  float_of_Z 9223372036854775808.
Proof. vm_compute. reflexivity. Qed.

(** A sum that overflows is infinite, and the next value makes it NaN. *)
Example mean_overflows :
  float_mean [dyadic 1 1023; dyadic 1 1023] = S754_infinity false /\
  float_mean [dyadic 1 1023; dyadic 1 1023; dyadic 1 1023] = S754_nan.
Proof. split; vm_compute; reflexivity. Qed.

(** Scenario A, with a null value and a null timestamp thrown in. *)
Example scenario_a_series :
  fst (build_avg_time_series D2 demo_state) =
  Ok [mkPoint "2024-01-01T00:00:00" (float_of_Z 43);
      mkPoint "2024-01-01T01:00:00" (float_of_Z 30)].
Proof. vm_compute. reflexivity. Qed.

Example scenario_a_response :
  option_map average
    (match fst (get_data (Some ["M1"]) None None demo_state) with
     | Ok r => Some r
     | Raise _ => None
     end) =
  Some [mkPoint "2024-01-01T00:00:00" (float_of_Z 15);
        mkPoint "2024-01-01T01:00:00" (float_of_Z 30)].
Proof. vm_compute. reflexivity. Qed.

(** Scenario A in a zone: the texts show the clock of the zone and its
    offset. *)
Example scenario_a_zoned :
  fst (build_avg_time_series D2 zoned_state) =
  Ok [mkPoint "2024-01-01T05:30:00+05:30" (float_of_Z 43);
      mkPoint "2024-01-01T06:30:00+05:30" (float_of_Z 30)].
Proof. vm_compute. reflexivity. Qed.

(** A [timestamp] column of strings is grouped, and then a string has no
    [isoformat]. *)
Example text_timestamps_raise :
  fst (build_avg_time_series D2
         (mkState [demo_attributes; raw_measurements; demo_reference] [])) =
  Raise AttributeError.
Proof. vm_compute. reflexivity. Qed.

(** Scenario D: the mean of 4 and 5 is 4.5; a group of nulls has NaN. *)
Example scenario_d_pressure :
  fst (build_avg_time_series D2 pressure_state) =
  Ok [mkPoint "2024-01-01T00:00:00" (dyadic 9 (-1));
      mkPoint "2024-01-01T01:00:00" S754_nan].
Proof. vm_compute. reflexivity. Qed.

(** Scenario E: five filtered rows, a limit of two. *)
Example scenario_e_limit :
  fst (get_data_with_limit 2 (Some ["M1"]) None None demo_state) =
  Ok (mkResponse
        [[("machine_id", VStr "M1"); ("timestamp", VStr "2024-01-01 01:00:00");
          ("value", VFloat 30)];
         [("machine_id", VStr "M1"); ("timestamp", VStr "2024-01-01 00:00:00");
          ("value", VFloat 10)]]
        [mkPoint "2024-01-01T00:00:00" (float_of_Z 15);
         mkPoint "2024-01-01T01:00:00" (float_of_Z 30)]).
Proof. vm_compute. reflexivity. Qed.

Example engines_entered :
  calls (snd (get_data (Some ["M1"]) None None demo_state)) =
  ["filter_d1"; "filter_d2_by_d1"; "build_avg_time_series"].
Proof. vm_compute. reflexivity. Qed.

(* ===================================================================== *)
(** ** The theorems at the small store *)
(* ===================================================================== *)

Lemma filter_d1_retains_admitted_rows_witness :
  exists l,
    fst (filter_d1 D1 (Some ["M1"]) None None demo_state) = Ok l /\
    nth_error (heap (snd (filter_d1 D1 (Some ["M1"]) None None demo_state))) l =
    Some (mkFrame (columns demo_attributes)
            (filter
               (fun r =>
                  admits (Some ["M1"]) (field demo_attributes "machine_id" r) &&
                  admits None (field demo_attributes "part_number" r) &&
                  admits None (field demo_attributes "tool_number" r))
               (values demo_attributes))).
Proof.
  apply (filter_d1_retains_admitted_rows demo_state D1 demo_attributes);
    reflexivity.
Defined.

Lemma filter_d2_by_d1_semi_join_witness :
  exists l',
    fst (filter_d2_by_d1 D2 D1 demo_state) = Ok l' /\
    nth_error (heap (snd (filter_d2_by_d1 D2 D1 demo_state))) l' =
    Some (mkFrame (columns demo_measurements)
            (filter
               (fun r =>
                  existsb (cell_eqb (field demo_measurements "machine_id" r))
                    (map (field demo_attributes "machine_id")
                       (values demo_attributes)))
               (values demo_measurements))).
Proof.
  apply (filter_d2_by_d1_semi_join demo_state D2 D1 demo_measurements
           demo_attributes); reflexivity.
Defined.

Lemma build_avg_time_series_sorted_means_witness :
  exists groups : list (Z * float),
    fst (build_avg_time_series D2 zoned_state) =
    Ok (map (fun g => mkPoint (isoformat (Some IST) (fst g)) (snd g)) groups) /\
    StronglySorted Z.lt (map fst groups) /\
    NoDup (map fst groups) /\
    NoDup (map (fun g => isoformat (Some IST) (fst g)) groups) /\
    (forall t,
       In t (map fst groups) <->
       exists r,
         In r (values zoned_measurements) /\
         field zoned_measurements "timestamp" r = VTime t) /\
    (forall t a,
       In (t, a) groups ->
       read_iso8601 (isoformat (Some IST) t) =
       Some (wall_clock (Some IST) t,
             option_map (fun zone => zone t) (Some IST)) /\
       a = float_mean (floats (map (field zoned_measurements "value")
                                 (rows_at zoned_measurements t)))).
Proof.
  apply (build_avg_time_series_sorted_means zoned_state D2 zoned_measurements
           "value" (DatetimeTZ IST) (Some IST)); try reflexivity.
  intros r t [R|[R|[R|[R|[R|[R|[]]]]]]] E; subst r; vm_compute in E;
    try discriminate; inversion E; subst t;
    repeat split; vm_compute; congruence.
Defined.

Lemma build_avg_time_series_skips_nulls_witness :
  exists groups : list (Z * float),
    fst (build_avg_time_series D2 pressure_state) =
    Ok (map (fun g => mkPoint (isoformat None (fst g)) (snd g)) groups) /\
    (forall t,
       In t (map fst groups) <->
       exists r,
         In r (values demo_pressure) /\
         field demo_pressure "timestamp" r = VTime t) /\
    forall t a,
      In (t, a) groups ->
      let kept :=
        filter (fun r => negb (is_null (field demo_pressure "pressure" r)))
          (rows_at demo_pressure t) in
      a = float_mean (floats (map (field demo_pressure "pressure") kept)) /\
      length (floats (map (field demo_pressure "pressure") kept)) =
      length kept.
Proof.
  apply (build_avg_time_series_skips_nulls pressure_state D2 demo_pressure
           "pressure" Datetime None); reflexivity.
Defined.

Lemma build_avg_time_series_target_policy_witness :
  fst (build_avg_time_series D2 pressure_state) =
  aggregate_over demo_pressure "pressure".
Proof.
  apply (build_avg_time_series_target_policy pressure_state D2 demo_pressure);
    reflexivity.
Defined.

Lemma build_avg_time_series_empty_input_witness :
  fst (build_avg_time_series D3 demo_state) = Ok [] /\
  heap (snd (build_avg_time_series D3 demo_state)) = heap demo_state.
Proof.
  apply (build_avg_time_series_empty_input demo_state D3 demo_reference).
  - reflexivity.
  - left. reflexivity.
Defined.

Lemma operations_are_pure_witness :
  store (snd (get_data_with_limit 2 (Some ["M1"]) None None demo_state)) =
  store demo_state /\
  forall st',
    store st' = store demo_state ->
    fst (get_data_with_limit 2 (Some ["M1"]) None None st') =
    fst (get_data_with_limit 2 (Some ["M1"]) None None demo_state).
Proof.
  apply (operations_are_pure demo_state demo_attributes demo_measurements
           demo_reference); reflexivity.
Defined.

(* ===================================================================== *)
(** ** More on [filter_d1] *)
(* ===================================================================== *)

Lemma has_column_none col df :
  has_column col df = false -> column_index col (columns df) = None.
Proof.
  unfold has_column. destruct (column_index col (columns df)); [discriminate|].
  reflexivity.
Qed.

Lemma narrow_missing sel col df :
  truthy sel = true -> has_column col df = false ->
  narrow sel col df = Raise (KeyError col).
Proof.
  intros Ht Hc. unfold narrow, isin_rows, column_cells.
  rewrite Ht, (has_column_none _ _ Hc). reflexivity.
Qed.

(** One step of [filter_d1] when the column is there or not asked for. *)
Lemma narrow_admits sel col df :
  (truthy sel = true -> has_column col df = true) ->
  narrow sel col df =
  Ok (mkFrame (columns df)
        (filter (fun r => admits sel (field df col r)) (values df))).
Proof.
  intros H. destruct (truthy sel) eqn:Ht.
  - destruct (has_column_index _ _ (H eq_refl)) as [i Hi].
    rewrite (narrow_filter sel col df i Hi). do 2 f_equal.
    apply filter_ext. intros r. rewrite (field_at df col i r Hi). reflexivity.
  - unfold narrow. rewrite Ht.
    assert (E : forall c, admits sel c = true).
    { intros c. destruct sel as [[|v vs]|]; try reflexivity. discriminate. }
    rewrite (filter_ext _ (fun _ => true)) by (intros r; apply E).
    rewrite filter_true. destruct df; reflexivity.
Qed.

(** The three steps of [filter_d1] in one, when every column asked for is
    there. *)
Lemma filter_d1_frame_admits df ms ps ts :
  (truthy ms = true -> has_column "machine_id" df = true) ->
  (truthy ps = true -> has_column "part_number" df = true) ->
  (truthy ts = true -> has_column "tool_number" df = true) ->
  filter_d1_frame df ms ps ts =
  Ok (mkFrame (columns df)
        (filter
           (fun r =>
              admits ms (field df "machine_id" r) &&
              admits ps (field df "part_number" r) &&
              admits ts (field df "tool_number" r))
           (values df))).
Proof.
  intros Hm Hp Ht. unfold filter_d1_frame.
  rewrite (narrow_admits ms _ df Hm). cbn [result_bind].
  rewrite (narrow_admits ps _ (mkFrame (columns df) _) Hp). cbn [result_bind].
  rewrite (narrow_admits ts _ (mkFrame (columns df) _) Ht).
  cbn [columns values]. rewrite !filter_filter. do 2 f_equal.
  apply filter_ext. intros r. unfold field. cbn [columns].
  apply andb_assoc.
Qed.

Lemma filter_d1_returns st d1 df ms ps ts f :
  nth_error (heap st) d1 = Some df ->
  filter_d1_frame df ms ps ts = Ok f ->
  exists l,
    fst (filter_d1 d1 ms ps ts st) = Ok l /\
    nth_error (heap (snd (filter_d1 d1 ms ps ts st))) l = Some f.
Proof.
  intros H E.
  destruct (filter_d1_computes st d1 df ms ps ts H) as [ext [Hst Hres]].
  rewrite E in Hres. destruct Hres as [l [Hl Hf]].
  exists l. rewrite Hst. split; assumption.
Qed.

Lemma filter_d1_raises st d1 df ms ps ts e :
  nth_error (heap st) d1 = Some df ->
  filter_d1_frame df ms ps ts = Raise e ->
  fst (filter_d1 d1 ms ps ts st) = Raise e.
Proof.
  intros H E.
  destruct (filter_d1_computes st d1 df ms ps ts H) as [ext [Hst Hres]].
  rewrite E in Hres. exact Hres.
Qed.

(** X1.  [filter_d1] raises [KeyError] for the first column, in the order
    [machine_id], [part_number], [tool_number], that has a non-empty
    selection and is not in the table. *)
Theorem filter_d1_missing_column st d1 df ms ps ts :
  nth_error (heap st) d1 = Some df ->
  (truthy ms = true ->
   has_column "machine_id" df = false ->
   fst (filter_d1 d1 ms ps ts st) = Raise (KeyError "machine_id")) /\
  ((truthy ms = true -> has_column "machine_id" df = true) ->
   truthy ps = true ->
   has_column "part_number" df = false ->
   fst (filter_d1 d1 ms ps ts st) = Raise (KeyError "part_number")) /\
  ((truthy ms = true -> has_column "machine_id" df = true) ->
   (truthy ps = true -> has_column "part_number" df = true) ->
   truthy ts = true ->
   has_column "tool_number" df = false ->
   fst (filter_d1 d1 ms ps ts st) = Raise (KeyError "tool_number")).
Proof.
  intros H. split; [|split].
  - intros Ht Hc. apply (filter_d1_raises st d1 df ms ps ts _ H).
    unfold filter_d1_frame. rewrite (narrow_missing _ _ _ Ht Hc). reflexivity.
  - intros Hm Ht Hc. apply (filter_d1_raises st d1 df ms ps ts _ H).
    unfold filter_d1_frame. rewrite (narrow_admits ms _ df Hm).
    cbn [result_bind].
    rewrite (narrow_missing ps _ (mkFrame (columns df) _) Ht Hc). reflexivity.
  - intros Hm Hp Ht Hc. apply (filter_d1_raises st d1 df ms ps ts _ H).
    unfold filter_d1_frame. rewrite (narrow_admits ms _ df Hm).
    cbn [result_bind].
    rewrite (narrow_admits ps _ (mkFrame (columns df) _) Hp).
    cbn [result_bind].
    rewrite (narrow_missing ts _ (mkFrame (columns df) _) Ht Hc). reflexivity.
Qed.

(** X2.  A column whose selection is absent or empty is never looked up:
    on a table that has the columns with a non-empty selection, and maybe
    no other, [filter_d1] returns the rows every selection admits. *)
Theorem filter_d1_needs_selected_columns_only st d1 df ms ps ts :
  nth_error (heap st) d1 = Some df ->
  (truthy ms = true -> has_column "machine_id" df = true) ->
  (truthy ps = true -> has_column "part_number" df = true) ->
  (truthy ts = true -> has_column "tool_number" df = true) ->
  exists l,
    fst (filter_d1 d1 ms ps ts st) = Ok l /\
    nth_error (heap (snd (filter_d1 d1 ms ps ts st))) l =
    Some (mkFrame (columns df)
            (filter
               (fun r =>
                  admits ms (field df "machine_id" r) &&
                  admits ps (field df "part_number" r) &&
                  admits ts (field df "tool_number" r))
               (values df))).
Proof.
  intros H Hm Hp Ht.
  apply (filter_d1_returns st d1 df ms ps ts _ H).
  apply filter_d1_frame_admits; assumption.
Qed.

(** When [filter_d1_frame] returns, the columns asked for were there. *)
Lemma filter_d1_frame_ok df ms ps ts f :
  filter_d1_frame df ms ps ts = Ok f ->
  (truthy ms = true -> has_column "machine_id" df = true) /\
  (truthy ps = true -> has_column "part_number" df = true) /\
  (truthy ts = true -> has_column "tool_number" df = true).
Proof.
  intros E.
  assert (Hm : truthy ms = true -> has_column "machine_id" df = true).
  { intros Ht. destruct (has_column "machine_id" df) eqn:Hc; [reflexivity|].
    unfold filter_d1_frame in E.
    rewrite (narrow_missing _ _ _ Ht Hc) in E. discriminate. }
  assert (Hp : truthy ps = true -> has_column "part_number" df = true).
  { intros Ht. destruct (has_column "part_number" df) eqn:Hc; [reflexivity|].
    unfold filter_d1_frame in E. rewrite (narrow_admits ms _ df Hm) in E.
    cbn [result_bind] in E.
    rewrite (narrow_missing ps _ (mkFrame (columns df) _) Ht Hc) in E.
    discriminate. }
  split; [exact Hm|split; [exact Hp|]].
  intros Ht. destruct (has_column "tool_number" df) eqn:Hc; [reflexivity|].
  unfold filter_d1_frame in E. rewrite (narrow_admits ms _ df Hm) in E.
  cbn [result_bind] in E.
  rewrite (narrow_admits ps _ (mkFrame (columns df) _) Hp) in E.
  cbn [result_bind] in E.
  rewrite (narrow_missing ts _ (mkFrame (columns df) _) Ht Hc) in E.
  discriminate.
Qed.

Lemma filter_idem {A : Type} (p : A -> bool) (l : list A) :
  filter p (filter p l) = filter p l.
Proof.
  rewrite filter_filter. apply filter_ext. intros x. apply andb_diag.
Qed.

Lemma filter_d1_frame_idem df ms ps ts f :
  filter_d1_frame df ms ps ts = Ok f ->
  filter_d1_frame f ms ps ts = Ok f.
Proof.
  intros E. destruct (filter_d1_frame_ok _ _ _ _ _ E) as [Hm [Hp Ht]].
  rewrite (filter_d1_frame_admits df ms ps ts Hm Hp Ht) in E.
  inversion E as [Ef]. clear E.
  rewrite (filter_d1_frame_admits _ ms ps ts); cbn [columns values].
  - unfold field. cbn [columns]. rewrite filter_idem. reflexivity.
  - exact Hm.
  - exact Hp.
  - exact Ht.
Qed.

(** X4.  Filtering twice is filtering once: when [filter_d1] has returned a
    frame, running it again on that frame with the same selections returns
    an equal frame. *)
Theorem filter_d1_idempotent st d1 df ms ps ts l1 :
  nth_error (heap st) d1 = Some df ->
  fst (filter_d1 d1 ms ps ts st) = Ok l1 ->
  observe (filter_d1 l1 ms ps ts (snd (filter_d1 d1 ms ps ts st))) =
  observe (filter_d1 d1 ms ps ts st).
Proof.
  intros H Hl1.
  pose proof (filter_d1_computes st d1 df ms ps ts H) as C.
  rewrite (computes_observe _ _ _ _ C).
  destruct C as [ext [Hst Hres]].
  destruct (filter_d1_frame df ms ps ts) as [f|e] eqn:E.
  2:{ rewrite Hres in Hl1. discriminate. }
  destruct Hres as [l [Hl Hf]]. rewrite Hl in Hl1. inversion Hl1; subst l1.
  assert (Hf' : nth_error (heap (snd (filter_d1 d1 ms ps ts st))) l = Some f)
    by (rewrite Hst; exact Hf).
  rewrite (computes_observe _ _ _ _
             (filter_d1_computes _ l f ms ps ts Hf')).
  rewrite (filter_d1_frame_idem _ _ _ _ _ E). reflexivity.
Qed.

Lemma filter_none {A : Type} (p : A -> bool) (l : list A) :
  (forall x, In x l -> p x = false) -> filter p l = [].
Proof.
  induction l as [|x xs IH]; intros H; [reflexivity|].
  simpl. rewrite (H x (or_introl eq_refl)). apply IH.
  intros y Hy. apply H. right. exact Hy.
Qed.

(** A cell of a well-formed frame fits the dtype of its column. *)
Lemma field_typed df c d r :
  well_formed df = true ->
  column_dtype c df = Some d ->
  In r (values df) ->
  cell_has d (field df c r) = true.
Proof.
  intros WF HD Hr. unfold well_formed in WF.
  apply andb_true_iff in WF. destruct WF as [_ Hrows].
  rewrite forallb_forall in Hrows.
  unfold column_dtype in HD. unfold field.
  destruct (column_index c (columns df)) as [i|] eqn:Hi; [|discriminate].
  destruct (column_index_nth _ _ _ Hi) as [d0 Hn].
  rewrite Hn in HD. simpl in HD. inversion HD; subst d0.
  exact (row_typed_at _ _ _ _ _ (Hrows r Hr) Hn).
Qed.

(** X5.  The selections are strings and a string is no number: on a
    well-formed attributes table whose [machine_id] column is a numeric
    column, a non-empty selection of machines keeps no row at all. *)
Theorem filter_d1_numeric_column_matches_nothing st d1 df ms ps ts :
  nth_error (heap st) d1 = Some df ->
  well_formed df = true ->
  column_dtype "machine_id" df = Some Number ->
  truthy ms = true ->
  (truthy ps = true -> has_column "part_number" df = true) ->
  (truthy ts = true -> has_column "tool_number" df = true) ->
  exists l,
    fst (filter_d1 d1 ms ps ts st) = Ok l /\
    nth_error (heap (snd (filter_d1 d1 ms ps ts st))) l =
    Some (mkFrame (columns df) []).
Proof.
  intros H WF HD Htm Hp Ht.
  assert (Hm : has_column "machine_id" df = true).
  { unfold has_column. unfold column_dtype in HD.
    destruct (column_index "machine_id" (columns df)); [reflexivity|].
    discriminate. }
  apply (filter_d1_returns st d1 df ms ps ts _ H).
  rewrite (filter_d1_frame_admits df ms ps ts (fun _ => Hm) Hp Ht).
  do 2 f_equal.
  assert (E : forall r, In r (values df) ->
              admits ms (field df "machine_id" r) &&
              admits ps (field df "part_number" r) &&
              admits ts (field df "tool_number" r) = false).
  { intros r Hr. destruct ms as [[|v vs]|]; try discriminate.
    unfold admits at 1.
    pose proof (field_typed df "machine_id" Number r WF HD Hr) as T.
    destruct (field df "machine_id" r) as [s| | |]; try reflexivity.
    discriminate T. }
  apply filter_none. exact E.
Qed.

Lemma narrow_step_bound h c l f sel col n l' st' :
  nth_error h l = Some f ->
  n <= l ->
  (if truthy sel then isin_filter l col (selected sel) else ret l)
    (mkState h c) = (Ok l', st') ->
  n <= l'.
Proof.
  intros H Hn. destruct (truthy sel).
  - rewrite (isin_filter_run h c l f col _ H).
    destruct (isin_rows col (selected sel) f); [|discriminate].
    intros E. inversion E.
    assert (l < length h) by (apply nth_error_Some; congruence). lia.
  - unfold ret. intros E. inversion E. subst. exact Hn.
Qed.

Lemma filter_d1_fresh st d1 df ms ps ts l :
  nth_error (heap st) d1 = Some df ->
  fst (filter_d1 d1 ms ps ts st) = Ok l ->
  length (heap st) <= l.
Proof.
  destruct st as [h c]. simpl. intros H.
  unfold filter_d1.
  rewrite (bind_ok _ _ _ tt (mkState h (c ++ ["filter_d1"]))) by reflexivity.
  rewrite (bind_ok _ _ _ _ _ (copy_run h _ d1 df H)).
  destruct (narrow_run (h ++ [df]) (c ++ ["filter_d1"]) (length h) df ms
              "machine_id" (nth_error_snoc h df)) as [e1 S1].
  destruct (narrow ms "machine_id" df) as [f1|x].
  2:{ rewrite (bind_raise _ _ _ _ _ S1). discriminate. }
  destruct S1 as [l1 [R1 L1]].
  pose proof (narrow_step_bound _ _ _ _ _ _ (length h) _ _
                (nth_error_snoc h df) (le_n _) R1) as B1.
  rewrite (bind_ok _ _ _ _ _ R1).
  destruct (narrow_run ((h ++ [df]) ++ e1) (c ++ ["filter_d1"]) l1 f1 ps
              "part_number" L1) as [e2 S2].
  destruct (narrow ps "part_number" f1) as [f2|x].
  2:{ rewrite (bind_raise _ _ _ _ _ S2). discriminate. }
  destruct S2 as [l2 [R2 L2]].
  pose proof (narrow_step_bound _ _ _ _ _ _ (length h) _ _ L1 B1 R2) as B2.
  rewrite (bind_ok _ _ _ _ _ R2).
  destruct (narrow_run (((h ++ [df]) ++ e1) ++ e2) (c ++ ["filter_d1"]) l2 f2
              ts "tool_number" L2) as [e3 S3].
  destruct (narrow ts "tool_number" f2) as [f3|x].
  2:{ rewrite (bind_raise _ _ _ _ _ S3). discriminate. }
  destruct S3 as [l3 [R3 L3]].
  pose proof (narrow_step_bound _ _ _ _ _ _ (length h) _ _ L2 B2 R3) as B3.
  rewrite (bind_ok _ _ _ _ _ R3). unfold ret. simpl.
  intros E. inversion E. subst. exact B3.
Qed.

(** X3.  [filter_d1] never hands back the table it was given: the frame it
    returns is behind a reference that did not exist before the call, even
    when no selection is made and the frame equals the table. *)
Theorem filter_d1_returns_a_new_frame st d1 df ms ps ts :
  nth_error (heap st) d1 = Some df ->
  (forall l,
     fst (filter_d1 d1 ms ps ts st) = Ok l ->
     nth_error (heap st) l = None /\ l <> d1) /\
  (truthy ms = false -> truthy ps = false -> truthy ts = false ->
   exists l,
     fst (filter_d1 d1 ms ps ts st) = Ok l /\
     nth_error (heap st) l = None /\
     nth_error (heap (snd (filter_d1 d1 ms ps ts st))) l = Some df).
Proof.
  intros H.
  assert (F : forall l, fst (filter_d1 d1 ms ps ts st) = Ok l ->
                        nth_error (heap st) l = None /\ l <> d1).
  { intros l Hl. pose proof (filter_d1_fresh st d1 df ms ps ts l H Hl) as B.
    split.
    - apply nth_error_None. exact B.
    - assert (d1 < length (heap st)) by (apply nth_error_Some; congruence).
      lia. }
  split; [exact F|].
  intros Hm Hp Ht.
  assert (E : filter_d1_frame df ms ps ts = Ok df).
  { unfold filter_d1_frame, narrow. rewrite Hm, Hp, Ht. reflexivity. }
  destruct (filter_d1_returns st d1 df ms ps ts df H E) as [l [Hl Hf]].
  exists l. split; [exact Hl|]. split; [apply F; exact Hl|exact Hf].
Qed.

(* ===================================================================== *)
(** ** More on [filter_d2_by_d1] *)
(* ===================================================================== *)

Lemma filter_d2_by_d1_returns st d2 l m a f :
  nth_error (heap st) d2 = Some m ->
  nth_error (heap st) l = Some a ->
  filter_d2_by_d1_frame m a = Ok f ->
  exists l',
    fst (filter_d2_by_d1 d2 l st) = Ok l' /\
    nth_error (heap (snd (filter_d2_by_d1 d2 l st))) l' = Some f.
Proof.
  intros Hm Ha E.
  destruct (filter_d2_by_d1_computes st d2 l m a Hm Ha) as [ext [Hst Hres]].
  rewrite E in Hres. destruct Hres as [l' [Hl Hf]].
  exists l'. rewrite Hst. split; assumption.
Qed.

(** X6.  On a non-empty attributes subset, [filter_d2_by_d1] raises
    [KeyError] when the subset has no [machine_id] column, and when it has
    one but the measurements have none. *)
Theorem filter_d2_by_d1_missing_machine_id st d2 l m a :
  nth_error (heap st) d2 = Some m ->
  nth_error (heap st) l = Some a ->
  df_empty a = false ->
  (has_column "machine_id" a = false ->
   fst (filter_d2_by_d1 d2 l st) = Raise (KeyError "machine_id")) /\
  (has_column "machine_id" a = true ->
   has_column "machine_id" m = false ->
   fst (filter_d2_by_d1 d2 l st) = Raise (KeyError "machine_id")).
Proof.
  intros Hm Ha He.
  destruct (filter_d2_by_d1_computes st d2 l m a Hm Ha) as [ext [Hst Hres]].
  unfold filter_d2_by_d1_frame in Hres. rewrite He in Hres.
  unfold isin_rows, column_cells in Hres.
  split.
  - intros Hc. rewrite (has_column_none _ _ Hc) in Hres. exact Hres.
  - intros Hc Hcm. destruct (has_column_index _ _ Hc) as [i Hi].
    rewrite Hi, (has_column_none _ _ Hcm) in Hres. exact Hres.
Qed.

Lemma empty_like_dtypes m c :
  has_column c m = true -> column_dtype c (empty_like m) = Some Object.
Proof.
  intros H. destruct (has_column_index _ _ H) as [i Hi].
  destruct (column_index_nth _ _ _ Hi) as [d Hn].
  unfold column_dtype, empty_like. cbn [columns].
  rewrite column_index_labels, Hi, nth_error_map, Hn. reflexivity.
Qed.

(** X7.  The frame that [filter_d2_by_d1] builds for an empty attributes
    subset has lost the dtypes of the measurements: every column is of
    dtype object, the [timestamp] column included. *)
Theorem filter_d2_by_d1_empty_has_object_columns st d2 l m a :
  nth_error (heap st) d2 = Some m ->
  nth_error (heap st) l = Some a ->
  df_empty a = true ->
  exists l' f,
    fst (filter_d2_by_d1 d2 l st) = Ok l' /\
    nth_error (heap (snd (filter_d2_by_d1 d2 l st))) l' = Some f /\
    Forall (fun c => snd c = Object) (columns f) /\
    numeric_cols f = [] /\
    (has_column "timestamp" m = true ->
     column_dtype "timestamp" f = Some Object).
Proof.
  intros Hm Ha He.
  assert (E : filter_d2_by_d1_frame m a = Ok (empty_like m)).
  { unfold filter_d2_by_d1_frame. rewrite He. reflexivity. }
  destruct (filter_d2_by_d1_returns st d2 l m a _ Hm Ha E) as [l' [Hl Hf]].
  exists l', (empty_like m). split; [exact Hl|]. split; [exact Hf|].
  split; [|split].
  - unfold empty_like. cbn [columns]. apply Forall_forall.
    intros c Hc. apply in_map_iff in Hc. destruct Hc as [x [Ex _]].
    subst c. reflexivity.
  - unfold numeric_cols, empty_like. cbn [columns].
    induction (columns m) as [|x xs IH]; [reflexivity|exact IH].
  - apply empty_like_dtypes.
Qed.

Lemma cell_eqb_str s c : cell_eqb (VStr s) c = true <-> c = VStr s.
Proof.
  destruct c; simpl; split; try discriminate; intros H.
  - apply String.eqb_eq in H. subst. reflexivity.
  - inversion H. apply String.eqb_refl.
Qed.

Lemma admits_some_str v vs s :
  admits (Some (v :: vs)) (VStr s) = existsb (String.eqb s) (v :: vs).
Proof. reflexivity. Qed.

Lemma admits_some_is_str v vs c :
  admits (Some (v :: vs)) c = true -> exists s, c = VStr s.
Proof.
  destruct c as [s| | |]; simpl; try discriminate. intros _. exists s.
  reflexivity.
Qed.

(** The machines of the admitted attribute rows: the selected strings that
    occur in the table. *)
Lemma admitted_machines {A : Type} (g : A -> cell) v vs rows c :
  existsb (cell_eqb c)
    (map g (filter (fun r => admits (Some (v :: vs)) (g r)) rows)) =
  match c with
  | VStr s =>
      existsb (String.eqb s) (v :: vs) &&
      existsb (cell_eqb (VStr s)) (map g rows)
  | _ => false
  end.
Proof.
  apply eq_true_iff_eq. rewrite existsb_exists. split.
  - intros [x [Hin Hx]]. apply in_map_iff in Hin.
    destruct Hin as [r [Er Hr]]. apply filter_In in Hr.
    destruct Hr as [Hr Ha]. rewrite Er in Ha.
    destruct (admits_some_is_str _ _ _ Ha) as [s Es].
    rewrite Es in Hx, Ha.
    rewrite cell_eqb_sym in Hx. apply cell_eqb_str in Hx. subst c.
    rewrite admits_some_str in Ha. rewrite Ha. simpl andb.
    apply existsb_exists. exists (VStr s). split.
    + rewrite <- Es, <- Er. apply in_map. exact Hr.
    + apply cell_eqb_str. reflexivity.
  - destruct c as [s| | |]; try discriminate.
    intros H. apply andb_true_iff in H. destruct H as [Hs Hx].
    apply existsb_exists in Hx. destruct Hx as [x [Hin Hx]].
    apply cell_eqb_str in Hx. subst x.
    apply in_map_iff in Hin. destruct Hin as [r [Er Hr]].
    exists (VStr s). split.
    + rewrite <- Er. apply in_map. apply filter_In. split; [exact Hr|].
      rewrite Er. rewrite admits_some_str. exact Hs.
    + apply cell_eqb_str. reflexivity.
Qed.

Lemma pipeline_returns st l1 l2 d1 d2 ms ps ts d1f d2f :
  nth_error (heap st) l1 = Some d1 ->
  nth_error (heap st) l2 = Some d2 ->
  filter_d1_frame d1 ms ps ts = Ok d1f ->
  filter_d2_by_d1_frame d2 d1f = Ok d2f ->
  exists l,
    fst ((d1_filtered <- filter_d1 l1 ms ps ts;;
          filter_d2_by_d1 l2 d1_filtered) st) = Ok l /\
    nth_error
      (heap (snd ((d1_filtered <- filter_d1 l1 ms ps ts;;
                   filter_d2_by_d1 l2 d1_filtered) st))) l = Some d2f.
Proof.
  intros H1 H2 E1 E2.
  pose proof (filter_d1_computes st l1 d1 ms ps ts H1) as C1.
  destruct (filter_d1 l1 ms ps ts st) as [r1 st1] eqn:R1.
  pose proof (computes_grows _ _ _ _ C1) as G1. simpl in G1.
  apply computes_result in C1. rewrite E1 in C1.
  destruct C1 as [la [-> La]].
  rewrite (bind_ok _ _ _ _ _ R1).
  apply (filter_d2_by_d1_returns st1 l2 la d2 d1f d2f
           (grows_lookup _ _ _ _ G1 H2) La E2).
Qed.

(** X8.  A selection of machines alone, pushed through both stages, keeps
    the measurement rows of the selected machines that the attributes table
    knows, in the order of the measurements, under the column labels of the
    measurements. *)
Theorem machine_selection_reaches_measurements st d1 d2 v vs :
  nth_error (heap st) D1 = Some d1 ->
  nth_error (heap st) D2 = Some d2 ->
  has_column "machine_id" d1 = true ->
  has_column "machine_id" d2 = true ->
  exists l f,
    fst ((d1_filtered <- filter_d1 D1 (Some (v :: vs)) None None;;
          filter_d2_by_d1 D2 d1_filtered) st) = Ok l /\
    nth_error
      (heap (snd ((d1_filtered <- filter_d1 D1 (Some (v :: vs)) None None;;
                   filter_d2_by_d1 D2 d1_filtered) st))) l = Some f /\
    map fst (columns f) = map fst (columns d2) /\
    values f =
    filter
      (fun r =>
         match field d2 "machine_id" r with
         | VStr s =>
             existsb (String.eqb s) (v :: vs) &&
             existsb (cell_eqb (VStr s)) (column_of d1 "machine_id")
         | _ => false
         end)
      (values d2).
Proof.
  intros H1 H2 Hc1 Hc2.
  assert (E1 : filter_d1_frame d1 (Some (v :: vs)) None None =
               Ok (mkFrame (columns d1)
                     (filter
                        (fun r => admits (Some (v :: vs))
                                    (field d1 "machine_id" r))
                        (values d1)))).
  { rewrite filter_d1_frame_admits;
      [|intros _; exact Hc1|discriminate|discriminate].
    do 2 f_equal. apply filter_ext. intros r. cbn [admits].
    rewrite !andb_true_r. reflexivity. }
  set (d1f := mkFrame (columns d1) _) in E1.
  destruct (has_column_index _ _ Hc1) as [i Hi].
  destruct (has_column_index _ _ Hc2) as [j Hj].
  assert (Hids : map (cell_at i) (values d1f) =
                 map (field d1 "machine_id")
                   (filter
                      (fun r => admits (Some (v :: vs))
                                  (field d1 "machine_id" r))
                      (values d1))).
  { unfold d1f. cbn [values]. apply map_ext. intros r. symmetry.
    apply field_at. exact Hi. }
  destruct (df_empty d1f) eqn:He.
  - assert (E2 : filter_d2_by_d1_frame d2 d1f = Ok (empty_like d2)).
    { unfold filter_d2_by_d1_frame. rewrite He. reflexivity. }
    destruct (pipeline_returns st D1 D2 d1 d2 _ _ _ _ _ H1 H2 E1 E2)
      as [l [Hl Hf]].
    exists l, (empty_like d2). split; [exact Hl|]. split; [exact Hf|].
    split.
    + unfold empty_like. cbn [columns]. rewrite map_map. reflexivity.
    + unfold empty_like. cbn [values]. symmetry. apply filter_none.
      intros r _.
      assert (Hv : values d1f = []).
      { unfold df_empty in He. apply orb_true_iff in He.
        destruct He as [He|He]; apply Nat.eqb_eq in He;
          apply length_zero_iff_nil in He; [exact He|].
        unfold d1f in He. cbn [columns] in He. rewrite He in Hi.
        discriminate. }
      pose proof (admitted_machines (field d1 "machine_id") v vs (values d1)
                    (field d2 "machine_id" r)) as A.
      rewrite <- Hids, Hv in A. simpl in A. unfold column_of.
      symmetry. exact A.
  - assert (E2 : filter_d2_by_d1_frame d2 d1f =
                 Ok (mkFrame (columns d2)
                       (filter
                          (fun r => isin (unique (map (cell_at i) (values d1f)))
                                      (cell_at j r))
                          (values d2)))).
    { unfold filter_d2_by_d1_frame. rewrite He. unfold column_cells.
      unfold d1f at 1. cbn [columns]. rewrite Hi. cbn [result_bind].
      apply (isin_rows_filter _ _ _ j Hj). }
    destruct (pipeline_returns st D1 D2 d1 d2 _ _ _ _ _ H1 H2 E1 E2)
      as [l [Hl Hf]].
    eexists l, _. split; [exact Hl|]. split; [exact Hf|].
    split; [reflexivity|]. cbn [values].
    apply filter_ext. intros r. rewrite isin_unique, Hids.
    rewrite (admitted_machines (field d1 "machine_id") v vs (values d1)).
    rewrite (field_at d2 _ j r Hj). reflexivity.
Qed.

(* ===================================================================== *)
(** ** More on [build_avg_time_series] *)
(* ===================================================================== *)


Lemma rows_at_stamp df t r :
  In r (rows_at df t) -> In r (values df) /\ field df "timestamp" r = VTime t.
Proof.
  unfold rows_at. intros H. apply filter_In in H. destruct H as [H E].
  split; [exact H|]. apply cell_eqb_time. exact E.
Qed.


(** *** The mean of a single number *)

Lemma bounded_spec m e :
  bounded prec64 emax64 m e = true ->
  (Z.max (Zpos (digits2_pos m) + e - 53) (-1074) = e /\ e <= 971)%Z.
Proof.
  unfold bounded, canonical_mantissa, fexp, emin, prec64, emax64.
  intros H. apply andb_true_iff in H. destruct H as [C B].
  apply Z.eqb_eq in C. apply Z.leb_le in B.
  split; [exact C|exact B].
Qed.

(** Rounding a mantissa and an exponent that make a binary64 value changes
    nothing. *)
Lemma round_canonical s m e :
  bounded prec64 emax64 m e = true ->
  binary_round_aux prec64 emax64 s (Zpos m) e loc_Exact = S754_finite s m e.
Proof.
  intros B. destruct (bounded_spec m e B) as [C L].
  unfold binary_round_aux, shr_fexp.
  cbn [Zdigits2 shr_record_of_loc].
  assert (F : (fexp prec64 emax64 (Zpos (digits2_pos m) + e) - e = 0)%Z).
  { unfold fexp, emin, prec64, emax64.
    change (3 - 1024 - 53)%Z with (-1074)%Z. lia. }
  rewrite F. cbn [shr shr_m loc_of_shr_record round_nearest_even].
  cbn [Zdigits2 shr_record_of_loc]. rewrite F. cbn [shr shr_m].
  unfold emax64, prec64. change (1024 - 53)%Z with 971%Z.
  destruct (Z.leb_spec e 971); [reflexivity|lia].
Qed.

(** The same for a mantissa that has one bit too many, the last one zero. *)
Lemma round_doubled s m e :
  bounded prec64 emax64 m e = true ->
  (-1074 < e)%Z ->
  binary_round_aux prec64 emax64 s (Zpos m~0) (e - 1) loc_Exact =
  S754_finite s m e.
Proof.
  intros B N. destruct (bounded_spec m e B) as [C L].
  unfold binary_round_aux, shr_fexp.
  cbn [Zdigits2 shr_record_of_loc digits2_pos].
  assert (F : (fexp prec64 emax64 (Zpos (Pos.succ (digits2_pos m)) + (e - 1))
               - (e - 1) = 1)%Z).
  { unfold fexp, emin, prec64, emax64.
    change (3 - 1024 - 53)%Z with (-1074)%Z. lia. }
  rewrite F. cbn [shr iter_pos shr_1 orb shr_m loc_of_shr_record
                  round_nearest_even].
  cbn [Zdigits2 shr_record_of_loc].
  assert (G : (fexp prec64 emax64 (Zpos (digits2_pos m) + (e - 1 + 1))
               - (e - 1 + 1) = 0)%Z).
  { unfold fexp, emin, prec64, emax64.
    change (3 - 1024 - 53)%Z with (-1074)%Z. lia. }
  rewrite G. cbn [shr shr_m].
  replace (e - 1 + 1)%Z with e by lia.
  unfold emax64, prec64. change (1024 - 53)%Z with 971%Z.
  destruct (Z.leb_spec e 971); [reflexivity|lia].
Qed.

Lemma div_eucl_exact a b q :
  (0 < b)%Z -> a = (q * b)%Z -> Z.div_eucl a b = (q, 0%Z).
Proof.
  intros Hb E.
  assert (Hq : (a / b = q)%Z) by (subst a; apply Z.div_mul; lia).
  assert (Hr : (a mod b = 0)%Z) by (subst a; apply Z.mod_mul; lia).
  unfold Z.div in Hq. unfold Z.modulo in Hr.
  destruct (Z.div_eucl a b) as [q' r']. subst. reflexivity.
Qed.

(** The quotient of a binary64 mantissa by that of [1.0], before it is
    rounded: the mantissa itself, doubled when the exponent can go down. *)
Lemma div_core_one m e :
  bounded prec64 emax64 m e = true ->
  SFdiv_core_binary prec64 emax64 (Zpos m) e 4503599627370496 (-52) =
  if (-1074 <? e)%Z then (Zpos m~0, (e - 1)%Z, loc_Exact)
  else (Zpos m, e, loc_Exact).
Proof.
  intros B. destruct (bounded_spec m e B) as [C L].
  unfold SFdiv_core_binary.
  change (Zdigits2 4503599627370496) with 53%Z.
  cbn [Zdigits2].
  unfold fexp, emin, prec64, emax64.
  change (3 - 1024 - 53)%Z with (-1074)%Z.
  destruct (Z.ltb_spec (-1074) e) as [N|N].
  - assert (E' : (Z.min (Z.max (Zpos (digits2_pos m) + e - (53 + -52) - 53)
                           (-1074)) (e - -52) = e - 1)%Z) by lia.
    rewrite E'. replace (e - -52 - (e - 1))%Z with 53%Z by lia.
    rewrite (div_eucl_exact _ _ (Zpos m~0)).
    + reflexivity.
    + reflexivity.
    + rewrite Z.shiftl_mul_pow2 by lia.
      change (2 ^ 53)%Z with (2 * 4503599627370496)%Z.
      change (Zpos m~0) with (2 * Zpos m)%Z. ring.
  - assert (E' : (Z.min (Z.max (Zpos (digits2_pos m) + e - (53 + -52) - 53)
                           (-1074)) (e - -52) = e)%Z) by lia.
    rewrite E'. replace (e - -52 - e)%Z with 52%Z by lia.
    rewrite (div_eucl_exact _ _ (Zpos m)).
    + reflexivity.
    + reflexivity.
    + rewrite Z.shiftl_mul_pow2 by lia. reflexivity.
Qed.

(** A binary64 value divided by [1.0] is that value. *)
Lemma float_div_one s m e :
  bounded prec64 emax64 m e = true ->
  float_div (S754_finite s m e) (float_of_Z 1) = S754_finite s m e.
Proof.
  intros B.
  change (float_of_Z 1) with (S754_finite false 4503599627370496 (-52)).
  unfold float_div, SFdiv. rewrite (div_core_one m e B).
  rewrite xorb_false_r.
  destruct (Z.ltb_spec (-1074) e) as [N|N].
  - apply round_doubled; assumption.
  - apply round_canonical; assumption.
Qed.

(** The mean of one float. *)
Lemma float_mean_single f :
  valid_binary prec64 emax64 f = true ->
  float_mean [f] = unsigned_zero f.
Proof.
  intros V. destruct f as [s|s| |s m e].
  - destruct s; reflexivity.
  - destruct s; reflexivity.
  - reflexivity.
  - unfold float_mean. cbn [compensated_sum length Z.of_nat Pos.of_succ_nat].
    change (float_sub (S754_finite s m e) (S754_zero false))
      with (S754_finite s m e).
    change (float_add (S754_zero false) (S754_finite s m e))
      with (S754_finite s m e).
    apply float_div_one. exact V.
Qed.

(** X9.  A timestamp carried by a single row, whose target is a number that
    as a float is a binary64 value, gets a point with that float as its
    mean: the sum started at [0.0] and the division by the count change
    nothing, but for [-0.0], which comes out as [0.0].  An integer counts
    as the float nearest to it. *)
Theorem build_avg_time_series_single_row_group st l df tc d tz t r x :
  nth_error (heap st) l = Some df ->
  well_formed df = true ->
  column_dtype "timestamp" df = Some d ->
  timezone d = Some tz ->
  select_target (numeric_cols df) = Some tc ->
  rows_at df t = [r] ->
  field df tc r = VNum x ->
  valid_binary prec64 emax64 (float_of_number x) = true ->
  exists pts,
    fst (build_avg_time_series l st) = Ok pts /\
    In (mkPoint (isoformat tz t) (unsigned_zero (float_of_number x))) pts.
Proof.
  intros H WF HD Hz HT Hrows Hx V.
  destruct (datetime_columns df tc d tz WF HD Hz HT)
    as [i [j [Hi [Hj [Hne [Hkeys _]]]]]].
  destruct st as [h c]. simpl in H.
  destruct (build_avg_time_series_run h c l df H) as [ext Hrun].
  rewrite Hrun. simpl fst.
  rewrite (avg_series_groups df tc i j Hi Hj Hne Hkeys HT).
  rewrite (column_tz_of df d tz HD Hz).
  set (gs := groupby _).
  assert (Hr : In r (rows_at df t)) by (rewrite Hrows; left; reflexivity).
  apply rows_at_stamp in Hr.
  assert (Hk : In t (map fst gs)).
  { apply (group_keys df i j t Hi). exists r. exact Hr. }
  apply in_map_iff in Hk. destruct Hk as [[k vs] [Ek Hin]].
  simpl in Ek. subst k.
  destruct (group_cells df tc i j t vs Hi Hj Hin) as [Hvs _].
  rewrite Hrows in Hvs. simpl in Hvs. rewrite Hx in Hvs.
  eexists. split; [reflexivity|].
  apply in_map_iff. exists (t, vs). split; [|exact Hin].
  cbn [fst snd]. f_equal.
  rewrite series_mean_spec, Hvs. simpl floats.
  apply float_mean_single. exact V.
Qed.





(* ===================================================================== *)
(** ** More on [get_data] *)
(* ===================================================================== *)

Lemma well_formed_filter df p :
  well_formed df = true ->
  well_formed (mkFrame (columns df) (filter p (values df))) = true.
Proof.
  unfold well_formed. cbn [columns values]. intros H.
  apply andb_true_iff in H. destruct H as [Hd Hr].
  apply andb_true_iff. split; [exact Hd|].
  apply forallb_forall. intros r Hin. apply filter_In in Hin.
  rewrite forallb_forall in Hr. apply Hr. apply Hin.
Qed.

(** On a well-formed frame whose [timestamp] column is a datetime column,
    the aggregation returns. *)
Lemma avg_series_returns df d tz :
  well_formed df = true ->
  column_dtype "timestamp" df = Some d ->
  timezone d = Some tz ->
  exists pts, avg_series df = Ok pts.
Proof.
  intros WF HD Hz.
  destruct (select_target (numeric_cols df)) as [tc|] eqn:HT.
  - destruct (datetime_columns df tc d tz WF HD Hz HT)
      as [i [j [Hi [Hj [Hne [Hkeys _]]]]]].
    eexists. apply (avg_series_groups df tc i j Hi Hj Hne Hkeys HT).
  - exists []. unfold avg_series. rewrite HT.
    destruct (df_empty df || negb (has_column "timestamp" df)); reflexivity.
Qed.

Lemma rows_frame_length limit df shown :
  rows_frame limit df = Ok shown -> length (records shown) <= limit.
Proof.
  intros R. destruct (rows_frame_first_rows _ _ _ R) as [Hv _].
  unfold records. rewrite length_map, Hv, length_map, length_firstn.
  apply Nat.le_min_l.
Qed.

Lemma get_data_result limit ms ps ts st d1 d2 :
  nth_error (heap st) D1 = Some d1 ->
  nth_error (heap st) D2 = Some d2 ->
  fst (get_data_with_limit limit ms ps ts st) =
  response_of limit d1 d2 ms ps ts.
Proof.
  intros H1 H2.
  destruct (get_data_run limit ms ps ts st d1 d2 H1 H2) as [st' [E _]].
  rewrite E. reflexivity.
Qed.

(** A selection that admits a row gets a payload, on well-formed
    measurements with a datetime [timestamp] column, naive or not. *)
Lemma get_data_match_returns limit st d1 d2 d tz ms ps ts r :
  nth_error (heap st) D1 = Some d1 ->
  nth_error (heap st) D2 = Some d2 ->
  truthy ms || truthy ps || truthy ts = true ->
  has_column "machine_id" d1 = true ->
  (truthy ps = true -> has_column "part_number" d1 = true) ->
  (truthy ts = true -> has_column "tool_number" d1 = true) ->
  In r (values d1) ->
  admits ms (field d1 "machine_id" r) &&
  admits ps (field d1 "part_number" r) &&
  admits ts (field d1 "tool_number" r) = true ->
  has_column "machine_id" d2 = true ->
  well_formed d2 = true ->
  column_dtype "timestamp" d2 = Some d ->
  timezone d = Some tz ->
  exists resp,
    fst (get_data_with_limit limit ms ps ts st) = Ok resp /\
    length (rows resp) <= limit.
Proof.
  intros H1 H2 Hany Hm Hp Ht Hr Hadm Hm2 WF HD Hz.
  rewrite (get_data_result limit ms ps ts st d1 d2 H1 H2).
  unfold response_of. rewrite Hany. cbn [negb].
  rewrite (filter_d1_frame_admits d1 ms ps ts (fun _ => Hm) Hp Ht).
  cbn [result_bind].
  set (d1f := mkFrame (columns d1) _).
  assert (He : df_empty d1f = false).
  { unfold df_empty, d1f. cbn [columns values].
    apply orb_false_iff. split; apply Nat.eqb_neq.
    - assert (Hin : In r (filter
                (fun r => admits ms (field d1 "machine_id" r) &&
                          admits ps (field d1 "part_number" r) &&
                          admits ts (field d1 "tool_number" r)) (values d1)))
        by (apply filter_In; split; assumption).
      destruct (filter _ (values d1)); [contradiction|discriminate].
    - destruct (has_column_index _ _ Hm) as [i Hi].
      destruct (columns d1); [discriminate|discriminate]. }
  destruct (has_column_index _ _ Hm) as [i Hi].
  destruct (has_column_index _ _ Hm2) as [j Hj].
  unfold filter_d2_by_d1_frame. rewrite He.
  unfold column_cells. unfold d1f at 1. cbn [columns]. rewrite Hi.
  cbn [result_bind]. rewrite (isin_rows_filter _ _ _ j Hj).
  cbn [result_bind].
  set (d2f := mkFrame (columns d2) _).
  assert (WF2 : well_formed d2f = true) by (apply well_formed_filter; exact WF).
  assert (HD2 : column_dtype "timestamp" d2f = Some d) by exact HD.
  destruct (avg_series_returns d2f d tz WF2 HD2 Hz) as [pts Hpts].
  assert (HR : exists shown, rows_frame limit d2f = Ok shown).
  { unfold rows_frame.
    change (column_dtype "timestamp" (top_rows limit d2f))
      with (column_dtype "timestamp" d2).
    rewrite HD. cbn [top_rows columns d2f].
    destruct d; try discriminate Hz;
      destruct (column_index "timestamp" (columns d2)); eexists; reflexivity. }
  destruct HR as [shown HR]. rewrite HR, Hpts. cbn [result_bind].
  eexists. split; [reflexivity|]. cbn [rows].
  apply (rows_frame_length _ _ _ HR).
Qed.

(** X12.  On a loaded store whose measurements are well formed, with a
    [machine_id] column and a datetime [timestamp] column (naive or with a
    time zone), and whose attributes have a [machine_id] column and every
    column that has a non-empty selection: when the selection is not empty
    and admits at least one attribute row, [get_data] raises nothing up to
    its last line and builds a payload of at most [limit] rows, which it
    hands to [JSONResponse]. *)
Theorem get_data_returns_on_a_match limit st d1 d2 d tz ms ps ts r :
  nth_error (heap st) D1 = Some d1 ->
  nth_error (heap st) D2 = Some d2 ->
  truthy ms || truthy ps || truthy ts = true ->
  has_column "machine_id" d1 = true ->
  (truthy ps = true -> has_column "part_number" d1 = true) ->
  (truthy ts = true -> has_column "tool_number" d1 = true) ->
  In r (values d1) ->
  admits ms (field d1 "machine_id" r) &&
  admits ps (field d1 "part_number" r) &&
  admits ts (field d1 "tool_number" r) = true ->
  has_column "machine_id" d2 = true ->
  well_formed d2 = true ->
  column_dtype "timestamp" d2 = Some d ->
  timezone d = Some tz ->
  exists resp,
    fst (get_data_with_limit limit ms ps ts st) = Ok resp /\
    length (rows resp) <= limit.
Proof. apply get_data_match_returns. Qed.

(** X13.  When the measurements have a [machine_id] column and no
    [timestamp] column, and the attributes have a [machine_id] column and
    every column that has a non-empty selection, [get_data] builds a
    payload for every selection, matching or not: its average is empty and
    it has at most [limit] rows. *)
Theorem get_data_without_timestamp_column limit st d1 d2 ms ps ts :
  nth_error (heap st) D1 = Some d1 ->
  nth_error (heap st) D2 = Some d2 ->
  has_column "machine_id" d1 = true ->
  (truthy ps = true -> has_column "part_number" d1 = true) ->
  (truthy ts = true -> has_column "tool_number" d1 = true) ->
  has_column "machine_id" d2 = true ->
  has_column "timestamp" d2 = false ->
  exists resp,
    fst (get_data_with_limit limit ms ps ts st) = Ok resp /\
    average resp = [] /\
    length (rows resp) <= limit.
Proof.
  intros H1 H2 Hm Hp Ht Hm2 Hts.
  rewrite (get_data_result limit ms ps ts st d1 d2 H1 H2).
  unfold response_of.
  destruct (negb (truthy ms || truthy ps || truthy ts)).
  { eexists. split; [reflexivity|]. split; [reflexivity|]. simpl. lia. }
  rewrite (filter_d1_frame_admits d1 ms ps ts (fun _ => Hm) Hp Ht).
  cbn [result_bind].
  set (d1f := mkFrame (columns d1) _).
  destruct (has_column_index _ _ Hm) as [i Hi].
  destruct (has_column_index _ _ Hm2) as [j Hj].
  assert (Tail : forall d2f,
            map fst (columns d2f) = map fst (columns d2) ->
            column_index "timestamp" (columns d2f) = None ->
            exists resp,
              result_bind (rows_frame limit d2f) (fun shown =>
              result_bind (avg_series d2f) (fun avg_series =>
              Ok (mkResponse (records shown) avg_series))) = Ok resp /\
              average resp = [] /\ length (rows resp) <= limit).
  { intros d2f _ Hnone.
    assert (HR : rows_frame limit d2f = Ok (top_rows limit d2f)).
    { unfold rows_frame. cbn [top_rows columns]. rewrite Hnone. reflexivity. }
    rewrite HR. cbn [result_bind].
    assert (HA : avg_series d2f = Ok []).
    { unfold avg_series, has_column. rewrite Hnone. cbn [negb].
      rewrite orb_true_r. reflexivity. }
    rewrite HA. cbn [result_bind].
    eexists. split; [reflexivity|]. split; [reflexivity|].
    cbn [rows]. apply (rows_frame_length _ _ _ HR). }
  unfold filter_d2_by_d1_frame.
  destruct (df_empty d1f).
  - cbn [result_bind]. apply Tail.
    + unfold empty_like. cbn [columns]. rewrite map_map. reflexivity.
    + unfold empty_like. cbn [columns]. rewrite column_index_labels.
      apply has_column_none. exact Hts.
  - unfold column_cells. unfold d1f at 1. cbn [columns]. rewrite Hi.
    cbn [result_bind]. rewrite (isin_rows_filter _ _ _ j Hj).
    cbn [result_bind]. apply Tail.
    + reflexivity.
    + cbn [columns]. apply has_column_none. exact Hts.
Qed.

Lemma rows_frame_smaller_limit limit limit' df shown' :
  limit <= limit' ->
  rows_frame limit' df = Ok shown' ->
  exists shown,
    rows_frame limit df = Ok shown /\
    records shown = firstn limit (records shown').
Proof.
  intros Hle R'.
  assert (R : exists shown, rows_frame limit df = Ok shown).
  { revert R'. unfold rows_frame.
    change (column_dtype "timestamp" (top_rows limit' df))
      with (column_dtype "timestamp" (top_rows limit df)).
    cbn [top_rows columns].
    destruct (column_index "timestamp" (columns df)); [|eexists; reflexivity].
    destruct (dt (column_dtype "timestamp" _)) as [tz|]; try discriminate.
    intros _. eexists. reflexivity. }
  destruct R as [shown R]. exists shown. split; [exact R|].
  destruct (rows_frame_first_rows _ _ _ R) as [Hv Hc].
  destruct (rows_frame_first_rows _ _ _ R') as [Hv' Hc'].
  unfold records. rewrite Hv, Hc, Hv', Hc'.
  rewrite <- !firstn_map. rewrite firstn_firstn.
  rewrite Nat.min_l by exact Hle. reflexivity.
Qed.

(** X14.  The row limit only cuts the table: with a smaller limit,
    [get_data] returns the payload of the larger limit with its rows cut to
    the smaller one, and the same average. *)
Theorem get_data_limit_only_truncates limit limit' st d1 d2 ms ps ts resp' :
  nth_error (heap st) D1 = Some d1 ->
  nth_error (heap st) D2 = Some d2 ->
  limit <= limit' ->
  fst (get_data_with_limit limit' ms ps ts st) = Ok resp' ->
  fst (get_data_with_limit limit ms ps ts st) =
  Ok (mkResponse (firstn limit (rows resp')) (average resp')).
Proof.
  intros H1 H2 Hle.
  rewrite (get_data_result limit ms ps ts st d1 d2 H1 H2).
  rewrite (get_data_result limit' ms ps ts st d1 d2 H1 H2).
  unfold response_of.
  destruct (negb (truthy ms || truthy ps || truthy ts)).
  { intros E. inversion E. simpl. rewrite firstn_nil. reflexivity. }
  destruct (filter_d1_frame d1 ms ps ts) as [d1f|]; [|discriminate].
  cbn [result_bind].
  destruct (filter_d2_by_d1_frame d2 d1f) as [d2f|]; [|discriminate].
  cbn [result_bind].
  destruct (rows_frame limit' d2f) as [shown'|] eqn:R'; [|discriminate].
  cbn [result_bind].
  destruct (rows_frame_smaller_limit limit limit' d2f shown' Hle R')
    as [shown [R Hrec]].
  rewrite R. cbn [result_bind].
  destruct (avg_series d2f) as [pts|]; [|discriminate].
  cbn [result_bind]. intros E. inversion E. cbn [rows average].
  rewrite Hrec. reflexivity.
Qed.

(** X15.  [get_data] reads the first two tables only: two states that hold
    the same attributes and the same measurements, whatever else they hold
    (the reference table, frames left by earlier requests), get the same
    payload or the same exception. *)
Theorem get_data_reads_d1_and_d2_only limit st st' d1 d2 ms ps ts :
  nth_error (heap st) D1 = Some d1 ->
  nth_error (heap st) D2 = Some d2 ->
  nth_error (heap st') D1 = Some d1 ->
  nth_error (heap st') D2 = Some d2 ->
  fst (get_data_with_limit limit ms ps ts st') =
  fst (get_data_with_limit limit ms ps ts st).
Proof.
  intros H1 H2 H1' H2'.
  rewrite (get_data_result limit ms ps ts st d1 d2 H1 H2).
  apply (get_data_result limit ms ps ts st' d1 d2 H1' H2').
Qed.

(* ===================================================================== *)
(** ** The filter-values endpoint: what it offers *)
(* ===================================================================== *)

Lemma cell_eqb_refl c : cell_eqb c c = true.
Proof.
  destruct c; simpl; auto using String.eqb_refl, number_eqb_refl, Z.eqb_refl.
Qed.

Lemma cell_eqb_same_kind a b : cell_eqb a b = true -> same_kind a b = true.
Proof. destruct a, b; simpl; auto. Qed.

Lemma same_kind_sym a b : same_kind a b = same_kind b a.
Proof. destruct a, b; reflexivity. Qed.

Lemma same_kind_trans a b c :
  same_kind a b = true -> same_kind b c = true -> same_kind a c = true.
Proof. destruct a, b, c; simpl; auto; discriminate. Qed.

Lemma number_leb_total x y : number_leb x y = false -> number_leb y x = true.
Proof.
  unfold number_leb.
  destruct (value x) as [|p|], (value y) as [|q|];
    try reflexivity; try discriminate.
  intros H. apply Qle_bool_iff. destruct (Qlt_le_dec q p) as [L|L].
  - apply Qlt_le_weak. exact L.
  - apply Qle_bool_iff in L. congruence.
Qed.

Lemma cell_le_total a b : cell_le a b = false -> cell_le b a = true.
Proof.
  destruct a, b; simpl; auto; intros H.
  - destruct (String.leb_total s s0) as [E|E]; [congruence|exact E].
  - apply number_leb_total. exact H.
  - apply Z.leb_gt in H. apply Z.leb_le. lia.
Qed.

Lemma insert_cell_in c x l : In c (insert_cell x l) <-> c = x \/ In c l.
Proof.
  induction l as [|y rest IH]; simpl.
  - intuition.
  - destruct (cell_le x y); simpl; [intuition|].
    rewrite IH. intuition.
Qed.

Lemma sort_cells_in c l : In c (fold_right insert_cell [] l) <-> In c l.
Proof.
  induction l as [|x xs IH]; simpl; [reflexivity|].
  rewrite insert_cell_in, IH. intuition.
Qed.

Lemma insert_cell_sorted x l :
  Sorted (fun a b => cell_le a b = true) l ->
  Sorted (fun a b => cell_le a b = true) (insert_cell x l).
Proof.
  induction l as [|y rest IH]; simpl; intros HS.
  - constructor; constructor.
  - destruct (cell_le x y) eqn:E.
    + constructor; [exact HS|]. constructor. exact E.
    + inversion HS as [|? ? HS' HR]; subst.
      constructor; [apply IH; exact HS'|].
      destruct rest as [|z rest']; simpl.
      * constructor. apply cell_le_total. exact E.
      * destruct (cell_le x z).
        -- constructor. apply cell_le_total. exact E.
        -- inversion HR; subst. constructor. assumption.
Qed.

Lemma sort_cells_sorted l :
  Sorted (fun a b => cell_le a b = true) (fold_right insert_cell [] l).
Proof.
  induction l as [|x xs IH]; simpl; [constructor|].
  apply insert_cell_sorted. exact IH.
Qed.

Lemma insert_cell_existsb y x l :
  existsb (cell_eqb y) (insert_cell x l) =
  cell_eqb y x || existsb (cell_eqb y) l.
Proof.
  induction l as [|z rest IH]; simpl; [reflexivity|].
  destruct (cell_le x z); simpl; [reflexivity|].
  rewrite IH. destruct (cell_eqb y x), (cell_eqb y z); reflexivity.
Qed.

Lemma insert_cell_distinct x l :
  existsb (cell_eqb x) l = false ->
  distinct_cells l = true ->
  distinct_cells (insert_cell x l) = true.
Proof.
  induction l as [|y rest IH]; simpl; intros Hx Hd; [reflexivity|].
  apply orb_false_iff in Hx. destruct Hx as [Hxy Hx].
  apply andb_true_iff in Hd. destruct Hd as [Hy Hd].
  destruct (cell_le x y); simpl.
  - rewrite Hxy, Hx, Hy, Hd. reflexivity.
  - rewrite insert_cell_existsb. rewrite (cell_eqb_sym y x), Hxy.
    simpl. rewrite Hy. simpl. apply IH; assumption.
Qed.

Lemma sort_cells_existsb y l :
  existsb (cell_eqb y) (fold_right insert_cell [] l) = existsb (cell_eqb y) l.
Proof.
  induction l as [|x xs IH]; simpl; [reflexivity|].
  rewrite insert_cell_existsb, IH. reflexivity.
Qed.

Lemma sort_cells_distinct l :
  distinct_cells l = true ->
  distinct_cells (fold_right insert_cell [] l) = true.
Proof.
  induction l as [|x xs IH]; simpl; intros H; [reflexivity|].
  apply andb_true_iff in H. destruct H as [Hx Hd].
  apply insert_cell_distinct; [|apply IH; exact Hd].
  rewrite sort_cells_existsb. apply negb_true_iff. exact Hx.
Qed.

Lemma existsb_filter_false {A : Type} (p q : A -> bool) (l : list A) :
  existsb p l = false -> existsb p (filter q l) = false.
Proof.
  induction l as [|x xs IH]; simpl; intros H; [reflexivity|].
  apply orb_false_iff in H. destruct H as [Hx H].
  destruct (q x); simpl; [rewrite Hx|]; apply IH; exact H.
Qed.

Lemma distinct_cells_filter q l :
  distinct_cells l = true -> distinct_cells (filter q l) = true.
Proof.
  induction l as [|x xs IH]; simpl; intros H; [reflexivity|].
  apply andb_true_iff in H. destruct H as [Hx Hd].
  destruct (q x); simpl; [|apply IH; exact Hd].
  apply negb_true_iff in Hx.
  rewrite (existsb_filter_false _ q _ Hx). simpl. apply IH. exact Hd.
Qed.

Lemma unique_distinct l : distinct_cells (unique l) = true.
Proof.
  induction l as [|x xs IH]; simpl; [reflexivity|].
  apply andb_true_iff. split.
  - apply negb_true_iff.
    induction (unique xs) as [|y ys IHy]; simpl; [reflexivity|].
    destruct (cell_eqb x y) eqn:E; simpl; [|rewrite E]; apply IHy.
    + simpl in IH. apply andb_true_iff in IH. apply IH.
    + simpl in IH. apply andb_true_iff in IH. apply IH.
  - apply distinct_cells_filter. exact IH.
Qed.

Lemma unique_in c l : In c (unique l) -> In c l.
Proof.
  induction l as [|x xs IH]; simpl; [auto|].
  intros [E|H]; [left; exact E|].
  right. apply IH. apply filter_In in H. apply H.
Qed.

Lemma dropna_in c s : In c (dropna s) <-> In c s /\ c <> VNull.
Proof.
  unfold dropna. rewrite filter_In. split; intros [H N]; split;
    try exact H.
  - intros E. subst. discriminate.
  - destruct c; try reflexivity. exfalso. apply N. reflexivity.
Qed.

Lemma unique_head x xs : exists rest, unique (x :: xs) = x :: rest /\
  forall c, In c rest -> In c xs.
Proof.
  simpl. eexists. split; [reflexivity|].
  intros c H. apply filter_In in H. apply unique_in. apply H.
Qed.

Lemma one_kind_comparable s :
  one_kind s = true -> comparable (unique (dropna s)) = true.
Proof.
  unfold one_kind. intros H.
  destruct (dropna s) as [|x rest] eqn:D; [reflexivity|].
  destruct (unique_head x rest) as [L [EL HL]]. rewrite EL.
  destruct L as [|y L']; [reflexivity|].
  cbn [comparable]. apply andb_true_iff. split.
  - assert (Hx : In x (dropna s)) by (rewrite D; left; reflexivity).
    apply dropna_in in Hx. destruct x; try reflexivity.
    destruct Hx as [_ N]. contradiction.
  - apply forallb_forall. intros c Hc.
    rewrite forallb_forall in H. apply H. apply HL. exact Hc.
Qed.

Lemma column_cells_of df col :
  has_column col df = true -> column_cells col df = Ok (column_of df col).
Proof.
  intros H. destruct (has_column_index _ _ H) as [i Hi].
  unfold column_cells, column_of. rewrite Hi. f_equal.
  apply map_ext. intros r. symmetry. apply field_at. exact Hi.
Qed.

Lemma options_of_present df col :
  has_column col df = true ->
  options_of df col = sorted (unique (dropna (column_of df col))).
Proof.
  intros H. unfold options_of. rewrite H, (column_cells_of _ _ H).
  reflexivity.
Qed.

(** The values offered for a column: ascending, pairwise distinct, and
    exactly the non-null values of the column. *)
Lemma options_of_spec df col vals :
  options_of df col = Ok vals ->
  Sorted (fun a b => cell_le a b = true) vals /\
  distinct_cells vals = true /\
  (forall c, In c vals -> c <> VNull /\ In c (column_of df col)) /\
  (forall c, In c (column_of df col) -> c <> VNull ->
             exists c', In c' vals /\ cell_eqb c c' = true).
Proof.
  destruct (has_column col df) eqn:Hc.
  - rewrite (options_of_present _ _ Hc). unfold sorted.
    destruct (comparable _); [|discriminate].
    intros E. inversion E. clear E.
    split; [apply sort_cells_sorted|].
    split; [apply sort_cells_distinct; apply unique_distinct|].
    split.
    + intros c Hin. apply (proj1 (sort_cells_in _ _)) in Hin.
      apply unique_in in Hin.
      apply (proj1 (dropna_in _ _)) in Hin. destruct Hin as [Hin N].
      split; assumption.
    + intros c Hin N.
      assert (Hd : In c (dropna (column_of df col)))
        by (apply (proj2 (dropna_in _ _)); split; assumption).
      assert (Hex : existsb (cell_eqb c) (dropna (column_of df col)) = true).
      { apply existsb_exists. exists c. split; [exact Hd|].
        apply cell_eqb_refl. }
      rewrite <- (isin_unique (dropna (column_of df col)) c) in Hex.
      unfold isin in Hex. rewrite <- sort_cells_existsb in Hex.
      apply existsb_exists in Hex. exact Hex.
  - unfold options_of. rewrite Hc. intros E. inversion E.
    split; [constructor|]. split; [reflexivity|]. split.
    + intros c [].
    + intros c Hin N. exfalso. apply N.
      unfold column_of in Hin. apply in_map_iff in Hin.
      destruct Hin as [r [Er _]]. unfold field in Er.
      rewrite (has_column_none _ _ Hc) in Er. congruence.
Qed.

Lemma options_of_raises df col e :
  options_of df col = Raise e -> e = TypeError.
Proof.
  unfold options_of. destruct (has_column col df) eqn:Hc; [|discriminate].
  rewrite (column_cells_of _ _ Hc). cbn [result_bind]. unfold sorted.
  destruct (comparable _); [discriminate|]. congruence.
Qed.

Lemma options_of_one_kind df col :
  one_kind (column_of df col) = true ->
  exists vals, options_of df col = Ok vals.
Proof.
  intros H. destruct (has_column col df) eqn:Hc.
  - rewrite (options_of_present _ _ Hc). unfold sorted.
    rewrite (one_kind_comparable _ H). eexists. reflexivity.
  - unfold options_of. rewrite Hc. eexists. reflexivity.
Qed.

Lemma options_run h c d1 col :
  nth_error h D1 = Some d1 ->
  (if has_column col d1
   then s <- getitem D1 col;; lift (sorted (unique (dropna s)))
   else ret []) (mkState h c) = (options_of d1 col, mkState h c).
Proof.
  intros H. unfold options_of. destruct (has_column col d1); [|reflexivity].
  rewrite (bind_getitem h c D1 d1 _ _ H).
  destruct (column_cells col d1); reflexivity.
Qed.

(** [get_filters] computes [filters_of] of the attributes table and leaves
    the state as it was. *)
Lemma get_filters_loop_run cols payload st d1 :
  nth_error (heap st) D1 = Some d1 ->
  get_filters_loop cols payload st = (filters_of d1 cols payload, st).
Proof.
  destruct st as [h c]. simpl. intros H. revert payload.
  induction cols as [|col rest IH]; intros payload; [reflexivity|].
  cbn [get_filters_loop filters_of].
  rewrite (bind_ok _ _ _ _ _ (deref_run h c D1 d1 H)).
  unfold bind at 1. rewrite (options_run h c d1 col H).
  destruct (options_of d1 col); cbn [result_bind]; [apply IH|reflexivity].
Qed.

Lemma get_filters_result st d1 :
  nth_error (heap st) D1 = Some d1 ->
  get_filters st =
  (result_bind (options_of d1 "machine_id") (fun m =>
   result_bind (options_of d1 "part_number") (fun p =>
   result_bind (options_of d1 "tool_number") (fun t =>
   Ok [("machine_id", m); ("part_number", p); ("tool_number", t)]))), st).
Proof.
  intros H. unfold get_filters.
  rewrite (get_filters_loop_run FILTER_COLUMNS [] st d1 H).
  unfold FILTER_COLUMNS. cbn [filters_of].
  destruct (options_of d1 "machine_id") as [m|]; [|reflexivity].
  cbn [result_bind].
  destruct (options_of d1 "part_number") as [p|]; [|reflexivity].
  cbn [result_bind].
  destruct (options_of d1 "tool_number") as [t|]; reflexivity.
Qed.

Lemma options_of_absent df col vals :
  options_of df col = Ok vals -> has_column col df = false -> vals = [].
Proof.
  unfold options_of. intros E H. rewrite H in E. inversion E. reflexivity.
Qed.

(** X16.  When each of the three columns holds values of one kind (strings,
    say) besides nulls, [get_filters] returns a payload with exactly the
    keys [machine_id], [part_number], [tool_number], in this order; a column
    that the attributes table lacks gets the empty list, not a [KeyError];
    and the state is left as it was. *)
Theorem get_filters_payload st d1 :
  nth_error (heap st) D1 = Some d1 ->
  (forall col, In col FILTER_COLUMNS -> one_kind (column_of d1 col) = true) ->
  exists m p t,
    get_filters st =
    (Ok [("machine_id", m); ("part_number", p); ("tool_number", t)], st) /\
    (has_column "machine_id" d1 = false -> m = []) /\
    (has_column "part_number" d1 = false -> p = []) /\
    (has_column "tool_number" d1 = false -> t = []).
Proof.
  intros H Hk. rewrite (get_filters_result st d1 H).
  destruct (options_of_one_kind d1 "machine_id") as [m Em];
    [apply Hk; simpl; auto|].
  destruct (options_of_one_kind d1 "part_number") as [p Ep];
    [apply Hk; simpl; auto|].
  destruct (options_of_one_kind d1 "tool_number") as [t Et];
    [apply Hk; simpl; auto|].
  rewrite Em, Ep, Et. cbn [result_bind].
  exists m, p, t. split; [reflexivity|].
  split; [|split]; eapply options_of_absent; eassumption.
Qed.

(** X17.  The values [get_filters] offers for a column are in ascending
    order and pairwise distinct, none is null, each occurs in the column of
    the attributes table, and every non-null value of the column is among
    them. *)
Theorem get_filters_options st d1 :
  nth_error (heap st) D1 = Some d1 ->
  (forall col, In col FILTER_COLUMNS -> one_kind (column_of d1 col) = true) ->
  exists payload,
    get_filters st = (Ok payload, st) /\
    forall col vals,
      In (col, vals) payload ->
      Sorted (fun a b => cell_le a b = true) vals /\
      distinct_cells vals = true /\
      (forall c, In c vals -> c <> VNull /\ In c (column_of d1 col)) /\
      (forall c, In c (column_of d1 col) -> c <> VNull ->
                 exists c', In c' vals /\ cell_eqb c c' = true).
Proof.
  intros H Hk. rewrite (get_filters_result st d1 H).
  destruct (options_of_one_kind d1 "machine_id") as [m Em];
    [apply Hk; simpl; auto|].
  destruct (options_of_one_kind d1 "part_number") as [p Ep];
    [apply Hk; simpl; auto|].
  destruct (options_of_one_kind d1 "tool_number") as [t Et];
    [apply Hk; simpl; auto|].
  rewrite Em, Ep, Et. cbn [result_bind].
  eexists. split; [reflexivity|].
  intros col vals [E|[E|[E|[]]]]; inversion E; subst;
    apply options_of_spec; assumption.
Qed.

Lemma comparable_same_kind l u v :
  comparable l = true -> In u l -> In v l -> same_kind u v = true.
Proof.
  destruct l as [|x [|y r]]; intros C Hu Hv.
  - contradiction.
  - destruct Hu as [<-|[]], Hv as [<-|[]]. destruct x; reflexivity.
  - cbn [comparable] in C. apply andb_true_iff in C. destruct C as [_ C].
    rewrite forallb_forall in C.
    assert (K : forall c, In c (x :: y :: r) -> same_kind x c = true).
    { intros c [<-|Hc]; [destruct x; reflexivity|apply C; exact Hc]. }
    apply (same_kind_trans u x v); [|apply K; exact Hv].
    rewrite same_kind_sym. apply K. exact Hu.
Qed.

Lemma options_of_mixed df col a b :
  In a (column_of df col) -> In b (column_of df col) ->
  a <> VNull -> b <> VNull -> same_kind a b = false ->
  options_of df col = Raise TypeError.
Proof.
  intros Ha Hb Na Nb K.
  assert (Hc : has_column col df = true).
  { destruct (has_column col df) eqn:Hc; [reflexivity|]. exfalso. apply Na.
    unfold column_of in Ha. apply in_map_iff in Ha.
    destruct Ha as [r [Er _]]. unfold field in Er.
    rewrite (has_column_none _ _ Hc) in Er. congruence. }
  rewrite (options_of_present _ _ Hc). unfold sorted.
  destruct (comparable (unique (dropna (column_of df col)))) eqn:C;
    [|reflexivity].
  exfalso.
  assert (Rep : forall c, In c (column_of df col) -> c <> VNull ->
            exists c', In c' (unique (dropna (column_of df col))) /\
                       cell_eqb c c' = true).
  { intros c Hin N.
    assert (Hex : existsb (cell_eqb c) (dropna (column_of df col)) = true).
    { apply existsb_exists. exists c. split; [|apply cell_eqb_refl].
      apply (proj2 (dropna_in _ _)). split; assumption. }
    rewrite <- (isin_unique (dropna (column_of df col)) c) in Hex.
    apply existsb_exists in Hex. exact Hex. }
  destruct (Rep a Ha Na) as [a' [Ha' Ea]].
  destruct (Rep b Hb Nb) as [b' [Hb' Eb]].
  pose proof (comparable_same_kind _ _ _ C Ha' Hb') as K'.
  apply cell_eqb_same_kind in Ea, Eb.
  rewrite (same_kind_sym b b') in Eb.
  rewrite (same_kind_trans a a' b Ea (same_kind_trans a' b' b K' Eb)) in K.
  discriminate.
Qed.

(** X18.  When one of the three columns of the attributes table mixes
    kinds, a string and a number say, [get_filters] raises [TypeError]:
    [sorted] cannot order them. *)
Theorem get_filters_mixed_column_raises st d1 col a b :
  nth_error (heap st) D1 = Some d1 ->
  In col FILTER_COLUMNS ->
  In a (column_of d1 col) ->
  In b (column_of d1 col) ->
  a <> VNull -> b <> VNull ->
  same_kind a b = false ->
  fst (get_filters st) = Raise TypeError.
Proof.
  intros H Hcol Ha Hb Na Nb K.
  rewrite (get_filters_result st d1 H). cbn [fst].
  pose proof (options_of_mixed d1 col a b Ha Hb Na Nb K) as E.
  destruct (options_of d1 "machine_id") as [m|e1] eqn:E1.
  2:{ rewrite (options_of_raises _ _ _ E1). reflexivity. }
  cbn [result_bind].
  destruct (options_of d1 "part_number") as [p|e2] eqn:E2.
  2:{ rewrite (options_of_raises _ _ _ E2). reflexivity. }
  cbn [result_bind].
  destruct (options_of d1 "tool_number") as [t|e3] eqn:E3.
  2:{ rewrite (options_of_raises _ _ _ E3). reflexivity. }
  exfalso. destruct Hcol as [<-|[<-|[<-|[]]]]; congruence.
Qed.

(** X19.  What [get_filters] offers, [filter_d1] finds: a string offered
    for [machine_id], sent back as the only selection, keeps at least one
    attribute row, and only rows of that machine. *)
Theorem offered_machine_matches st d1 payload vals v :
  nth_error (heap st) D1 = Some d1 ->
  fst (get_filters st) = Ok payload ->
  In ("machine_id", vals) payload ->
  In (VStr v) vals ->
  exists l f,
    fst (filter_d1 D1 (Some [v]) None None st) = Ok l /\
    nth_error (heap (snd (filter_d1 D1 (Some [v]) None None st))) l = Some f /\
    values f <> [] /\
    forall r, In r (values f) -> field d1 "machine_id" r = VStr v.
Proof.
  intros H Hp Hin Hv.
  rewrite (get_filters_result st d1 H) in Hp. cbn [fst] in Hp.
  destruct (options_of d1 "machine_id") as [m|] eqn:Em; [|discriminate].
  cbn [result_bind] in Hp.
  destruct (options_of d1 "part_number") as [p|]; [|discriminate].
  cbn [result_bind] in Hp.
  destruct (options_of d1 "tool_number") as [t|]; [|discriminate].
  cbn [result_bind] in Hp. inversion Hp. subst payload. clear Hp.
  assert (vals = m).
  { destruct Hin as [E|[E|[E|[]]]]; inversion E. reflexivity. }
  subst vals.
  destruct (options_of_spec d1 "machine_id" m Em) as [_ [_ [Hsound _]]].
  destruct (Hsound _ Hv) as [_ Hcol].
  assert (Hc : has_column "machine_id" d1 = true).
  { destruct (has_column "machine_id" d1) eqn:Hc; [reflexivity|].
    rewrite (options_of_absent _ _ _ Em Hc) in Hv. contradiction. }
  unfold column_of in Hcol. apply in_map_iff in Hcol.
  destruct Hcol as [r [Er Hr]].
  assert (E : filter_d1_frame d1 (Some [v]) None None =
              Ok (mkFrame (columns d1)
                    (filter
                       (fun r =>
                          admits (Some [v]) (field d1 "machine_id" r) &&
                          admits None (field d1 "part_number" r) &&
                          admits None (field d1 "tool_number" r))
                       (values d1)))).
  { apply filter_d1_frame_admits; [intros _; exact Hc| |]; discriminate. }
  destruct (filter_d1_returns st D1 d1 _ _ _ _ H E) as [l [Hl Hf]].
  eexists l, _. split; [exact Hl|]. split; [exact Hf|].
  cbn [values]. split.
  - assert (Hrin : In r (filter
                (fun r => admits (Some [v]) (field d1 "machine_id" r) &&
                          admits None (field d1 "part_number" r) &&
                          admits None (field d1 "tool_number" r))
                (values d1))).
    { apply filter_In. split; [exact Hr|]. rewrite Er. simpl.
      rewrite String.eqb_refl. reflexivity. }
    intros E0. rewrite E0 in Hrin. contradiction.
  - intros r' Hr'. apply filter_In in Hr'. destruct Hr' as [_ Ha].
    cbn [admits] in Ha. rewrite !andb_true_r in Ha.
    destruct (field d1 "machine_id" r') as [s| | |]; try discriminate.
    simpl in Ha. rewrite orb_false_r in Ha.
    apply String.eqb_eq in Ha. subst. reflexivity.
Qed.

(* ===================================================================== *)
(** ** Start-up: the store after [load_data] *)
(* ===================================================================== *)

Lemma column_index_same_labels c (cols cols' : list (string * dtype)) :
  map fst cols = map fst cols' -> column_index c cols = column_index c cols'.
Proof.
  revert cols'. induction cols as [|[n d] rest IH]; intros [|[n' d'] rest'] E;
    try discriminate; [reflexivity|].
  simpl in E. inversion E. simpl. rewrite (IH rest') by assumption.
  reflexivity.
Qed.

Lemma nth_error_set_nth {A : Type} (l : list A) i x y :
  nth_error l i = Some y -> nth_error (set_nth i x l) i = Some x.
Proof.
  revert i. induction l as [|a l IH]; intros [|i] H; try discriminate.
  - reflexivity.
  - simpl. apply IH. exact H.
Qed.

Lemma row_typed_set_nth cols r i n d d' c :
  row_typed cols r = true ->
  nth_error cols i = Some (n, d) ->
  cell_has d' c = true ->
  row_typed (set_nth i (n, d') cols) (set_nth i c r) = true.
Proof.
  revert r i. induction cols as [|[n0 d0] rest IH]; intros r i HT HN Hc.
  - destruct i; discriminate.
  - destruct r as [|x r']; simpl in HT; [discriminate|].
    apply andb_true_iff in HT. destruct HT as [Hx Hr].
    destruct i as [|i']; simpl in *.
    + rewrite Hc, Hr. reflexivity.
    + rewrite Hx. simpl. apply IH; assumption.
Qed.

(** Writing timestamps under a column keeps a frame well formed and gives
    the column the datetime dtype of the series. *)
Lemma set_column_datetime df c i d' tz series :
  well_formed df = true ->
  column_index c (columns df) = Some i ->
  timezone d' = Some tz ->
  forallb time_or_null series = true ->
  well_formed (set_column i d' series df) = true /\
  column_dtype c (set_column i d' series df) = Some d' /\
  map fst (columns (set_column i d' series df)) = map fst (columns df).
Proof.
  intros WF Hi Hz Hs.
  destruct (column_index_nth _ _ _ Hi) as [d Hn].
  assert (L : map fst (columns (set_column i d' series df)) =
              map fst (columns df)).
  { unfold set_column. cbn [columns]. rewrite Hn.
    apply (set_nth_labels _ _ _ _ _ Hn). }
  unfold well_formed in *. apply andb_true_iff in WF.
  destruct WF as [Hd Hr]. rewrite forallb_forall in Hr, Hs.
  split; [|split; [|exact L]].
  - apply andb_true_iff. split; [rewrite L; exact Hd|].
    unfold set_column. cbn [columns values]. rewrite Hn.
    apply forallb_forall. intros r Hin. apply in_map_iff in Hin.
    destruct Hin as [[r0 c0] [E Hin]]. subst r. cbn [fst snd].
    apply (row_typed_set_nth _ _ _ _ d); [|exact Hn|].
    + apply Hr. apply (in_combine_l _ _ _ _ Hin).
    + pose proof (Hs c0 (in_combine_r _ _ _ _ Hin)) as T.
      destruct d'; try discriminate Hz;
        destruct c0; try discriminate; reflexivity.
  - unfold column_dtype.
    rewrite (column_index_same_labels c _ (columns df) L), Hi.
    unfold set_column. cbn [columns]. rewrite Hn.
    rewrite (nth_error_set_nth _ _ _ _ Hn). reflexivity.
Qed.

Lemma set_column_rows df i d series :
  length series = length (values df) ->
  length (values (set_column i d series df)) = length (values df).
Proof.
  intros E. unfold set_column. cbn [values].
  rewrite length_map, length_combine, E. apply Nat.min_id.
Qed.

(** The run of [load_data] when every step succeeds. *)
Lemma load_data_run config read_parquet to_datetime
    cfg p1 p2 p3 f1 f2 f3 d' tz s' :
  config = Ok cfg ->
  dict_get "d1" cfg = Ok p1 ->
  dict_get "d2" cfg = Ok p2 ->
  dict_get "d3" cfg = Ok p3 ->
  read_parquet p1 = Ok f1 ->
  read_parquet p2 = Ok f2 ->
  read_parquet p3 = Ok f3 ->
  well_formed f2 = true ->
  has_column "timestamp" f2 = true ->
  to_datetime (column_of f2 "timestamp") = Ok (d', s') ->
  timezone d' = Some tz ->
  length s' = length (values f2) ->
  forallb time_or_null s' = true ->
  exists d2,
    load_data config read_parquet to_datetime (mkState [] []) =
    (Ok (D1, D2, D3), mkState [f1; d2; f3] []) /\
    well_formed d2 = true /\
    column_dtype "timestamp" d2 = Some d' /\
    map fst (columns d2) = map fst (columns f2) /\
    length (values d2) = length (values f2).
Proof.
  intros Hcfg H1 H2 H3 R1 R2 R3 WF Hc Hdt Hz Hlen Hs.
  destruct (has_column_index _ _ Hc) as [i Hi].
  destruct (set_column_datetime f2 "timestamp" i d' tz s' WF Hi Hz Hs)
    as [WF' [HD' HL']].
  exists (set_column i d' s' f2).
  split; [|split; [exact WF'|split; [exact HD'|split; [exact HL'|]]]].
  - unfold load_data. subst config.
    unfold lift, bind, alloc, deref, ret. cbn [heap calls].
    rewrite H1, R1, H2, R2, H3, R3. cbn [app length nth_error].
    rewrite Hc.
    pose proof (getitem_run [f1; f2; f3] [] 1 f2 "timestamp" eq_refl) as G.
    unfold lift in G. rewrite G.
    rewrite (column_cells_of _ _ Hc), Hdt.
    unfold setitem_typed, bind, deref, assign.
    cbn [heap calls nth_error fst snd]. rewrite Hi. reflexivity.
  - apply set_column_rows. exact Hlen.
Qed.

(** X20.  Start-up, when the three files are read and the measurements have
    a [timestamp] column that [pd.to_datetime] converts: the store holds the
    attributes and the reference table as read, and the measurements with
    the same labels and as many rows, well formed, their [timestamp] column
    now a datetime column, of the dtype of the converted series (naive, or
    with its time zone). *)
Theorem load_data_normalizes_timestamps config read_parquet to_datetime
    cfg p1 p2 p3 f1 f2 f3 d' tz s' :
  config = Ok cfg ->
  dict_get "d1" cfg = Ok p1 ->
  dict_get "d2" cfg = Ok p2 ->
  dict_get "d3" cfg = Ok p3 ->
  read_parquet p1 = Ok f1 ->
  read_parquet p2 = Ok f2 ->
  read_parquet p3 = Ok f3 ->
  well_formed f2 = true ->
  has_column "timestamp" f2 = true ->
  to_datetime (column_of f2 "timestamp") = Ok (d', s') ->
  timezone d' = Some tz ->
  length s' = length (values f2) ->
  forallb time_or_null s' = true ->
  exists d2,
    load_data config read_parquet to_datetime (mkState [] []) =
    (Ok (D1, D2, D3), mkState [f1; d2; f3] []) /\
    well_formed d2 = true /\
    column_dtype "timestamp" d2 = Some d' /\
    map fst (columns d2) = map fst (columns f2) /\
    length (values d2) = length (values f2).
Proof. apply load_data_run. Qed.

Lemma has_column_same_labels c df df' :
  map fst (columns df') = map fst (columns df) ->
  has_column c df' = has_column c df.
Proof.
  intros E. unfold has_column.
  rewrite (column_index_same_labels c _ _ E). reflexivity.
Qed.

(** X21.  Start-up, then a request.  From the empty state, when the three
    files are read, the measurements are well formed with a [machine_id]
    column and a [timestamp] column that [pd.to_datetime] converts, the
    attributes have a [machine_id] column and every column that has a
    non-empty selection, and the selection is not empty and admits an
    attribute row: on the store that [load_data] leaves, [get_data] raises
    nothing up to its last line and builds a payload of at most
    [TABLE_ROW_LIMIT] rows, which it hands to [JSONResponse]. *)
Theorem request_after_startup config read_parquet to_datetime
    cfg p1 p2 p3 f1 f2 f3 d' tz s' ms ps ts r :
  config = Ok cfg ->
  dict_get "d1" cfg = Ok p1 ->
  dict_get "d2" cfg = Ok p2 ->
  dict_get "d3" cfg = Ok p3 ->
  read_parquet p1 = Ok f1 ->
  read_parquet p2 = Ok f2 ->
  read_parquet p3 = Ok f3 ->
  well_formed f2 = true ->
  has_column "timestamp" f2 = true ->
  has_column "machine_id" f2 = true ->
  to_datetime (column_of f2 "timestamp") = Ok (d', s') ->
  timezone d' = Some tz ->
  length s' = length (values f2) ->
  forallb time_or_null s' = true ->
  truthy ms || truthy ps || truthy ts = true ->
  has_column "machine_id" f1 = true ->
  (truthy ps = true -> has_column "part_number" f1 = true) ->
  (truthy ts = true -> has_column "tool_number" f1 = true) ->
  In r (values f1) ->
  admits ms (field f1 "machine_id" r) &&
  admits ps (field f1 "part_number" r) &&
  admits ts (field f1 "tool_number" r) = true ->
  exists st0 resp,
    load_data config read_parquet to_datetime (mkState [] []) =
    (Ok (D1, D2, D3), st0) /\
    fst (get_data ms ps ts st0) = Ok resp /\
    length (rows resp) <= TABLE_ROW_LIMIT.
Proof.
  intros Hcfg H1 H2 H3 R1 R2 R3 WF Hc Hm2 Hdt Hz Hlen Hs Hany Hm Hp Ht Hr Hadm.
  destruct (load_data_run config read_parquet to_datetime cfg p1 p2 p3
              f1 f2 f3 d' tz s' Hcfg H1 H2 H3 R1 R2 R3 WF Hc Hdt Hz Hlen Hs)
    as [d2 [Hrun [WF' [HD' [HL' _]]]]].
  assert (Hm2' : has_column "machine_id" d2 = true)
    by (rewrite (has_column_same_labels _ _ _ HL'); exact Hm2).
  destruct (get_data_match_returns TABLE_ROW_LIMIT (mkState [f1; d2; f3] [])
              f1 d2 d' tz ms ps ts r eq_refl eq_refl Hany Hm Hp Ht Hr Hadm
              Hm2' WF' HD' Hz) as [resp [Hresp Hlen']].
  exists (mkState [f1; d2; f3] []), resp.
  split; [exact Hrun|]. split; [exact Hresp|exact Hlen'].
Qed.

(* ===================================================================== *)
(** ** The further theorems at the small stores *)
(* ===================================================================== *)

Lemma filter_d1_missing_column_witness :
  fst (filter_d1 D1 (Some ["M1"]) None None parts_state) =
  Raise (KeyError "machine_id") /\
  fst (filter_d1 D1 None (Some ["P1"]) (Some ["T1"]) parts_state) =
  Raise (KeyError "tool_number").
Proof.
  split.
  - apply (proj1 (filter_d1_missing_column parts_state D1 demo_parts
                    (Some ["M1"]) None None eq_refl)); reflexivity.
  - apply (proj2 (proj2 (filter_d1_missing_column parts_state D1 demo_parts
                           None (Some ["P1"]) (Some ["T1"]) eq_refl)));
      try reflexivity; discriminate.
Defined.

Lemma filter_d1_needs_selected_columns_only_witness :
  exists l,
    fst (filter_d1 D1 None (Some ["P1"]) None parts_state) = Ok l /\
    nth_error (heap (snd (filter_d1 D1 None (Some ["P1"]) None parts_state))) l =
    Some (mkFrame (columns demo_parts)
            (filter
               (fun r =>
                  admits None (field demo_parts "machine_id" r) &&
                  admits (Some ["P1"]) (field demo_parts "part_number" r) &&
                  admits None (field demo_parts "tool_number" r))
               (values demo_parts))).
Proof.
  apply (filter_d1_needs_selected_columns_only parts_state D1 demo_parts);
    try reflexivity; discriminate.
Defined.

Lemma filter_d1_returns_a_new_frame_witness :
  (forall l,
     fst (filter_d1 D1 (Some ["M1"]) None None demo_state) = Ok l ->
     nth_error (heap demo_state) l = None /\ l <> D1) /\
  (truthy (Some ["M1"]) = false -> truthy None = false -> truthy None = false ->
   exists l,
     fst (filter_d1 D1 (Some ["M1"]) None None demo_state) = Ok l /\
     nth_error (heap demo_state) l = None /\
     nth_error (heap (snd (filter_d1 D1 (Some ["M1"]) None None demo_state))) l =
     Some demo_attributes).
Proof.
  apply (filter_d1_returns_a_new_frame demo_state D1 demo_attributes).
  reflexivity.
Defined.

Lemma filter_d1_idempotent_witness :
  observe
    (filter_d1 4 (Some ["M1"]) None None
       (snd (filter_d1 D1 (Some ["M1"]) None None demo_state))) =
  observe (filter_d1 D1 (Some ["M1"]) None None demo_state).
Proof.
  apply (filter_d1_idempotent demo_state D1 demo_attributes); reflexivity.
Defined.

Lemma filter_d1_numeric_column_matches_nothing_witness :
  exists l,
    fst (filter_d1 D1 (Some ["1"]) None None numbered_state) = Ok l /\
    nth_error (heap (snd (filter_d1 D1 (Some ["1"]) None None numbered_state))) l =
    Some (mkFrame (columns numbered_attributes) []).
Proof.
  apply (filter_d1_numeric_column_matches_nothing numbered_state D1
           numbered_attributes);
    try reflexivity; discriminate.
Defined.

Lemma filter_d2_by_d1_missing_machine_id_witness :
  fst (filter_d2_by_d1 D2 D1 parts_state) = Raise (KeyError "machine_id") /\
  fst (filter_d2_by_d1 D3 D1 demo_state) = Raise (KeyError "machine_id").
Proof.
  split.
  - apply (proj1 (filter_d2_by_d1_missing_machine_id parts_state D2 D1
                    demo_measurements demo_parts eq_refl eq_refl eq_refl)).
    reflexivity.
  - apply (proj2 (filter_d2_by_d1_missing_machine_id demo_state D3 D1
                    demo_reference demo_attributes eq_refl eq_refl eq_refl));
      reflexivity.
Defined.

Lemma filter_d2_by_d1_empty_has_object_columns_witness :
  exists l' f,
    fst (filter_d2_by_d1 D2 D3 demo_state) = Ok l' /\
    nth_error (heap (snd (filter_d2_by_d1 D2 D3 demo_state))) l' = Some f /\
    Forall (fun c => snd c = Object) (columns f) /\
    numeric_cols f = [] /\
    (has_column "timestamp" demo_measurements = true ->
     column_dtype "timestamp" f = Some Object).
Proof.
  apply (filter_d2_by_d1_empty_has_object_columns demo_state D2 D3
           demo_measurements demo_reference); reflexivity.
Defined.

Lemma machine_selection_reaches_measurements_witness :
  exists l f,
    fst ((d1_filtered <- filter_d1 D1 (Some ["M1"]) None None;;
          filter_d2_by_d1 D2 d1_filtered) demo_state) = Ok l /\
    nth_error
      (heap (snd ((d1_filtered <- filter_d1 D1 (Some ["M1"]) None None;;
                   filter_d2_by_d1 D2 d1_filtered) demo_state))) l = Some f /\
    map fst (columns f) = map fst (columns demo_measurements) /\
    values f =
    filter
      (fun r =>
         match field demo_measurements "machine_id" r with
         | VStr s =>
             existsb (String.eqb s) ["M1"] &&
             existsb (cell_eqb (VStr s)) (column_of demo_attributes "machine_id")
         | _ => false
         end)
      (values demo_measurements).
Proof.
  apply (machine_selection_reaches_measurements demo_state demo_attributes
           demo_measurements "M1" []); reflexivity.
Defined.

Lemma build_avg_time_series_single_row_group_witness :
  exists pts,
    fst (build_avg_time_series D2 clean_state) = Ok pts /\
    In (mkPoint (isoformat None T2) (float_of_Z 30)) pts.
Proof.
  apply (build_avg_time_series_single_row_group clean_state D2
           clean_measurements "value" Datetime None T2
           [VStr "M1"; VTime T2; VFloat 30]
           (FFinite false 8444249301319680 (-48)));
    reflexivity.
Defined.



Lemma get_data_returns_on_a_match_witness :
  exists resp,
    fst (get_data_with_limit 2 (Some ["M1"]) None None clean_state) = Ok resp /\
    length (rows resp) <= 2.
Proof.
  apply (get_data_returns_on_a_match 2 clean_state demo_attributes
           clean_measurements Datetime None (Some ["M1"]) None None
           [VStr "M1"; VStr "P1"; VStr "T1"]);
    try reflexivity; try discriminate.
  left. reflexivity.
Defined.

Lemma get_data_without_timestamp_column_witness :
  exists resp,
    fst (get_data_with_limit 2 (Some ["M9"]) None None untimed_state) = Ok resp /\
    average resp = [] /\
    length (rows resp) <= 2.
Proof.
  apply (get_data_without_timestamp_column 2 untimed_state demo_attributes
           untimed_measurements); try reflexivity; discriminate.
Defined.

Lemma get_data_limit_only_truncates_witness :
  exists resp',
    fst (get_data_with_limit 5 (Some ["M1"]) None None demo_state) = Ok resp' /\
    fst (get_data_with_limit 2 (Some ["M1"]) None None demo_state) =
    Ok (mkResponse (firstn 2 (rows resp')) (average resp')).
Proof.
  eexists. split.
  - cbv. reflexivity.
  - apply (get_data_limit_only_truncates 2 5 demo_state demo_attributes
             demo_measurements); [reflexivity|reflexivity|lia|].
    cbv. reflexivity.
Defined.

Lemma get_data_reads_d1_and_d2_only_witness :
  fst (get_data_with_limit 2 (Some ["M1"]) None None later_state) =
  fst (get_data_with_limit 2 (Some ["M1"]) None None demo_state).
Proof.
  apply (get_data_reads_d1_and_d2_only 2 demo_state later_state
           demo_attributes demo_measurements); reflexivity.
Defined.

Lemma get_filters_payload_witness :
  exists m p t,
    get_filters demo_state =
    (Ok [("machine_id", m); ("part_number", p); ("tool_number", t)],
     demo_state) /\
    (has_column "machine_id" demo_attributes = false -> m = []) /\
    (has_column "part_number" demo_attributes = false -> p = []) /\
    (has_column "tool_number" demo_attributes = false -> t = []).
Proof.
  apply (get_filters_payload demo_state demo_attributes).
  - reflexivity.
  - intros col [E|[E|[E|[]]]]; subst col; reflexivity.
Defined.

Lemma get_filters_options_witness :
  exists payload,
    get_filters demo_state = (Ok payload, demo_state) /\
    forall col vals,
      In (col, vals) payload ->
      Sorted (fun a b => cell_le a b = true) vals /\
      distinct_cells vals = true /\
      (forall c, In c vals ->
                 c <> VNull /\ In c (column_of demo_attributes col)) /\
      (forall c, In c (column_of demo_attributes col) -> c <> VNull ->
                 exists c', In c' vals /\ cell_eqb c c' = true).
Proof.
  apply (get_filters_options demo_state demo_attributes).
  - reflexivity.
  - intros col [E|[E|[E|[]]]]; subst col; reflexivity.
Defined.

Lemma get_filters_mixed_column_raises_witness :
  fst (get_filters mixed_state) = Raise TypeError.
Proof.
  apply (get_filters_mixed_column_raises mixed_state mixed_attributes
           "machine_id" (VStr "M1") (VNum (Int 2))).
  - reflexivity.
  - left. reflexivity.
  - left. reflexivity.
  - right. left. reflexivity.
  - discriminate.
  - discriminate.
  - reflexivity.
Defined.

Lemma offered_machine_matches_witness :
  exists l f,
    fst (filter_d1 D1 (Some ["M2"]) None None demo_state) = Ok l /\
    nth_error (heap (snd (filter_d1 D1 (Some ["M2"]) None None demo_state))) l =
    Some f /\
    values f <> [] /\
    forall r, In r (values f) -> field demo_attributes "machine_id" r = VStr "M2".
Proof.
  apply (offered_machine_matches demo_state demo_attributes
           [("machine_id", [VStr "M1"; VStr "M2"]);
            ("part_number", [VStr "P1"]);
            ("tool_number", [VStr "T1"; VStr "T9"])]
           [VStr "M1"; VStr "M2"] "M2").
  - reflexivity.
  - reflexivity.
  - left. reflexivity.
  - right. left. reflexivity.
Defined.

Lemma load_data_normalizes_timestamps_witness :
  exists d2,
    load_data demo_config demo_read_parquet demo_to_datetime (mkState [] []) =
    (Ok (D1, D2, D3), mkState [demo_attributes; d2; demo_reference] []) /\
    well_formed d2 = true /\
    column_dtype "timestamp" d2 = Some Datetime /\
    map fst (columns d2) = map fst (columns raw_measurements) /\
    length (values d2) = length (values raw_measurements).
Proof.
  apply (load_data_normalizes_timestamps demo_config demo_read_parquet
           demo_to_datetime
           [("d1", "d1.parquet"); ("d2", "d2.parquet"); ("d3", "d3.parquet")]
           "d1.parquet" "d2.parquet" "d3.parquet"
           demo_attributes raw_measurements demo_reference
           Datetime None
           [VTime T2; VTime T1; VTime T1; VNull]); reflexivity.
Defined.

Lemma request_after_startup_witness :
  exists st0 resp,
    load_data demo_config clean_read_parquet demo_to_datetime (mkState [] []) =
    (Ok (D1, D2, D3), st0) /\
    fst (get_data (Some ["M1"]) None None st0) = Ok resp /\
    length (rows resp) <= TABLE_ROW_LIMIT.
Proof.
  apply (request_after_startup demo_config clean_read_parquet demo_to_datetime
           [("d1", "d1.parquet"); ("d2", "d2.parquet"); ("d3", "d3.parquet")]
           "d1.parquet" "d2.parquet" "d3.parquet"
           demo_attributes clean_raw_measurements demo_reference
           Datetime None
           [VTime T2; VTime T1; VTime T1; VTime T1]
           (Some ["M1"]) None None [VStr "M1"; VStr "P1"; VStr "T1"]);
    try reflexivity; try discriminate.
  left. reflexivity.
Defined.
